(** * Questify: a TF-IDF / cosine-similarity text search engine

    A shallow embedding of the indexing and ranking pipeline of the Python
    sources (utils/text_preprocessor.py, core/query_processor.py,
    core/indexer.py, core/similarity.py, core/ranker.py,
    storage/document_store.py, main/main.py) and the properties the
    specification states about it.

    Modelling conventions.
    - A Python [str] is a [string] whose characters are read as the code
      points U+0000..U+00FF.
    - A Python [dict] is an association list in insertion order with unique
      keys ([PyDict]); a Python [set] is a duplicate-free list ([PySet]).
      The iteration order of a real [set] is unspecified, no statement below
      depends on it.
    - A Python exception is a value of [exn]; code that may raise returns a
      [result].
    - A Python [float] is a carrier [F] with the operations of the class
      [PyFloat]. The indexer and the engine are evaluated over the real
      numbers (exact arithmetic: no rounding, overflow or NaN); the
      similarity calculator is generic and is also run on IEEE binary64. *)

From Stdlib Require Import Floats.
From Stdlib Require Import List String Ascii Bool Arith ZArith Lia.
From Stdlib Require Import Reals Lra Psatz.
From Stdlib Require Import Permutation Sorted.
Import ListNotations.

Set Implicit Arguments.

(* ------------------------------------------------------------------ *)
(** ** Exceptions *)

Inductive exn : Type :=
| ZeroDivisionError (message : string)
| KeyError (key : string)
| ValueError
| OverflowError.

Inductive result (A : Type) : Type :=
| Ok (a : A)
| Raise (e : exn).

Arguments Ok {A} a.
Arguments Raise {A} e.

Definition bind {A B : Type} (m : result A) (k : A -> result B) : result B :=
  match m with
  | Ok a => k a
  | Raise e => Raise e
  end.

Notation "x <- m ;; k" := (bind m (fun x => k))
  (at level 61, m at next level, right associativity).

(** [repr] of a [str], for the code points U+0000..U+00FF: between single
    quotes, or between double quotes when the string has a single quote and
    no double quote; the quote in use and the backslash are escaped with a
    backslash, TAB, LF and CR are written [\t], [\n] and [\r], and every
    other character that is not printable is written [\xhh]. *)
Module PyRepr.
Definition quote : ascii := ascii_of_nat 39.
Definition double_quote : ascii := ascii_of_nat 34.
Definition backslash : ascii := ascii_of_nat 92.

Fixpoint contains (c : ascii) (s : string) : bool :=
  match s with
  | EmptyString => false
  | String d r => Ascii.eqb c d || contains c r
  end.

Definition hex_digit (n : nat) : ascii :=
  if (n <? 10)%nat then ascii_of_nat (48 + n) else ascii_of_nat (87 + n).

(** [str.isprintable] on one character: not the control characters, NBSP
    or the soft hyphen. *)
Definition printable (c : ascii) : bool :=
  let n := nat_of_ascii c in
  ((32 <=? n) && (n <? 127) || (161 <=? n) && negb (n =? 173))%nat.

Definition escape (q c : ascii) : string :=
  let n := nat_of_ascii c in
  if Ascii.eqb c q || Ascii.eqb c backslash
  then String backslash (String c EmptyString)
  else if (n =? 9)%nat then String backslash (String "t"%char EmptyString)
  else if (n =? 10)%nat then String backslash (String "n"%char EmptyString)
  else if (n =? 13)%nat then String backslash (String "r"%char EmptyString)
  else if printable c then String c EmptyString
  else String backslash
         (String "x"%char
            (String (hex_digit (n / 16))
               (String (hex_digit (n mod 16)) EmptyString))).

Fixpoint escape_all (q : ascii) (s : string) : string :=
  match s with
  | EmptyString => EmptyString
  | String c r => (escape q c ++ escape_all q r)%string
  end.

Definition repr (s : string) : string :=
  let q :=
    if contains quote s && negb (contains double_quote s)
    then double_quote else quote in
  String q (escape_all q s ++ String q EmptyString)%string.
End PyRepr.

(** [str(e)] for the exceptions above; that of a [KeyError] is the [repr]
    of its key. *)
Definition exn_str (e : exn) : string :=
  match e with
  | ZeroDivisionError message => message
  | KeyError k => PyRepr.repr k
  | ValueError => "math domain error"
  | OverflowError => "(34, 'Numerical result out of range')"
  end%string.

(* ------------------------------------------------------------------ *)
(** ** Python strings *)

Module PyStr.
Open Scope char_scope.
Open Scope string_scope.

Definition code (c : ascii) : nat := nat_of_ascii c.

Definition in_range (lo hi : nat) (c : ascii) : bool :=
  (lo <=? code c)%nat && (code c <=? hi)%nat.

Definition is_lower (c : ascii) : bool := in_range 97 122 c.
Definition is_upper (c : ascii) : bool := in_range 65 90 c.
Definition is_digit (c : ascii) : bool := in_range 48 57 c.

(** The regular-expression class [a-zA-Z0-9]. *)
Definition is_alnum (c : ascii) : bool :=
  is_lower c || is_upper c || is_digit c.

(** [str.isspace] on one character, which is what [str.strip()] and
    [str.split()] use: TAB..CR, FS..US, SPACE, NEL and NBSP. *)
Definition is_space (c : ascii) : bool :=
  in_range 9 13 c || in_range 28 32 c ||
  (code c =? 133)%nat || (code c =? 160)%nat.

(** [str.lower()] on one character: A-Z and the upper-case letters of
    U+00C0..U+00DE (all but the multiplication sign U+00D7). *)
Definition lower_char (c : ascii) : ascii :=
  if is_upper c then ascii_of_nat (code c + 32)
  else if in_range 192 222 c && negb (code c =? 215)%nat
       then ascii_of_nat (code c + 32)
  else c.

Fixpoint map (f : ascii -> ascii) (s : string) : string :=
  match s with
  | EmptyString => EmptyString
  | String c r => String (f c) (map f r)
  end.

Fixpoint filter (p : ascii -> bool) (s : string) : string :=
  match s with
  | EmptyString => EmptyString
  | String c r => if p c then String c (filter p r) else filter p r
  end.

Fixpoint forallb (p : ascii -> bool) (s : string) : bool :=
  match s with
  | EmptyString => true
  | String c r => p c && forallb p r
  end.

Definition lower (s : string) : string := map lower_char s.

Fixpoint lstrip (s : string) : string :=
  match s with
  | EmptyString => EmptyString
  | String c r => if is_space c then lstrip r else s
  end.

(** Removes trailing whitespace: a character is kept when it is not
    whitespace or something that is kept follows it. *)
Fixpoint rstrip (s : string) : string :=
  match s with
  | EmptyString => EmptyString
  | String c r =>
      match rstrip r with
      | EmptyString => if is_space c then EmptyString else String c EmptyString
      | r' => String c r'
      end
  end.

Definition strip (s : string) : string := rstrip (lstrip s).

Definition is_empty (s : string) : bool :=
  match s with EmptyString => true | _ => false end.

(** [str.split()] with no argument: the maximal runs of non-whitespace
    characters. [cur] is the run being read, [None] between runs. *)
Fixpoint split_from (cur : option string) (s : string) : list string :=
  match s with
  | EmptyString =>
      match cur with Some w => [w] | None => [] end
  | String c r =>
      if is_space c then
        match cur with
        | Some w => w :: split_from None r
        | None => split_from None r
        end
      else
        match cur with
        | Some w => split_from (Some (w ++ String c EmptyString)) r
        | None => split_from (Some (String c EmptyString)) r
        end
  end.

Definition split (s : string) : list string := split_from None s.

Definition backslash : ascii := ascii_of_nat 92.

Definition starts_with (c : ascii) (s : string) : bool :=
  match s with
  | String d _ => Ascii.eqb c d
  | EmptyString => false
  end.

(** [re.sub(r'\\s+', ' ', s)]. In a raw string the pattern is the four
    characters backslash, backslash, [s], [+]: a literal backslash followed
    by one or more letters [s]. Each leftmost maximal match is replaced by
    one space. [in_run] says that the characters just read are the letters
    [s] of a match that is still open. *)
Fixpoint sub_backslash_s_run (in_run : bool) (s : string) : string :=
  match s with
  | EmptyString => EmptyString
  | String c r =>
      if in_run && Ascii.eqb c "s" then sub_backslash_s_run true r
      else if Ascii.eqb c backslash && starts_with "s" r
           then String " " (sub_backslash_s_run true r)
      else String c (sub_backslash_s_run false r)
  end.

Definition sub_backslash_s (s : string) : string :=
  sub_backslash_s_run false s.

(** The characters the class [[^a-zA-Z0-9\\s]] (again inside a raw string)
    does NOT match: alphanumerics, the backslash and the letter [s]. *)
Definition kept_by_preprocess (c : ascii) : bool :=
  is_alnum c || Ascii.eqb c backslash || Ascii.eqb c "s".

(** The characters the class [[^a-zA-Z0-9\\s\\-_.,!?]] does NOT match:
    alphanumerics, backslash, [s], the range from backslash (92) to
    underscore (95), and [. , ! ?]. *)
Definition kept_by_clean_query (c : ascii) : bool :=
  is_alnum c || Ascii.eqb c backslash || Ascii.eqb c "s" ||
  in_range 92 95 c ||
  Ascii.eqb c "." || Ascii.eqb c "," || Ascii.eqb c "!" || Ascii.eqb c "?".

(** Collapsing every run of whitespace into one space, the reading of
    [\s+] the comments of the source describe. *)
Fixpoint collapse_ws_run (in_run : bool) (s : string) : string :=
  match s with
  | EmptyString => EmptyString
  | String c r =>
      if is_space c then
        if in_run then collapse_ws_run true r
        else String " " (collapse_ws_run true r)
      else String c (collapse_ws_run false r)
  end.

Definition collapse_ws (s : string) : string := collapse_ws_run false s.

Definition mem (s : string) (l : list string) : bool :=
  existsb (String.eqb s) l.

(** [s.split(sep)] for a separator of one character: the pieces between
    the occurrences of [sep], empty ones included; never an empty list. *)
Fixpoint split_on (sep : ascii) (s : string) : list string :=
  match s with
  | EmptyString => [EmptyString]
  | String c r =>
      if Ascii.eqb c sep then EmptyString :: split_on sep r
      else
        match split_on sep r with
        | w :: ws => String c w :: ws
        | [] => [String c EmptyString]
        end
  end.
End PyStr.

(* ------------------------------------------------------------------ *)
(** ** utils/text_preprocessor.py *)

Module TextPreprocessor.
Open Scope string_scope.

Record t : Type := mk {
  remove_stopwords : bool;
  min_token_length : Z
}.

(** The constructor's defaults. *)
Definition default : t := mk true 3.

Definition STOPWORDS : list string :=
  [ "a"; "an"; "and"; "are"; "as"; "at"; "be"; "by"; "for"; "from";
    "has"; "he"; "in"; "is"; "it"; "its"; "of"; "on"; "that"; "the";
    "to"; "was"; "will"; "with"; "the"; "this"; "but"; "they"; "have";
    "had"; "what"; "said"; "each"; "which"; "their"; "time"; "if";
    "up"; "out"; "many"; "then"; "them"; "these"; "so"; "some"; "her";
    "would"; "make"; "like"; "into"; "him"; "two"; "more"; "very";
    "what"; "know"; "just"; "first"; "get"; "over"; "think"; "also";
    "your"; "work"; "life"; "only"; "can"; "still"; "should"; "after";
    "being"; "now"; "made"; "before"; "here"; "through"; "when"; "where" ].

(** The body of the filtering loop: [true] when the token is appended. *)
Definition keep_token (self : t) (token : string) : bool :=
  if (Z.of_nat (String.length token) <? min_token_length self)%Z then false
  else if remove_stopwords self && PyStr.mem token STOPWORDS then false
  else true.

Definition replace_special (text : string) : string :=
  PyStr.map (fun c => if PyStr.kept_by_preprocess c then c else " "%char) text.

Definition preprocess (self : t) (text : string) : list string :=
  if PyStr.is_empty text then []
  else
    let text := PyStr.lower text in
    let text := replace_special text in
    let tokens := PyStr.split text in
    List.filter (keep_token self) tokens.

Definition preprocess_query (self : t) (query : string) : list string :=
  preprocess self query.

(** The normalizer as the specification words it: lowercase; every
    character outside the alphanumerics becomes whitespace; split on
    whitespace; drop short tokens; optionally drop stopwords. *)
Definition spec_preprocess (self : t) (text : string) : list string :=
  let text := PyStr.lower text in
  let text :=
    PyStr.map (fun c => if PyStr.is_alnum c then c else " "%char) text in
  List.filter (keep_token self) (PyStr.split text).
End TextPreprocessor.

(* ------------------------------------------------------------------ *)
(** ** core/query_processor.py *)

Module QueryProcessor.
Open Scope string_scope.

Record t : Type := mk { preprocessor : TextPreprocessor.t }.

Definition _clean_query (query : string) : string :=
  let cleaned := PyStr.sub_backslash_s (PyStr.strip query) in
  PyStr.filter PyStr.kept_by_clean_query cleaned.

Definition process_query (self : t) (raw_query : string) : list string :=
  if PyStr.is_empty raw_query || PyStr.is_empty (PyStr.strip raw_query)
  then []
  else
    let cleaned_query := _clean_query raw_query in
    TextPreprocessor.preprocess_query (preprocessor self) cleaned_query.

Definition validate_query (query_terms : list string) : bool :=
  match query_terms with
  | [] => false
  | _ =>
      let valid_terms :=
        List.filter (fun term => negb (PyStr.is_empty (PyStr.strip term)))
                    query_terms in
      (0 <? List.length valid_terms)%nat
  end.

(** The permitted set of the specification: alphanumerics, whitespace and
    the punctuation [- _ . , ! ?]. *)
Definition spec_permitted (c : ascii) : bool :=
  PyStr.is_alnum c || PyStr.is_space c ||
  PyStr.mem (String c EmptyString) ["-"; "_"; "."; ","; "!"; "?"].

(** The cleaning step as the specification words it. *)
Definition spec_clean_query (query : string) : string :=
  PyStr.filter spec_permitted (PyStr.collapse_ws (PyStr.strip query)).

Definition spec_process_query (self : t) (raw_query : string) : list string :=
  if PyStr.is_empty raw_query || PyStr.is_empty (PyStr.strip raw_query)
  then []
  else TextPreprocessor.preprocess_query (preprocessor self)
         (spec_clean_query raw_query).
End QueryProcessor.

(* ------------------------------------------------------------------ *)
(** ** Python containers *)

Module PyDict.
Section Dict.
Variable V : Type.

Definition t : Type := list (string * V).

Definition empty : t := [].

Fixpoint get (k : string) (d : t) : option V :=
  match d with
  | [] => None
  | (k', v) :: r => if String.eqb k' k then Some v else get k r
  end.

(** [k in d] *)
Definition mem (k : string) (d : t) : bool :=
  match get k d with Some _ => true | None => false end.

(** [d[k]] *)
Definition getitem (k : string) (d : t) : result V :=
  match get k d with Some v => Ok v | None => Raise (KeyError k) end.

(** [d[k] = v]: an existing key keeps its place, a new one goes last. *)
Fixpoint set (k : string) (v : V) (d : t) : t :=
  match d with
  | [] => [(k, v)]
  | (k', v') :: r =>
      if String.eqb k' k then (k', v) :: r else (k', v') :: set k v r
  end.

(** [del d[k]] for a key that is present. *)
Definition del (k : string) (d : t) : t :=
  List.filter (fun kv => negb (String.eqb (fst kv) k)) d.

Definition keys (d : t) : list string := List.map fst d.
Definition values (d : t) : list V := List.map snd d.

Definition is_empty (d : t) : bool :=
  match d with [] => true | _ => false end.
End Dict.

Arguments empty {V}.
End PyDict.

Module PySet.
Definition t : Type := list string.

Definition mem (x : string) (s : t) : bool := PyStr.mem x s.

Definition add (x : string) (s : t) : t :=
  if mem x s then s else s ++ [x].

(** [s.update(other)] *)
Definition update (s other : t) : t :=
  fold_left (fun acc x => add x acc) other s.

(** [set(l)] *)
Definition of_list (l : list string) : t := update [] l.
End PySet.

(** [collections.Counter(tokens)]: the number of occurrences of each token,
    keyed in the order of first occurrence. *)
Definition Counter (tokens : list string) : PyDict.t nat :=
  fold_left
    (fun c tok =>
       PyDict.set tok (S (match PyDict.get tok c with Some n => n | None => 0%nat end)) c)
    tokens PyDict.empty.

(* ------------------------------------------------------------------ *)
(** ** Python floats *)

Class PyFloat (F : Type) : Type := {
  f0 : F;                       (* 0.0 *)
  fadd : F -> F -> F;           (* x + y *)
  fmul : F -> F -> F;           (* x * y *)
  fdiv : F -> F -> result F;    (* x / y, ZeroDivisionError when y == 0 *)
  fsquare : F -> result F;      (* x ** 2, OverflowError out of range *)
  fsqrt : F -> result F;        (* math.sqrt(x), ValueError when x < 0 *)
  feq0 : F -> bool;             (* x == 0 *)
  fgt0 : F -> bool              (* x > 0 *)
}.

Definition Req0 (x : R) : bool := if Req_dec_T x 0 then true else false.
Definition Rgt0 (x : R) : bool := if Rlt_dec 0 x then true else false.
Definition Rgeb (x y : R) : bool := if Rge_dec x y then true else false.

(** Exact arithmetic. *)
#[export] Instance R_PyFloat : PyFloat R := {
  f0 := 0%R;
  fadd := Rplus;
  fmul := Rmult;
  fdiv := fun x y =>
    if Req0 y then Raise (ZeroDivisionError "float division by zero")
    else Ok (x / y)%R;
  fsquare := fun x => Ok (x ^ 2)%R;
  fsqrt := fun x => if Rlt_dec x 0 then Raise ValueError else Ok (sqrt x);
  feq0 := Req0;
  fgt0 := Rgt0
}.

(** IEEE 754 binary64, the arithmetic CPython runs. [x ** 2] is taken as the
    correctly rounded product [x * x], and raises OverflowError where the C
    library's [pow] overflows. *)
#[export] Instance float_PyFloat : PyFloat float := {
  f0 := 0%float;
  fadd := PrimFloat.add;
  fmul := PrimFloat.mul;
  fdiv := fun x y =>
    if PrimFloat.eqb y 0 then Raise (ZeroDivisionError "float division by zero")
    else Ok (x / y)%float;
  fsquare := fun x =>
    let y := (x * x)%float in
    if PrimFloat.is_infinity y && negb (PrimFloat.is_infinity x)
    then Raise OverflowError else Ok y;
  fsqrt := fun x =>
    if PrimFloat.ltb x 0 then Raise ValueError else Ok (PrimFloat.sqrt x);
  feq0 := fun x => PrimFloat.eqb x 0;
  fgt0 := fun x => PrimFloat.ltb 0 x
}.

Section Norm.
Context {F : Type} `{PyFloat F}.

(** [sum(score**2 for score in scores)], added left to right from 0.
    (From version 3.12 on CPython compensates the rounding errors of a sum
    of floats; this makes no difference in exact arithmetic, nor where every
    partial sum is exact.) *)
Fixpoint sum_squares (scores : list F) (acc : F) : result F :=
  match scores with
  | [] => Ok acc
  | score :: r => sq <- fsquare score ;; sum_squares r (fadd acc sq)
  end.

(** [math.sqrt(sum(score**2 for score in v.values()))] *)
Definition l2_norm (v : PyDict.t F) : result F :=
  s <- sum_squares (PyDict.values v) f0 ;; fsqrt s.
End Norm.

(** [a / b] on two [int]s. *)
Definition int_div (a b : nat) : result R :=
  if (b =? 0)%nat then Raise (ZeroDivisionError "division by zero")
  else Ok (INR a / INR b)%R.

(** [math.log(x)] *)
Definition math_log (x : R) : result R :=
  if Rle_dec x 0 then Raise ValueError else Ok (ln x).

(* ------------------------------------------------------------------ *)
(** ** core/indexer.py *)

Module TFIDFIndexer.
Record t : Type := mk {
  preprocessor : TextPreprocessor.t;
  documents : PyDict.t (list string);
  vocabulary : PyDict.t nat;
  inverted_index : PyDict.t PySet.t;
  document_frequencies : PyDict.t nat;
  document_norms : PyDict.t R;
  tfidf_vectors : PyDict.t (PyDict.t R);
  total_documents : nat
}.

(** [__init__] *)
Definition init (preprocessor : TextPreprocessor.t) : t :=
  mk preprocessor [] [] [] [] [] [] 0.

Definition with_documents (self : t) (x : PyDict.t (list string)) : t :=
  mk (preprocessor self) x (vocabulary self) (inverted_index self)
     (document_frequencies self) (document_norms self) (tfidf_vectors self)
     (total_documents self).

Definition with_vocabulary (self : t) (x : PyDict.t nat) : t :=
  mk (preprocessor self) (documents self) x (inverted_index self)
     (document_frequencies self) (document_norms self) (tfidf_vectors self)
     (total_documents self).

Definition with_inverted_index (self : t) (x : PyDict.t PySet.t) : t :=
  mk (preprocessor self) (documents self) (vocabulary self) x
     (document_frequencies self) (document_norms self) (tfidf_vectors self)
     (total_documents self).

Definition with_document_frequencies (self : t) (x : PyDict.t nat) : t :=
  mk (preprocessor self) (documents self) (vocabulary self)
     (inverted_index self) x (document_norms self) (tfidf_vectors self)
     (total_documents self).

Definition with_document_norms (self : t) (x : PyDict.t R) : t :=
  mk (preprocessor self) (documents self) (vocabulary self)
     (inverted_index self) (document_frequencies self) x (tfidf_vectors self)
     (total_documents self).

Definition with_tfidf_vectors (self : t) (x : PyDict.t (PyDict.t R)) : t :=
  mk (preprocessor self) (documents self) (vocabulary self)
     (inverted_index self) (document_frequencies self) (document_norms self)
     x (total_documents self).

Definition with_total_documents (self : t) (x : nat) : t :=
  mk (preprocessor self) (documents self) (vocabulary self)
     (inverted_index self) (document_frequencies self) (document_norms self)
     (tfidf_vectors self) x.

(** [self.inverted_index[term]] on the [defaultdict(set)]: a missing key is
    first bound to an empty set. *)
Definition inverted_index_default (self : t) (term : string) : t * PySet.t :=
  match PyDict.get term (inverted_index self) with
  | Some s => (self, s)
  | None => (with_inverted_index self (PyDict.set term [] (inverted_index self)), [])
  end.

(** The body of [for term in unique_terms]. *)
Definition add_term (doc_id : string) (self : t) (term : string) : t :=
  let self :=
    if negb (PyDict.mem term (vocabulary self))
    then with_vocabulary self
           (PyDict.set term (List.length (vocabulary self)) (vocabulary self))
    else self in
  let '(self, entry) := inverted_index_default self term in
  with_inverted_index self
    (PyDict.set term (PySet.add doc_id entry) (inverted_index self)).

(** The body of [for doc_id, text in documents.items()]. *)
Definition add_document (self : t) (doc : string * string) : t :=
  let '(doc_id, text) := doc in
  let tokens := TextPreprocessor.preprocess (preprocessor self) text in
  let self := with_documents self (PyDict.set doc_id tokens (documents self)) in
  let unique_terms := PySet.of_list tokens in
  fold_left (add_term doc_id) unique_terms self.

Definition add_documents (self : t) (docs : PyDict.t string) : t :=
  let self := fold_left add_document docs self in
  with_total_documents self (List.length (documents self)).

(** The body of [for term in self.vocabulary]. *)
Definition update_document_frequency (self : t) (term : string) : t :=
  let '(self, entry) := inverted_index_default self term in
  with_document_frequencies self
    (PyDict.set term (List.length entry) (document_frequencies self)).

(** [for term, count in term_counts.items()], filling [tfidf_vector]. *)
Fixpoint tfidf_vector (self : t) (doc_length : nat)
         (term_counts : list (string * nat)) (vec : PyDict.t R)
  : result (PyDict.t R) :=
  match term_counts with
  | [] => Ok vec
  | (term, count) :: rest =>
      tf <- int_div count doc_length ;;
      df <- PyDict.getitem term (document_frequencies self) ;;
      ratio <- int_div (total_documents self) df ;;
      idf <- math_log ratio ;;
      let tfidf_score := (tf * idf)%R in
      tfidf_vector self doc_length rest (PyDict.set term tfidf_score vec)
  end.

(** The body of [for doc_id, tokens in self.documents.items()]. *)
Definition build_document (self : t) (doc : string * list string) : result t :=
  let '(doc_id, tokens) := doc in
  let term_counts := Counter tokens in
  let doc_length := List.length tokens in
  vec <- tfidf_vector self doc_length term_counts PyDict.empty ;;
  let self := with_tfidf_vectors self (PyDict.set doc_id vec (tfidf_vectors self)) in
  norm <- l2_norm vec ;;
  Ok (with_document_norms self (PyDict.set doc_id norm (document_norms self))).

Fixpoint build_documents (self : t) (docs : list (string * list string))
  : result t :=
  match docs with
  | [] => Ok self
  | doc :: rest => self <- build_document self doc ;; build_documents self rest
  end.

(** [build_index]. An exception leaves the method at once; the index it
    leaves half updated is not part of the result. *)
Definition build_index (self : t) : result t :=
  let self :=
    fold_left update_document_frequency (PyDict.keys (vocabulary self)) self in
  build_documents self (documents self).

Definition get_candidate_documents (self : t) (query_terms : list string)
  : PySet.t :=
  fold_left
    (fun candidates term =>
       match PyDict.get term (inverted_index self) with
       | Some entry => PySet.update candidates entry
       | None => candidates
       end)
    query_terms [].

(** [for term, count in term_counts.items()], filling [query_vector]. *)
Fixpoint query_vector_loop (self : t) (query_length : nat)
         (term_counts : list (string * nat)) (vec : PyDict.t R)
  : result (PyDict.t R) :=
  match term_counts with
  | [] => Ok vec
  | (term, count) :: rest =>
      if PyDict.mem term (vocabulary self) then
        tf <- int_div count query_length ;;
        df <- PyDict.getitem term (document_frequencies self) ;;
        ratio <- int_div (total_documents self) df ;;
        idf <- math_log ratio ;;
        query_vector_loop self query_length rest
          (PyDict.set term (tf * idf)%R vec)
      else query_vector_loop self query_length rest vec
  end.

Definition get_query_vector (self : t) (query_terms : list string)
  : result (PyDict.t R) :=
  match query_terms with
  | [] => Ok PyDict.empty
  | _ =>
      query_vector_loop self (List.length query_terms)
        (Counter query_terms) PyDict.empty
  end.
End TFIDFIndexer.

(* ------------------------------------------------------------------ *)
(** ** core/similarity.py *)

Module CosineSimilarityCalculator.
Section Calculator.
Context {F : Type} `{PyFloat F}.

(** [for term, query_score in query_vector.items()], adding to
    [dot_product]. *)
Fixpoint dot_product_loop (query_items : list (string * F))
         (document_vector : PyDict.t F) (dot_product : F) : F :=
  match query_items with
  | [] => dot_product
  | (term, query_score) :: rest =>
      match PyDict.get term document_vector with
      | Some doc_score =>
          dot_product_loop rest document_vector
            (fadd dot_product (fmul query_score doc_score))
      | None => dot_product_loop rest document_vector dot_product
      end
  end.

Definition calculate_similarity (query_vector document_vector : PyDict.t F)
           (document_norm : F) : result F :=
  if PyDict.is_empty query_vector || PyDict.is_empty document_vector
     || feq0 document_norm
  then Ok f0
  else
    let dot_product := dot_product_loop query_vector document_vector f0 in
    if feq0 dot_product then Ok f0
    else
      query_norm <- l2_norm query_vector ;;
      if feq0 query_norm then Ok f0
      else fdiv dot_product (fmul query_norm document_norm).

Fixpoint batch_calculate_similarities (query_vector : PyDict.t F)
         (document_vectors : list (string * PyDict.t F))
         (document_norms : PyDict.t F) : result (list (string * F)) :=
  match document_vectors with
  | [] => Ok []
  | (doc_id, doc_vector) :: rest =>
      let doc_norm :=
        match PyDict.get doc_id document_norms with
        | Some n => n
        | None => f0
        end in
      similarity <- calculate_similarity query_vector doc_vector doc_norm ;;
      results <- batch_calculate_similarities query_vector rest document_norms ;;
      Ok (if fgt0 similarity then (doc_id, similarity) :: results else results)
  end.
End Calculator.
End CosineSimilarityCalculator.

(* ------------------------------------------------------------------ *)
(** ** storage/document_store.py

    The in-memory side of the store. Files are not modelled: [fs_ok] says
    whether the file operations of a call went through (they raise
    otherwise, and the method catches the exception and returns [False]).
    The [added_timestamp] of the metadata is left out. *)

Module DocumentStore.
Record metadata_t : Type := mk_metadata {
  filename : string;
  size : nat
}.

Record t : Type := mk {
  documents : PyDict.t string;
  metadata : PyDict.t metadata_t
}.

Definition empty : t := mk [] [].

Definition add_document (self : t) (doc_id content : string) (fs_ok : bool)
  : bool * t :=
  let documents' := PyDict.set doc_id content (documents self) in
  let doc_metadata := mk_metadata (doc_id ++ ".txt") (String.length content) in
  let metadata' := PyDict.set doc_id doc_metadata (metadata self) in
  (fs_ok, mk documents' metadata').

Definition get_document_content (self : t) (doc_id : string) : option string :=
  PyDict.get doc_id (documents self).

Definition get_all_documents (self : t) : PyDict.t string := documents self.

Definition remove_document (self : t) (doc_id : string) (fs_ok : bool)
  : bool * t :=
  if negb (PyDict.mem doc_id (documents self)) then (false, self)
  else
    let self := mk (PyDict.del doc_id (documents self)) (metadata self) in
    (* [del self.metadata[doc_id]] raises KeyError on a missing key *)
    if negb (PyDict.mem doc_id (metadata self)) then (false, self)
    else
      let self := mk (documents self) (PyDict.del doc_id (metadata self)) in
      (fs_ok, self).
End DocumentStore.

(* ------------------------------------------------------------------ *)
(** ** core/ranker.py *)

Module ResultRanker.
Record t : Type := mk {
  max_results : Z;
  min_similarity_score : R
}.

Record entry : Type := mk_entry {
  doc_id : string;
  similarity_score : R;
  rank : nat;
  content : option string;
  preview : option string
}.

Record ranking : Type := mk_ranking {
  results : list entry;
  total_results : nat;
  total_candidates : nat;
  filtered_by_threshold : nat;
  returned_results : nat
}.

(** [l[:n]] *)
Definition slice_to {A : Type} (l : list A) (n : Z) : list A :=
  if (0 <=? n)%Z then firstn (Z.to_nat n) l
  else firstn (Z.to_nat (Z.of_nat (List.length l) + n)) l.

(** [sorted(l, key=lambda x: x[1], reverse=True)]: a stable sort, entries
    of equal score keep the order they came in. *)
Fixpoint insert_desc (x : string * R) (l : list (string * R))
  : list (string * R) :=
  match l with
  | [] => [x]
  | y :: r =>
      if Rlt_dec (snd x) (snd y) then y :: insert_desc x r else x :: y :: r
  end.

Definition sorted_desc (l : list (string * R)) : list (string * R) :=
  fold_right insert_desc [] l.

(** [round(x, 4)]: to the nearest multiple of 1/10000, ties to even. *)
Definition round_half_even (x : R) : Z :=
  let f := Int_part x in
  let d := (x - IZR f)%R in
  if Rlt_dec d (1 / 2) then f
  else if Rlt_dec (1 / 2) d then (f + 1)%Z
  else if Z.even f then f else (f + 1)%Z.

Definition round4 (x : R) : R := (IZR (round_half_even (x * 10000)) / 10000)%R.

(** [s.rfind(' ')], [None] for -1. *)
Fixpoint rfind_space_from (i : nat) (last : option nat) (s : string)
  : option nat :=
  match s with
  | EmptyString => last
  | String c r =>
      rfind_space_from (S i) (if Ascii.eqb c " " then Some i else last) r
  end.

(** [_create_preview(content)] with the default [max_length=200], whose
    [max_length * 0.8] is 160.0. *)
Definition _create_preview (content : string) : string :=
  let max_length := 200%nat in
  if PyStr.is_empty content then ""
  else if (String.length content <=? max_length)%nat then content
  else
    let preview := String.substring 0 max_length content in
    let preview :=
      match rfind_space_from 0 None preview with
      | Some last_space =>
          if (160 <? last_space)%nat
          then String.substring 0 last_space preview
          else preview
      | None => preview
      end in
    preview ++ "...".

(** The body of [for doc_id, similarity_score in top_results]. *)
Definition format_result (document_store : option DocumentStore.t)
           (formatted_results : list entry) (r : string * R) : list entry :=
  let '(doc_id, similarity_score) := r in
  let rank := (List.length formatted_results + 1)%nat in
  let content :=
    match document_store with
    | Some store =>
        match DocumentStore.get_document_content store doc_id with
        | Some c => if PyStr.is_empty c then None else Some c
        | None => None
        end
    | None => None
    end in
  formatted_results ++
    [mk_entry doc_id (round4 similarity_score) rank content
              (option_map _create_preview content)].

Definition rank_results (self : t) (similarities : list (string * R))
           (document_store : option DocumentStore.t) : ranking :=
  let filtered_results :=
    List.filter (fun x => Rgeb (snd x) (min_similarity_score self))
                similarities in
  let sorted_results := sorted_desc filtered_results in
  let top_results := slice_to sorted_results (max_results self) in
  let formatted_results :=
    fold_left (format_result document_store) top_results [] in
  mk_ranking formatted_results
    (List.length formatted_results)
    (List.length similarities)
    (List.length similarities - List.length filtered_results)
    (List.length formatted_results).

(** What [get_ranking_stats] returns; [above_threshold] is a key that only
    the statistics of a non-empty list have. *)
Record ranking_stats : Type := mk_ranking_stats {
  stats_total_candidates : nat;
  avg_similarity : R;
  max_similarity : R;
  min_similarity : R;
  above_threshold : option nat
}.

(** [sum(scores) / len(scores)] in the arithmetic of [F], where [count] is
    [len(scores)] as a float. The sum is added left to right from 0. *)
Definition mean {F : Type} `{PyFloat F} (scores : list F) (count : F)
  : result F :=
  fdiv (fold_left fadd scores f0) count.

(** [max(scores)] and [min(scores)] on a list that starts with [first]: the
    first of the greatest, or least, elements. *)
Definition max_score (first : R) (rest : list R) : R :=
  fold_left (fun m y => if Rlt_dec m y then y else m) rest first.

Definition min_score (first : R) (rest : list R) : R :=
  fold_left (fun m y => if Rlt_dec y m then y else m) rest first.

(** [get_ranking_stats] on scores that are real numbers, as [rank_results]
    has them: the average is [mean] in exact arithmetic. *)
Definition get_ranking_stats (self : t) (similarities : list (string * R))
  : result ranking_stats :=
  match List.map snd similarities with
  | [] => Ok (mk_ranking_stats 0 0 0 0 None)
  | first :: rest =>
      let scores := first :: rest in
      avg <- mean scores (INR (List.length scores)) ;;
      Ok (mk_ranking_stats
            (List.length similarities)
            avg
            (max_score first rest)
            (min_score first rest)
            (Some (List.length
                     (List.filter
                        (fun s => Rgeb s (min_similarity_score self))
                        scores))))
  end.
End ResultRanker.

(* ------------------------------------------------------------------ *)
(** ** main/config.py

    The configuration is a dict of dicts that the methods change in place,
    and [DEFAULT_CONFIG.copy()] is a shallow copy. So the dict objects live
    in a heap, and a dict holds references to the dicts nested in it. The
    values are the scalars of the default configuration and dicts. The
    configuration file is not modelled: [load_config] and [save_config] are
    left out, as for a process without a [config.json]. *)

Module QuestifyConfig.
Local Open Scope string_scope.

Inductive value : Type :=
| VNone
| VBool (b : bool)
| VInt (n : Z)
| VFloat (x : float)
| VStr (s : string)
| VDict (address : nat).

(** The dict objects, by address. *)
Definition heap : Type := list (PyDict.t value).

Definition read (h : heap) (address : nat) : option (PyDict.t value) :=
  nth_error h address.

Fixpoint write (h : heap) (address : nat) (d : PyDict.t value) : heap :=
  match h, address with
  | [], _ => []
  | _ :: r, O => d :: r
  | x :: r, S n => x :: write r n d
  end.

(** A new dict object. *)
Definition alloc (h : heap) (d : PyDict.t value) : nat * heap :=
  (List.length h, (h ++ [d])%list).

(** [DEFAULT_CONFIG] is the address of the class attribute, [config] that
    of [self.config]. *)
Record t : Type := mk {
  objects : heap;
  DEFAULT_CONFIG : nat;
  config : nat
}.

(** How a method that can raise ends. *)
Inductive outcome : Type :=
| Done
| TypeError
| AttributeError.

(** The objects the class body creates: the five sections, then
    [DEFAULT_CONFIG] itself. *)
Definition class_objects : heap :=
  [ [("remove_stopwords", VBool true); ("min_token_length", VInt 3)];
    [("max_results", VInt 10);
     (* the binary64 value of the literal 0.01 *)
     ("min_similarity_score", VFloat 0x1.47ae147ae147bp-7%float)];
    [("documents_path", VStr "documents"); ("enable_persistence", VBool true)];
    [("enable_caching", VBool true); ("cache_size_limit", VInt 1000)];
    [("page_title", VStr "Questify - Text Search Engine");
     ("results_per_page", VInt 10);
     ("enable_file_upload", VBool true);
     ("max_file_size_mb", VInt 10)];
    [("text_preprocessing", VDict 0);
     ("search", VDict 1);
     ("storage", VDict 2);
     ("performance", VDict 3);
     ("ui", VDict 4)] ].

(** [self.config = self.DEFAULT_CONFIG.copy()] *)
Definition copy_defaults (h : heap) (default_config : nat) : t :=
  match read h default_config with
  | Some d => let '(a, h) := alloc h d in mk h default_config a
  | None => mk h default_config default_config
  end.

(** [QuestifyConfig()] in a process without a configuration file. *)
Definition init : t := copy_defaults class_objects 5.

Definition reset_to_defaults (self : t) : t :=
  copy_defaults (objects self) (DEFAULT_CONFIG self).

(** [for key in keys: value = value[key]]; [None] for the [KeyError] of a
    missing key and the [TypeError] of a value that is no dict. *)
Fixpoint lookup (h : heap) (v : value) (keys : list string) : option value :=
  match keys with
  | [] => Some v
  | key :: rest =>
      match v with
      | VDict a =>
          match read h a with
          | Some d =>
              match PyDict.get key d with
              | Some v' => lookup h v' rest
              | None => None
              end
          | None => None
          end
      | _ => None
      end
  end.

Definition get (self : t) (key_path : string) (default : value) : value :=
  let keys := PyStr.split_on "." key_path in
  match lookup (objects self) (VDict (config self)) keys with
  | Some v => v
  | None => default
  end.

(** [for key in keys[:-1]]: a missing key gets a new empty dict. On a value
    that is no dict, [key not in config_ref] or the statement after it
    raises [TypeError]; [None] then. *)
Fixpoint navigate (h : heap) (config_ref : value) (keys : list string)
  : heap * option value :=
  match keys with
  | [] => (h, Some config_ref)
  | key :: rest =>
      match config_ref with
      | VDict a =>
          match read h a with
          | Some d =>
              let '(h, d) :=
                if negb (PyDict.mem key d) then
                  let '(b, h) := alloc h [] in
                  let d := PyDict.set key (VDict b) d in
                  (write h a d, d)
                else (h, d) in
              match PyDict.get key d with
              | Some next => navigate h next rest
              | None => (h, None)
              end
          | None => (h, None)
          end
      | _ => (h, None)
      end
  end.

Definition set (self : t) (key_path : string) (v : value) : t * outcome :=
  let keys := PyStr.split_on "." key_path in
  let '(h, config_ref) :=
    navigate (objects self) (VDict (config self)) (removelast keys) in
  let self := mk h (DEFAULT_CONFIG self) (config self) in
  match config_ref with
  | Some (VDict a) =>
      match read h a with
      | Some d =>
          (mk (write h a (PyDict.set (last keys EmptyString) v d))
              (DEFAULT_CONFIG self) (config self),
           Done)
      | None => (self, TypeError)
      end
  | _ => (self, TypeError)
  end.

(** [self.config.get(section, {}).copy()]: the entries of the section;
    [None] for the [AttributeError] of a value without [copy]. *)
Definition get_section (self : t) (section : string)
  : option (PyDict.t value) :=
  match read (objects self) (config self) with
  | Some d =>
      match PyDict.get section d with
      | Some (VDict a) => read (objects self) a
      | Some _ => None
      | None => Some []
      end
  | None => None
  end.

(** [update_section]: [AttributeError] when the section is no dict. *)
Definition update_section (self : t) (section : string)
           (updates : PyDict.t value) : t * outcome :=
  match read (objects self) (config self) with
  | Some d =>
      let '(h, d) :=
        if negb (PyDict.mem section d) then
          let '(b, h) := alloc (objects self) [] in
          let d := PyDict.set section (VDict b) d in
          (write h (config self) d, d)
        else (objects self, d) in
      let self := mk h (DEFAULT_CONFIG self) (config self) in
      match PyDict.get section d with
      | Some (VDict a) =>
          match read h a with
          | Some target =>
              let target :=
                fold_left (fun acc kv => PyDict.set (fst kv) (snd kv) acc)
                          updates target in
              (mk (write h a target) (DEFAULT_CONFIG self) (config self), Done)
          | None => (self, AttributeError)
          end
      | _ => (self, AttributeError)
      end
  | None => (self, AttributeError)
  end.
End QuestifyConfig.

(* ------------------------------------------------------------------ *)
(** ** main/main.py

    Wall-clock timing, the printed messages and the search statistics built
    from them are left out. *)

Module QuestifySearchEngine.
(** The [query_info] of a response. *)
Inductive query_info : Type :=
| QueryError (error : string)
| QueryMessage (message : string)
| QueryStats (term_count unique_terms : nat) (terms : list string)
             (is_valid : bool).

(** What [search] returns. [total_candidates] and [search_stats] are keys
    that only a ranked response has. *)
Record response : Type := mk_response {
  results : list ResultRanker.entry;
  total_results : nat;
  total_candidates : option nat;
  info : query_info;
  search_stats : option (nat * nat)
}.

Record t : Type := mk {
  preprocessor : TextPreprocessor.t;
  indexer : TFIDFIndexer.t;
  query_processor : QueryProcessor.t;
  ranker : ResultRanker.t;
  document_store : DocumentStore.t
}.

Definition with_indexer (self : t) (x : TFIDFIndexer.t) : t :=
  mk (preprocessor self) x (query_processor self) (ranker self)
     (document_store self).

Definition with_document_store (self : t) (x : DocumentStore.t) : t :=
  mk (preprocessor self) (indexer self) (query_processor self) (ranker self) x.

(** [QueryProcessor.get_query_info] *)
Definition get_query_info (query_terms : list string) : query_info :=
  QueryStats (List.length query_terms)
             (List.length (PySet.of_list query_terms))
             query_terms
             (QueryProcessor.validate_query query_terms).

Definition add_documents (self : t) (documents : PyDict.t string)
           (fs_ok : bool) : t :=
  let store :=
    fold_left
      (fun store doc =>
         snd (DocumentStore.add_document store (fst doc) (snd doc) fs_ok))
      documents (document_store self) in
  let self := with_document_store self store in
  with_indexer self (TFIDFIndexer.add_documents (indexer self) documents).

Definition build_index (self : t) : result t :=
  idx <- TFIDFIndexer.build_index (indexer self) ;;
  Ok (with_indexer self idx).

(** [load_documents_from_store] *)
Definition load_documents_from_store (self : t) (fs_ok : bool) : result t :=
  let documents := DocumentStore.get_all_documents (document_store self) in
  if PyDict.is_empty documents then Ok self
  else build_index (add_documents self documents fs_ok).

(** [__init__], from the four configuration values it reads and the
    documents the store found on disk. *)
Definition init (remove_stopwords : bool) (min_token_length max_results : Z)
           (min_similarity_score : R) (stored : DocumentStore.t)
           (fs_ok : bool) : result t :=
  let preprocessor := TextPreprocessor.mk remove_stopwords min_token_length in
  load_documents_from_store
    (mk preprocessor
        (TFIDFIndexer.init preprocessor)
        (QueryProcessor.mk preprocessor)
        (ResultRanker.mk max_results min_similarity_score)
        stored)
    fs_ok.

(** [{doc_id: table[doc_id] for doc_id in candidates}] *)
Fixpoint restrict {V : Type} (table : PyDict.t V) (candidates : list string)
         (acc : PyDict.t V) : result (PyDict.t V) :=
  match candidates with
  | [] => Ok acc
  | doc_id :: rest =>
      v <- PyDict.getitem doc_id table ;;
      restrict table rest (PyDict.set doc_id v acc)
  end.

Definition no_results (i : query_info) : response :=
  mk_response [] 0 None i None.

(** The body of the [try] block of [search]. *)
Definition search_body (self : t) (query : string) : result response :=
  let query_terms := QueryProcessor.process_query (query_processor self) query in
  if negb (QueryProcessor.validate_query query_terms) then
    Ok (no_results (QueryError "Invalid or empty query"))
  else
    query_vector <- TFIDFIndexer.get_query_vector (indexer self) query_terms ;;
    if PyDict.is_empty query_vector then
      Ok (no_results (QueryError "No matching terms found in vocabulary"))
    else
      let candidates :=
        TFIDFIndexer.get_candidate_documents (indexer self) query_terms in
      match candidates with
      | [] => Ok (no_results (QueryMessage "No documents contain the query terms"))
      | _ =>
          candidate_vectors <-
            restrict (TFIDFIndexer.tfidf_vectors (indexer self)) candidates [] ;;
          candidate_norms <-
            restrict (TFIDFIndexer.document_norms (indexer self)) candidates [] ;;
          similarities <-
            CosineSimilarityCalculator.batch_calculate_similarities
              query_vector candidate_vectors candidate_norms ;;
          let ranked :=
            ResultRanker.rank_results (ranker self) similarities
                                      (Some (document_store self)) in
          Ok (mk_response
                (ResultRanker.results ranked)
                (ResultRanker.total_results ranked)
                (Some (List.length candidates))
                (get_query_info query_terms)
                (Some (ResultRanker.filtered_by_threshold ranked,
                       ResultRanker.returned_results ranked)))
      end.

(** [search]: the [except Exception] clause turns every exception of the
    body into a response. *)
Definition search (self : t) (query : string) : response :=
  match search_body self query with
  | Ok r => r
  | Raise e => no_results (QueryError ("Search error: " ++ exn_str e))
  end.

Definition remove_document (self : t) (doc_id : string) (fs_ok : bool)
  : result (bool * t) :=
  let '(success, store) :=
    DocumentStore.remove_document (document_store self) doc_id fs_ok in
  let self := with_document_store self store in
  if success then
    let all_documents := DocumentStore.get_all_documents (document_store self) in
    let self := with_indexer self (TFIDFIndexer.init (preprocessor self)) in
    if PyDict.is_empty all_documents then Ok (success, self)
    else
      let self :=
        with_indexer self
          (TFIDFIndexer.add_documents (indexer self) all_documents) in
      self <- build_index self ;;
      Ok (success, self)
  else Ok (success, self).
End QuestifySearchEngine.

(* ================================================================== *)
(** * Notions used in the statements *)

Unset Implicit Arguments.
Open Scope string_scope.

Section StringNotions.

Definition no_backslash (text : string) : Prop :=
  PyStr.forallb (fun c => negb (Ascii.eqb c PyStr.backslash)) text = true.

Definition whitespace_only (text : string) : Prop :=
  PyStr.forallb PyStr.is_space text = true.

Definition foo_backslash_bar : string :=
  "foo" ++ String PyStr.backslash "bar".

Definition default_query_processor : QueryProcessor.t :=
  QueryProcessor.mk TextPreprocessor.default.

End StringNotions.

Section RankerNotions.
Import ResultRanker.

Definition score_desc (a b : string * R) : Prop := (snd a >= snd b)%R.

(** The filter of [rank_results]. *)
Definition passing (self : ResultRanker.t) (similarities : list (string * R))
  : list (string * R) :=
  List.filter (fun x => Rgeb (snd x) (min_similarity_score self)) similarities.

End RankerNotions.

Section FloatNotions.
Open Scope float_scope.

Definition three_ones : PyDict.t float := [("a", 1); ("b", 1); ("c", 1)].

(** The float [0.1], and three scores of [0.1]. *)
Definition tenth : float := 1 / 10.

Definition three_tenths : list float := [tenth; tenth; tenth].

End FloatNotions.

Section RealNotions.
Open Scope R_scope.

(** The sum of the squares of a list of scores. *)
Definition sumsq (scores : list R) : R :=
  fold_right (fun x s => x ^ 2 + s) 0 scores.

(** The score of [term] in a vector, 0 when it has none. *)
Definition score_of (term : string) (v : PyDict.t R) : R :=
  match PyDict.get term v with Some x => x | None => 0 end.

(** The dot product over the terms present in both vectors. *)
Definition overlap_dot (q d : PyDict.t R) : R :=
  fold_right (fun kx s => snd kx * score_of (fst kx) d + s) 0 q.

(** The squares of the document's scores at the query's terms. *)
Definition overlap_sumsq (q d : PyDict.t R) : R :=
  fold_right (fun kx s => score_of (fst kx) d ^ 2 + s) 0 q.

Definition nonneg (v : PyDict.t R) : Prop :=
  Forall (fun x => 0 <= x) (PyDict.values v).

End RealNotions.

Section CounterNotions.

(** The count a counter holds for a token, 0 when it holds none. *)
Definition counted (c : PyDict.t nat) (tok : string) : nat :=
  match PyDict.get tok c with Some n => n | None => 0%nat end.

Definition count_step (c : PyDict.t nat) (tok : string) : PyDict.t nat :=
  PyDict.set tok (S (counted c tok)) c.

End CounterNotions.

Section IndexNotions.
Import TFIDFIndexer.
Open Scope R_scope.

(** The inverted-index entry of a term, empty when it has none. *)
Definition posting (self : t) (term : string) : PySet.t :=
  match PyDict.get term (inverted_index self) with
  | Some entry => entry
  | None => []
  end.

(** Every vocabulary term has an inverted-index entry. *)
Definition vocabulary_has_postings (self : t) : Prop :=
  forall term,
    In term (PyDict.keys (vocabulary self)) ->
    In term (PyDict.keys (inverted_index self)).

(** The tokens stored for a document are in the vocabulary, with the
    document in their entries. *)
Definition documents_indexed (self : t) : Prop :=
  forall doc_id tokens term,
    PyDict.get doc_id (documents self) = Some tokens ->
    In term tokens ->
    In term (PyDict.keys (vocabulary self)) /\ In doc_id (posting self term).

(** Entries hold ids of stored documents only. *)
Definition postings_known (self : t) : Prop :=
  forall term doc_id,
    In doc_id (posting self term) -> In doc_id (PyDict.keys (documents self)).

Record ingested (self : t) : Prop := mk_ingested {
  ingested_nodup : NoDup (PyDict.keys (documents self));
  ingested_indexed : documents_indexed self;
  ingested_postings : vocabulary_has_postings self;
  ingested_known : postings_known self
}.

Record consistent (self : t) : Prop := mk_consistent {
  consistent_ingested : ingested self;
  consistent_total : total_documents self = List.length (documents self)
}.

(** [doc_id] was ingested with a text in which [term] occurs. *)
Definition ingested_with (p : TextPreprocessor.t) (history : list (string * string))
           (doc_id term : string) : Prop :=
  exists text,
    In (doc_id, text) history /\ In term (TextPreprocessor.preprocess p text).

Definition alpha_then_gamma : t :=
  add_documents
    (add_documents (init TextPreprocessor.default) [("d1", "alpha beta")])
    [("d1", "gamma delta")].

(** Two states of the index with the same ingested corpus. *)
Definition same_corpus (self self' : t) : Prop :=
  preprocessor self' = preprocessor self
  /\ documents self' = documents self
  /\ vocabulary self' = vocabulary self
  /\ inverted_index self' = inverted_index self
  /\ total_documents self' = total_documents self.

(** The TF-IDF weight of a term that occurs [count] times among
    [doc_length] tokens, for [total] documents of which [df] have it. *)
Definition tfidf_weight (total df doc_length count : nat) : R :=
  INR count / INR doc_length * ln (INR total / INR df).

(** The weight the loop of [tfidf_vector] stores for an item. *)
Definition stored_weight (frequencies : PyDict.t nat) (total doc_length : nat)
           (item : string * nat) : R :=
  tfidf_weight total (counted frequencies (fst item)) doc_length (snd item).

Definition store_weight (frequencies : PyDict.t nat) (total doc_length : nat)
           (vec : PyDict.t R) (item : string * nat) : PyDict.t R :=
  PyDict.set (fst item) (stored_weight frequencies total doc_length item) vec.

(** The vector [build_index] gives a token sequence. *)
Definition vector_of (frequencies : PyDict.t nat) (total : nat)
           (tokens : list string) : PyDict.t R :=
  fold_left (store_weight frequencies total (List.length tokens))
            (Counter tokens) [].

(** Nothing can raise while the vector of [tokens] is computed. *)
Definition weighable (frequencies : PyDict.t nat) (total : nat)
           (tokens : list string) : Prop :=
  forall term,
    In term tokens ->
    total <> 0%nat
    /\ exists n, PyDict.get term frequencies = Some n /\ n <> 0%nat.

(** The vector of a token sequence as a function of the ingested corpus
    alone: the weight of each distinct token, in the order of first
    occurrence, with the size of its inverted-index entry as its document
    frequency. *)
Definition corpus_vector (self : t) (tokens : list string) : PyDict.t R :=
  fold_left
    (fun vec item =>
       PyDict.set (fst item)
         (tfidf_weight (total_documents self)
                       (List.length (posting self (fst item)))
                       (List.length tokens) (snd item))
         vec)
    (Counter tokens) [].

(** The states of the index a caller can bring about. *)
Inductive reachable : t -> Prop :=
| reachable_init (p : TextPreprocessor.t) : reachable (init p)
| reachable_add (self : t) (docs : PyDict.t string) :
    reachable self -> reachable (add_documents self docs)
| reachable_build (self self' : t) :
    reachable self -> build_index self = Ok self' -> reachable self'.

End IndexNotions.

Section EngineNotions.
Import QuestifySearchEngine.
Open Scope R_scope.

Definition invalid_query : query_info := QueryError "Invalid or empty query".

Definition vocabulary_miss : query_info :=
  QueryError "No matching terms found in vocabulary".

Definition no_candidates : query_info :=
  QueryMessage "No documents contain the query terms".

Definition search_error (e : exn) : query_info :=
  QueryError ("Search error: " ++ exn_str e).

(** The engine the constructor returns for the default configuration and an
    empty store. *)
Definition empty_engine : QuestifySearchEngine.t :=
  mk TextPreprocessor.default
     (TFIDFIndexer.init TextPreprocessor.default)
     (QueryProcessor.mk TextPreprocessor.default)
     (ResultRanker.mk 10 (1 / 100))
     DocumentStore.empty.

Definition scenario_A : PyDict.t string :=
  [ ("d1", "machine learning algorithms");
    ("d2", "deep learning neural networks");
    ("d3", "cooking recipes") ].

Definition ranker_10 : ResultRanker.t := ResultRanker.mk 10 (1 / 100).

Definition two_scores : list (string * R) := [("d1", 1 / 2); ("d2", 1 / 1000)].

Definition scenario_A_index : TFIDFIndexer.t :=
  TFIDFIndexer.add_documents (TFIDFIndexer.init TextPreprocessor.default)
                             scenario_A.

Definition stopwords_only_index : TFIDFIndexer.t :=
  TFIDFIndexer.add_documents (TFIDFIndexer.init TextPreprocessor.default)
                             [("d1", "is it a"); ("d2", "search engines")].

End EngineNotions.

Section TokenNotions.

(** The characters a token can have: [a-z], [0-9] and the backslash. *)
Definition token_char (c : ascii) : bool :=
  PyStr.is_lower c || PyStr.is_digit c || Ascii.eqb c PyStr.backslash.

(** What [preprocess] guarantees of a token it returns. *)
Definition well_formed_token (self : TextPreprocessor.t) (token : string)
  : Prop :=
  token <> ""
  /\ PyStr.forallb token_char token = true
  /\ (TextPreprocessor.min_token_length self <= Z.of_nat (String.length token))%Z
  /\ (TextPreprocessor.remove_stopwords self = true ->
      ~ In token TextPreprocessor.STOPWORDS).

End TokenNotions.

Section BuiltIndexNotions.
Import TFIDFIndexer.
Open Scope R_scope.

(** Every vocabulary term has a document in its inverted-index entry. *)
Definition postings_inhabited (self : t) : Prop :=
  forall term,
    In term (PyDict.keys (vocabulary self)) ->
    exists doc_id, In doc_id (posting self term).

(** The vocabulary ids are 0, 1, 2, ... in the order of the keys. *)
Definition vocabulary_dense (self : t) : Prop :=
  List.map snd (vocabulary self) = seq 0 (List.length (vocabulary self))
  /\ NoDup (PyDict.keys (vocabulary self)).

(** An index as [build_index] leaves it. *)
Definition built (self : t) : Prop :=
  exists before, reachable before /\ build_index before = Ok self.

(** The document frequencies are those of the inverted index. *)
Definition frequencies_current (self : t) : Prop :=
  forall term,
    In term (PyDict.keys (vocabulary self)) ->
    PyDict.get term (document_frequencies self)
    = Some (List.length (posting self term)).

End BuiltIndexNotions.

Section QueryVectorNotions.
Import TFIDFIndexer.
Open Scope R_scope.

(** The weight [get_query_vector] gives an item of the query's counter,
    [None] for a term it skips. *)
Definition query_item_weight (self : t) (query_length : nat)
           (item : string * nat) : option R :=
  if PyDict.mem (fst item) (vocabulary self)
  then Some (tfidf_weight (total_documents self)
                          (List.length (posting self (fst item)))
                          query_length (snd item))
  else None.

Definition store_query_weight (self : t) (query_length : nat)
           (vec : PyDict.t R) (item : string * nat) : PyDict.t R :=
  match query_item_weight self query_length item with
  | Some w => PyDict.set (fst item) w vec
  | None => vec
  end.

(** Whether a term is in the vocabulary. *)
Definition known (self : t) (term : string) : bool :=
  PyDict.mem term (vocabulary self).

End QueryVectorNotions.

Section ScoringNotions.
Open Scope R_scope.

(** [document_norms.get(doc_id, 0.0)] *)
Definition norm_for (document_norms : PyDict.t R) (doc_id : string) : R :=
  match PyDict.get doc_id document_norms with
  | Some n => n
  | None => 0
  end.

(** The cosine of two vectors, 0 when they share no weight. *)
Definition cosine (q d : PyDict.t R) : R :=
  if Req0 (overlap_dot q d) then 0
  else overlap_dot q d
       / (sqrt (sumsq (PyDict.values q)) * sqrt (sumsq (PyDict.values d))).

(** The two vectors have no term in common. *)
Definition no_shared_term (q d : PyDict.t R) : Prop :=
  forall term, In term (PyDict.keys q) -> ~ In term (PyDict.keys d).

End ScoringNotions.

Section RankingNotions.
Open Scope R_scope.

(** The entry has the score [s]. *)
Definition has_score (s : R) (x : string * R) : bool :=
  if Req_dec_T (snd x) s then true else false.

(** The ranked candidates before formatting. *)
Definition ranked_candidates (self : ResultRanker.t)
           (similarities : list (string * R)) : list (string * R) :=
  ResultRanker.sorted_desc (passing self similarities).

End RankingNotions.

Section StoreNotions.

(** Every stored document has its metadata. *)
Definition store_wf (store : DocumentStore.t) : Prop :=
  forall doc_id,
    In doc_id (PyDict.keys (DocumentStore.documents store)) ->
    In doc_id (PyDict.keys (DocumentStore.metadata store)).

(** The index holds the normalized content of the store's documents, and
    of nothing else. *)
Definition in_sync (self : QuestifySearchEngine.t) : Prop :=
  TFIDFIndexer.preprocessor (QuestifySearchEngine.indexer self)
  = QuestifySearchEngine.preprocessor self
  /\ forall doc_id,
       PyDict.get doc_id
         (TFIDFIndexer.documents (QuestifySearchEngine.indexer self))
       = option_map
           (TextPreprocessor.preprocess (QuestifySearchEngine.preprocessor self))
           (DocumentStore.get_document_content
              (QuestifySearchEngine.document_store self) doc_id).

End StoreNotions.

Section EngineStateNotions.

(** The store holds each document id once, and every stored document has
    its metadata. *)
Definition proper_store (store : DocumentStore.t) : Prop :=
  NoDup (PyDict.keys (DocumentStore.documents store)) /\ store_wf store.

(** The engines a caller can bring about from a proper store on disk, with
    removals whose file operations go through. *)
Inductive engine_reachable : QuestifySearchEngine.t -> Prop :=
| engine_init (remove_stopwords : bool)
              (min_token_length max_results : Z) (min_similarity_score : R)
              (stored : DocumentStore.t) (fs_ok : bool)
              (self : QuestifySearchEngine.t) :
    proper_store stored ->
    QuestifySearchEngine.init remove_stopwords min_token_length max_results
                              min_similarity_score stored fs_ok = Ok self ->
    engine_reachable self
| engine_add (self : QuestifySearchEngine.t) (docs : PyDict.t string)
             (fs_ok : bool) :
    engine_reachable self ->
    engine_reachable (QuestifySearchEngine.add_documents self docs fs_ok)
| engine_build (self self' : QuestifySearchEngine.t) :
    engine_reachable self ->
    QuestifySearchEngine.build_index self = Ok self' ->
    engine_reachable self'
| engine_remove (self self' : QuestifySearchEngine.t) (doc_id : string)
                (success : bool) :
    engine_reachable self ->
    QuestifySearchEngine.remove_document self doc_id true
    = Ok (success, self') ->
    engine_reachable self'.

Definition engine_ok (self : QuestifySearchEngine.t) : Prop :=
  in_sync self
  /\ proper_store (QuestifySearchEngine.document_store self)
  /\ reachable (QuestifySearchEngine.indexer self).

End EngineStateNotions.

Section ExampleNotions.
Open Scope R_scope.

(** The engine of the default configuration after [add_documents] with the
    documents of Scenario A, before [build_index]. *)
Definition scenario_A_engine : QuestifySearchEngine.t :=
  QuestifySearchEngine.add_documents empty_engine scenario_A true.

(** The same for one document whose text is the token [foo\bar]. *)
Definition backslash_engine : QuestifySearchEngine.t :=
  QuestifySearchEngine.add_documents empty_engine [("d1", foo_backslash_bar)]
                                     true.

(** ['foo\\bar'], what [str(KeyError(r'foo\bar'))] is: the backslash of the
    key is doubled. *)
Definition foo_backslash_bar_key_error : string :=
  "'foo" ++ String PyStr.backslash (String PyStr.backslash "bar'").

(** A store with one document. *)
Definition one_document_store : DocumentStore.t :=
  snd (DocumentStore.add_document DocumentStore.empty "d1" "cooking recipes"
                                  true).

Definition one_term : PyDict.t R := [("a", 1)].

Definition two_terms : PyDict.t R := [("a", 2); ("b", 1)].

End ExampleNotions.

Section ConfigNotions.
Import QuestifyConfig.

(** A key without a dot. *)
Definition no_dot (key : string) : Prop :=
  PyStr.forallb (fun c => negb (Ascii.eqb c ".")) key = true.

(** [section.key] *)
Definition dotted (section key : string) : string :=
  section ++ "." ++ key.

(** The configuration has no entry for the section, or a dict of its own
    for it. *)
Definition section_ready (self : t) (section : string) : Prop :=
  exists root,
    read (objects self) (config self) = Some root
    /\ (PyDict.get section root = None
        \/ exists a d,
             PyDict.get section root = Some (VDict a)
             /\ a <> config self
             /\ read (objects self) a = Some d).

(** The section is one of the dicts of [DEFAULT_CONFIG]. *)
Definition default_section (self : t) (section : string) : Prop :=
  exists top a d,
    read (objects self) (DEFAULT_CONFIG self) = Some top
    /\ PyDict.get section top = Some (VDict a)
    /\ a <> DEFAULT_CONFIG self
    /\ read (objects self) a = Some d.

End ConfigNotions.

Section PlainQueryNotions.

(** A query of letters, digits and whitespace only. *)
Definition plain_query (raw_query : string) : Prop :=
  PyStr.forallb (fun c => PyStr.is_alnum c || PyStr.is_space c) raw_query
  = true.

Definition not_space (c : ascii) : bool := negb (PyStr.is_space c).

(** The words of the query written together, in lower case. *)
Definition joined (raw_query : string) : string :=
  PyStr.lower (PyStr.filter not_space raw_query).

End PlainQueryNotions.

(* ================================================================== *)
(** * Properties *)

Ltac by_cases_on_char c :=
  destruct c as [[] [] [] [] [] [] [] []]; vm_compute; try reflexivity;
  try discriminate; try congruence.

(* ------------------------------------------------------------------ *)
(** ** The normalizer *)

Section Normalizer.
Variable self : TextPreprocessor.t.

Lemma lower_char_kept (c : ascii) :
  Ascii.eqb c PyStr.backslash = false ->
  PyStr.kept_by_preprocess (PyStr.lower_char c)
  = PyStr.is_alnum (PyStr.lower_char c).
Proof. by_cases_on_char c. Qed.

Lemma replace_special_lower (text : string) :
  no_backslash text ->
  TextPreprocessor.replace_special (PyStr.lower text)
  = PyStr.map (fun c => if PyStr.is_alnum c then c else " "%char)
              (PyStr.lower text).
Proof.
  unfold no_backslash, TextPreprocessor.replace_special, PyStr.lower.
  induction text as [|c r IH]; simpl; intros Hno; [reflexivity|].
  apply andb_true_iff in Hno as [Hc Hr].
  apply negb_true_iff in Hc.
  rewrite (lower_char_kept _ Hc), (IH Hr). reflexivity.
Qed.

(** Away from the backslash the code is the normalizer of the
    specification. *)
Lemma preprocess_without_backslash (text : string) :
  no_backslash text ->
  TextPreprocessor.preprocess self text
  = TextPreprocessor.spec_preprocess self text.
Proof.
  intros Hno. unfold TextPreprocessor.preprocess, TextPreprocessor.spec_preprocess.
  destruct text as [|c r]; [reflexivity|].
  cbv beta zeta. change (PyStr.is_empty (String c r)) with false. cbv iota.
  rewrite (replace_special_lower _ Hno). reflexivity.
Qed.

Lemma space_stays_space (c : ascii) :
  PyStr.is_space c = true ->
  PyStr.is_space
    (if PyStr.kept_by_preprocess (PyStr.lower_char c)
     then PyStr.lower_char c else " "%char) = true.
Proof. by_cases_on_char c. Qed.

Lemma split_whitespace_only (text : string) :
  whitespace_only text -> PyStr.split text = [].
Proof.
  unfold whitespace_only, PyStr.split.
  induction text as [|c r IH]; simpl; intros Hws; [reflexivity|].
  apply andb_true_iff in Hws as [Hc Hr]. rewrite Hc. exact (IH Hr).
Qed.

(** Empty and whitespace-only input gives no token. *)
Lemma preprocess_whitespace_only (text : string) :
  whitespace_only text -> TextPreprocessor.preprocess self text = [].
Proof.
  intros Hws. unfold TextPreprocessor.preprocess.
  destruct (PyStr.is_empty text); [reflexivity|].
  cbv zeta. rewrite split_whitespace_only; [reflexivity|].
  revert Hws. unfold whitespace_only, TextPreprocessor.replace_special, PyStr.lower.
  induction text as [|c r IH]; simpl; intros Hws; [reflexivity|].
  apply andb_true_iff in Hws as [Hc Hr].
  rewrite (space_stays_space _ Hc), (IH Hr). reflexivity.
Qed.
End Normalizer.

(** C9. [preprocess] does not replace the backslash, a character outside the
    alphanumerics, by whitespace: on the seven characters f o o \ b a r it
    returns the single token [foo\bar], where the five steps of the
    specification give the two tokens [foo] and [bar]. *)
Theorem preprocess_keeps_backslash :
  TextPreprocessor.preprocess TextPreprocessor.default foo_backslash_bar
  = [foo_backslash_bar]
  /\ TextPreprocessor.spec_preprocess TextPreprocessor.default foo_backslash_bar
     = ["foo"; "bar"].
Proof. split; reflexivity. Qed.

(* ------------------------------------------------------------------ *)
(** ** The query processor *)

Section QueryCleaning.
Lemma kept_by_clean_query_not_space (c : ascii) :
  PyStr.kept_by_clean_query c = true -> PyStr.is_space c = false.
Proof. by_cases_on_char c. Qed.

(** No whitespace survives [_clean_query], whatever the query. *)
Lemma clean_query_has_no_whitespace (query : string) :
  PyStr.forallb (fun c => negb (PyStr.is_space c))
                (QueryProcessor._clean_query query) = true.
Proof.
  unfold QueryProcessor._clean_query.
  generalize (PyStr.sub_backslash_s (PyStr.strip query)) as s.
  induction s as [|c r IH]; simpl; [reflexivity|].
  destruct (PyStr.kept_by_clean_query c) eqn:Hk; simpl; [|exact IH].
  rewrite (kept_by_clean_query_not_space _ Hk). exact IH.
Qed.
End QueryCleaning.

(** C2. [process_query] neither collapses whitespace nor preserves it: the
    two-word query "machine learning" comes out as the one term
    "machinelearning", and "deep   learning" likewise, where cleaning as the
    specification words it gives one term per word. *)
Theorem process_query_merges_words :
  QueryProcessor.process_query default_query_processor "machine learning"
  = ["machinelearning"]
  /\ QueryProcessor.spec_process_query default_query_processor "machine learning"
     = ["machine"; "learning"]
  /\ QueryProcessor._clean_query "deep   learning" = "deeplearning"
  /\ QueryProcessor.spec_clean_query "deep   learning" = "deep learning".
Proof. repeat split; reflexivity. Qed.

(* ------------------------------------------------------------------ *)
(** ** The result ranker *)

Section Ranker.
Import ResultRanker.

Variable self : ResultRanker.t.
Variable document_store : option DocumentStore.t.

Lemma Rgeb_true (x y : R) : Rgeb x y = true <-> (x >= y)%R.
Proof. unfold Rgeb. destruct (Rge_dec x y); split; auto; discriminate. Qed.

Lemma insert_desc_perm (x : string * R) (l : list (string * R)) :
  Permutation (insert_desc x l) (x :: l).
Proof.
  induction l as [|y r IH]; simpl; [reflexivity|].
  destruct (Rlt_dec (snd x) (snd y)); [|reflexivity].
  rewrite IH. apply perm_swap.
Qed.

Lemma sorted_desc_perm (l : list (string * R)) : Permutation (sorted_desc l) l.
Proof.
  induction l as [|x r IH]; simpl; [reflexivity|].
  rewrite insert_desc_perm. apply perm_skip, IH.
Qed.

Lemma insert_desc_sorted (x : string * R) (l : list (string * R)) :
  StronglySorted score_desc l -> StronglySorted score_desc (insert_desc x l).
Proof.
  induction 1 as [|y r Hr IH Hy]; simpl.
  - repeat constructor.
  - destruct (Rlt_dec (snd x) (snd y)) as [Hlt|Hge].
    + constructor; [exact IH|].
      apply (Permutation_Forall (Permutation_sym (insert_desc_perm x r))).
      constructor; [unfold score_desc; lra | exact Hy].
    + constructor; [constructor; assumption|].
      constructor; [unfold score_desc; lra|].
      eapply Forall_impl; [|exact Hy].
      unfold score_desc. intros z Hz. lra.
Qed.

Lemma sorted_desc_sorted (l : list (string * R)) :
  StronglySorted score_desc (sorted_desc l).
Proof.
  induction l as [|x r IH]; simpl; [constructor|].
  apply insert_desc_sorted, IH.
Qed.

(** With a limit that is not negative the slice is a prefix of that
    length. *)
Lemma slice_to_firstn (A : Type) (l : list A) (n : Z) :
  (0 <= n)%Z -> slice_to l n = firstn (Z.to_nat n) l.
Proof.
  intros Hn. unfold slice_to.
  destruct (0 <=? n)%Z eqn:E; [reflexivity|]. apply Z.leb_gt in E. lia.
Qed.

Lemma format_result_snoc (acc : list entry) (x : string * R) :
  exists e,
    format_result document_store acc x = (acc ++ [e])%list
    /\ doc_id e = fst x
    /\ similarity_score e = round4 (snd x)
    /\ rank e = (List.length acc + 1)%nat.
Proof.
  destruct x as [d s]. unfold format_result.
  eexists. split; [reflexivity|]. simpl. repeat split.
Qed.

Lemma format_results_length (top : list (string * R)) (acc : list entry) :
  List.length (fold_left (format_result document_store) top acc)
  = (List.length acc + List.length top)%nat.
Proof.
  revert acc. induction top as [|x r IH]; intros acc; cbn [fold_left]; [simpl; lia|].
  destruct (format_result_snoc acc x) as (e & -> & _).
  rewrite IH, length_app. simpl. lia.
Qed.

Lemma format_results_prefix (top : list (string * R)) (acc : list entry)
      (i : nat) (e : entry) :
  nth_error acc i = Some e ->
  nth_error (fold_left (format_result document_store) top acc) i = Some e.
Proof.
  revert acc. induction top as [|x r IH]; intros acc Hi; cbn [fold_left];
    [exact Hi|].
  destruct (format_result_snoc acc x) as (e' & -> & _).
  apply IH. rewrite nth_error_app1; [exact Hi|].
  apply nth_error_Some. congruence.
Qed.

Lemma format_results_nth (top : list (string * R)) (acc : list entry)
      (i : nat) (x : string * R) :
  nth_error top i = Some x ->
  exists e,
    nth_error (fold_left (format_result document_store) top acc)
              (List.length acc + i) = Some e
    /\ doc_id e = fst x
    /\ similarity_score e = round4 (snd x)
    /\ rank e = (List.length acc + i + 1)%nat.
Proof.
  revert acc i. induction top as [|y r IH]; intros acc i Hi.
  - destruct i; discriminate.
  - cbn [fold_left].
    destruct (format_result_snoc acc y) as (e0 & -> & Hd0 & Hs0 & Hr0).
    destruct i as [|i]; simpl in Hi.
    + injection Hi as <-. exists e0. split.
      * apply format_results_prefix.
        rewrite Nat.add_0_r, nth_error_app2, Nat.sub_diag by lia. reflexivity.
      * repeat split; try assumption. lia.
    + destruct (IH (acc ++ [e0])%list i Hi) as (e & He & Hd & Hs & Hr).
      rewrite length_app in He, Hr. simpl in He, Hr.
      exists e. repeat split; try assumption.
      * replace (List.length acc + S i)%nat with (List.length acc + 1 + i)%nat by lia.
        exact He.
      * lia.
Qed.

(** C4. With a limit [max_results] that is not negative, [rank_results]
    keeps exactly the entries whose score is at least [min_similarity_score]
    (each one dropped by the filter is strictly below it), orders the kept
    entries by descending score, returns the first [max_results] of them (all
    of them when there are fewer), and gives the entry at position [i],
    counted from 0, the rank [i + 1], the document id of the i-th kept entry
    and its score rounded to four decimals. *)
Theorem rank_results_filters_sorts_truncates
        (similarities : list (string * R)) :
  (0 <= max_results self)%Z ->
  let kept := passing self similarities in
  let ranked := rank_results self similarities document_store in
  (forall x, In x kept <->
             In x similarities /\ (snd x >= min_similarity_score self)%R)
  /\ (forall x, In x similarities -> ~ In x kept ->
                (snd x < min_similarity_score self)%R)
  /\ exists top rest : list (string * R),
       Permutation (top ++ rest) kept
       /\ StronglySorted score_desc (top ++ rest)
       /\ List.length top
          = Nat.min (Z.to_nat (max_results self)) (List.length kept)
       /\ List.length (results ranked) = List.length top
       /\ total_results ranked = List.length top
       /\ forall i x,
            nth_error top i = Some x ->
            exists e,
              nth_error (results ranked) i = Some e
              /\ doc_id e = fst x
              /\ similarity_score e = round4 (snd x)
              /\ rank e = (i + 1)%nat.
Proof.
  intros Hmax kept ranked.
  assert (Hin : forall x, In x kept <->
             In x similarities /\ (snd x >= min_similarity_score self)%R).
  { intros x. unfold kept, passing. rewrite filter_In, Rgeb_true. reflexivity. }
  split; [exact Hin|]. split.
  - intros x Hx Hnot.
    destruct (Rlt_dec (snd x) (min_similarity_score self)) as [Hlt|Hge];
      [exact Hlt|].
    exfalso. apply Hnot, Hin. split; [exact Hx | lra].
  - exists (firstn (Z.to_nat (max_results self)) (sorted_desc kept)),
           (skipn (Z.to_nat (max_results self)) (sorted_desc kept)).
    rewrite firstn_skipn.
    assert (Hlen : List.length
                     (firstn (Z.to_nat (max_results self)) (sorted_desc kept))
                   = Nat.min (Z.to_nat (max_results self)) (List.length kept)).
    { rewrite length_firstn, (Permutation_length (sorted_desc_perm kept)).
      reflexivity. }
    assert (Hres : results ranked
                   = fold_left (format_result document_store)
                       (firstn (Z.to_nat (max_results self)) (sorted_desc kept))
                       []).
    { unfold ranked, rank_results. simpl.
      rewrite slice_to_firstn by exact Hmax. reflexivity. }
    repeat split.
    + apply sorted_desc_perm.
    + apply sorted_desc_sorted.
    + exact Hlen.
    + rewrite Hres, format_results_length. reflexivity.
    + unfold ranked, rank_results. simpl.
      rewrite slice_to_firstn by exact Hmax.
      rewrite format_results_length. reflexivity.
    + intros i x Hi. rewrite Hres.
      destruct (@format_results_nth _ nil _ _ Hi) as (e & He & Hd & Hs & Hr).
      exists e. simpl in He, Hr. repeat split; assumption.
Qed.
End Ranker.

(* ------------------------------------------------------------------ *)
(** ** The similarity scorer *)

Section SimilarityFloats.
Import CosineSimilarityCalculator.
Open Scope float_scope.

(** C3. The score is not bounded by 1 in the arithmetic the code runs on,
    although the docstring of [calculate_similarity] gives the range 0 to 1.
    In binary64 the vector with the three entries 1.0, scored against itself
    with its own L2 norm sqrt(3.0), gets 3.0 / (sqrt(3.0) * sqrt(3.0)), which
    is 1.0000000000000002: a value above 1 for non-negative vectors. *)
Lemma similarity_above_one_in_binary64 :
  exists document_norm similarity : float,
    l2_norm three_ones = Ok document_norm
    /\ calculate_similarity three_ones three_ones document_norm = Ok similarity
    /\ PrimFloat.ltb 1 similarity = true.
Proof.
  exists (PrimFloat.sqrt 3), (3 / (PrimFloat.sqrt 3 * PrimFloat.sqrt 3)).
  repeat split; vm_compute; reflexivity.
Qed.

(** The range of binary64 shows as well. A query score of 2^700 has a
    square out of range, and [score**2] raises; a query score of 2^-700 has
    a square that underflows to 0, so that the query norm is 0 and the score
    returned is 0, with a dot product that is not 0. *)
Lemma similarity_range_effects_in_binary64 :
  calculate_similarity [("a", 0x1p+700)] [("a", 1)] 1 = Raise OverflowError
  /\ dot_product_loop [("a", 0x1p-700)] [("a", 1)] 0 = 0x1p-700
  /\ calculate_similarity [("a", 0x1p-700)] [("a", 1)] 1 = Ok 0.
Proof. repeat split; vm_compute; reflexivity. Qed.
End SimilarityFloats.

Section SimilarityReals.
Import CosineSimilarityCalculator.
Open Scope R_scope.

Lemma sumsq_nonneg (l : list R) : 0 <= sumsq l.
Proof. induction l as [|x r IH]; simpl; nra. Qed.

Lemma sum_squares_real (l : list R) (acc : R) :
  sum_squares l acc = Ok (acc + sumsq l).
Proof.
  revert acc. induction l as [|x r IH]; intros acc; simpl.
  - f_equal. lra.
  - rewrite IH. f_equal. lra.
Qed.

Lemma l2_norm_real (v : PyDict.t R) :
  l2_norm v = Ok (sqrt (sumsq (PyDict.values v))).
Proof.
  unfold l2_norm. rewrite sum_squares_real. simpl.
  pose proof (sumsq_nonneg (PyDict.values v)).
  destruct (Rlt_dec (0 + sumsq (PyDict.values v)) 0) as [Hneg|_]; [lra|].
  do 2 f_equal. lra.
Qed.

Lemma dot_product_loop_real (q d : PyDict.t R) (acc : R) :
  dot_product_loop q d acc = acc + overlap_dot q d.
Proof.
  revert acc. induction q as [|[k x] r IH]; intros acc; simpl.
  - lra.
  - unfold score_of. destruct (PyDict.get k d) as [y|]; rewrite IH; simpl; lra.
Qed.

Lemma overlap_dot_nonneg (q d : PyDict.t R) :
  nonneg q -> nonneg d -> 0 <= overlap_dot q d.
Proof.
  unfold nonneg. intros Hq Hd.
  assert (Hs : forall k, 0 <= score_of k d).
  { intros k. unfold score_of. clear Hq.
    induction d as [|[k' y] r IH]; simpl; [lra|].
    inversion Hd; subst. destruct (String.eqb k' k); auto. }
  induction q as [|[k x] r IH]; simpl; [lra|].
  inversion Hq; subst. specialize (IH H2). specialize (Hs k). simpl in *. nra.
Qed.

Lemma overlap_sumsq_nonneg (q d : PyDict.t R) : 0 <= overlap_sumsq q d.
Proof. induction q as [|[k x] r IH]; simpl; nra. Qed.

(** One step of the Cauchy-Schwarz inequality. *)
Lemma cauchy_schwarz_step (a b A B C : R) :
  0 <= A -> 0 <= B -> C ^ 2 <= A * B ->
  (a * b + C) ^ 2 <= (a ^ 2 + A) * (b ^ 2 + B).
Proof.
  intros HA HB HC.
  pose proof (pow2_ge_0 a) as Ha. pose proof (pow2_ge_0 b) as Hb.
  set (u := a ^ 2 * B). set (v := b ^ 2 * A).
  assert (Hu : 0 <= u) by (apply Rmult_le_pos; assumption).
  assert (Hv : 0 <= v) by (apply Rmult_le_pos; assumption).
  assert (Huv : (a * b * C) ^ 2 <= u * v).
  { unfold u, v.
    replace ((a * b * C) ^ 2) with ((a ^ 2 * b ^ 2) * C ^ 2) by ring.
    replace (a ^ 2 * B * (b ^ 2 * A)) with ((a ^ 2 * b ^ 2) * (A * B)) by ring.
    apply Rmult_le_compat_l; [apply Rmult_le_pos; assumption | exact HC]. }
  assert (H2 : 2 * (a * b * C) <= u + v).
  { destruct (Rle_dec (2 * (a * b * C)) (u + v)) as [|Hn]; [assumption|].
    exfalso. apply Rnot_le_lt in Hn.
    assert (0 <= a * b * C) by lra.
    assert ((u + v) * (u + v) < (2 * (a * b * C)) * (2 * (a * b * C))).
    { apply Rmult_le_0_lt_compat; lra. }
    pose proof (pow2_ge_0 (u - v)). nra. }
  unfold u, v in H2. nra.
Qed.

(** Cauchy-Schwarz along the query's entries. *)
Lemma overlap_cauchy_schwarz (q d : PyDict.t R) :
  overlap_dot q d ^ 2 <= sumsq (PyDict.values q) * overlap_sumsq q d.
Proof.
  induction q as [|[k x] r IH]; simpl; [lra|].
  apply cauchy_schwarz_step;
    [apply sumsq_nonneg | apply overlap_sumsq_nonneg | exact IH].
Qed.

Lemma score_of_cons (k' k : string) (y : R) (r : PyDict.t R) :
  score_of k ((k', y) :: r) = if String.eqb k' k then y else score_of k r.
Proof. unfold score_of. simpl. destruct (String.eqb k' k); reflexivity. Qed.

Lemma overlap_sumsq_fresh (q r : PyDict.t R) (k : string) (y : R) :
  ~ In k (PyDict.keys q) ->
  overlap_sumsq q ((k, y) :: r) = overlap_sumsq q r.
Proof.
  induction q as [|[k2 x2] q IH]; simpl; intros Hnotin; [reflexivity|].
  rewrite score_of_cons.
  destruct (String.eqb k k2) eqn:E.
  - apply String.eqb_eq in E. subst. tauto.
  - rewrite IH; [reflexivity | tauto].
Qed.

(** Distinct query terms meet distinct entries of the document. *)
Lemma overlap_sumsq_le (q d : PyDict.t R) :
  NoDup (PyDict.keys q) -> overlap_sumsq q d <= sumsq (PyDict.values d).
Proof.
  revert q. induction d as [|[k' y] r IH]; intros q Hq.
  - clear Hq. induction q as [|[k x] q IHq]; simpl in *; [lra|].
    unfold score_of at 1. simpl. lra.
  - assert (Hstep : overlap_sumsq q ((k', y) :: r)
                    <= y ^ 2 + overlap_sumsq q r).
    { clear IH. induction q as [|[k x] q IHq]; simpl.
      - nra.
      - inversion Hq as [|? ? Hnotin Hq']; subst.
        rewrite score_of_cons.
        destruct (String.eqb k' k) eqn:E.
        + apply String.eqb_eq in E. subst k'.
          rewrite overlap_sumsq_fresh by exact Hnotin.
          pose proof (pow2_ge_0 (score_of k r)). lra.
        + specialize (IHq Hq'). lra. }
    specialize (IH q Hq). simpl. lra.
Qed.

Lemma overlap_dot_bound (q d : PyDict.t R) :
  NoDup (PyDict.keys q) ->
  overlap_dot q d ^ 2 <= sumsq (PyDict.values q) * sumsq (PyDict.values d).
Proof.
  intros Hq.
  pose proof (overlap_cauchy_schwarz q d).
  pose proof (@overlap_sumsq_le q d Hq).
  pose proof (sumsq_nonneg (PyDict.values q)).
  pose proof (overlap_sumsq_nonneg q d).
  nra.
Qed.
Lemma Req0_true (x : R) : Req0 x = true <-> x = 0.
Proof. unfold Req0. destruct (Req_dec_T x 0); split; auto; discriminate. Qed.

Lemma Req0_false (x : R) : Req0 x = false <-> x <> 0.
Proof.
  unfold Req0. destruct (Req_dec_T x 0); split; intros; try discriminate;
    try contradiction; auto.
Qed.

Lemma calculate_similarity_real (q d : PyDict.t R) (dn : R) :
  calculate_similarity q d dn
  = if PyDict.is_empty q || PyDict.is_empty d || Req0 dn then Ok 0
    else if Req0 (overlap_dot q d) then Ok 0
    else if Req0 (sqrt (sumsq (PyDict.values q))) then Ok 0
    else if Req0 (sqrt (sumsq (PyDict.values q)) * dn)
         then Raise (ZeroDivisionError "float division by zero")
    else Ok (overlap_dot q d / (sqrt (sumsq (PyDict.values q)) * dn)).
Proof.
  unfold calculate_similarity.
  rewrite l2_norm_real, dot_product_loop_real. simpl.
  rewrite Rplus_0_l. reflexivity.
Qed.

(** X30. In exact arithmetic, for a query vector with distinct terms, scores
    that are not negative and a document norm that is the L2 norm of the
    document vector, [calculate_similarity] raises nothing, its value lies
    in [0, 1], and the value is 0 exactly when the query vector is empty, the
    document vector is empty, the norm is 0 or the dot product over the
    shared terms is 0. *)
Theorem calculate_similarity_exact_arithmetic (q d : PyDict.t R) (dn : R) :
  NoDup (PyDict.keys q) -> nonneg q -> nonneg d -> l2_norm d = Ok dn ->
  exists s : R,
    calculate_similarity q d dn = Ok s
    /\ 0 <= s <= 1
    /\ (s = 0 <-> q = [] \/ d = [] \/ dn = 0 \/ overlap_dot q d = 0).
Proof.
  intros Hnodup Hq Hd Hdn.
  rewrite l2_norm_real in Hdn. injection Hdn as Hdn.
  rewrite calculate_similarity_real.
  destruct q as [|kx q']; [exists 0; simpl; repeat split; auto; lra|].
  destruct d as [|ky d']; [exists 0; simpl; repeat split; auto; lra|].
  cbn [PyDict.is_empty orb].
  destruct (Req0 dn) eqn:Edn;
    [apply Req0_true in Edn; exists 0; repeat split; auto; lra|].
  apply Req0_false in Edn.
  destruct (Req0 (overlap_dot (kx :: q') (ky :: d'))) eqn:Edot;
    [apply Req0_true in Edot; exists 0; repeat split; auto; lra|].
  apply Req0_false in Edot.
  set (qv := kx :: q') in *. set (dv := ky :: d') in *.
  pose proof (@overlap_dot_bound qv dv Hnodup) as Hcs.
  pose proof (@overlap_dot_nonneg qv dv Hq Hd) as Hdot.
  pose proof (sumsq_nonneg (PyDict.values qv)) as HA.
  pose proof (sumsq_nonneg (PyDict.values dv)) as HD.
  assert (HApos : 0 < sumsq (PyDict.values qv)).
  { destruct (Rle_lt_or_eq_dec _ _ HA) as [|E0]; [assumption|].
    exfalso. rewrite <- E0, Rmult_0_l in Hcs.
    pose proof (pow2_ge_0 (overlap_dot qv dv)). apply Edot. nra. }
  pose proof (sqrt_lt_R0 _ HApos) as Hqn.
  assert (Hdnpos : 0 < dn).
  { pose proof (sqrt_pos (sumsq (PyDict.values dv))). lra. }
  assert (Hprod : 0 < sqrt (sumsq (PyDict.values qv)) * dn)
    by (apply Rmult_lt_0_compat; assumption).
  assert (Hle : overlap_dot qv dv <= sqrt (sumsq (PyDict.values qv)) * dn).
  { rewrite <- Hdn, <- sqrt_mult by assumption.
    rewrite <- (sqrt_pow2 (overlap_dot qv dv)) at 1 by assumption.
    apply sqrt_le_1_alt. exact Hcs. }
  destruct (Req0 (sqrt (sumsq (PyDict.values qv)))) eqn:Eqn;
    [apply Req0_true in Eqn; lra|].
  destruct (Req0 (sqrt (sumsq (PyDict.values qv)) * dn)) eqn:Eprod;
    [apply Req0_true in Eprod; lra|].
  exists (overlap_dot qv dv / (sqrt (sumsq (PyDict.values qv)) * dn)).
  split; [reflexivity|]. split.
  - split.
    + apply Rmult_le_pos; [exact Hdot|]. left. apply Rinv_0_lt_compat, Hprod.
    + apply (Rmult_le_reg_r (sqrt (sumsq (PyDict.values qv)) * dn));
        [exact Hprod|].
      unfold Rdiv. rewrite Rmult_assoc, Rinv_l by lra. lra.
  - split.
    + intros Hz. exfalso. apply Edot.
      apply (Rmult_eq_compat_r (sqrt (sumsq (PyDict.values qv)) * dn)) in Hz.
      unfold Rdiv in Hz. rewrite Rmult_assoc, Rinv_l in Hz by lra. lra.
    + unfold qv, dv. intros [H|[H|[H|H]]]; try discriminate; contradiction.
Qed.

End SimilarityReals.

(* ------------------------------------------------------------------ *)
(** ** Dictionaries, sets and counters *)

Section DictFacts.
Variable V : Type.
Implicit Types (d : PyDict.t V) (k : string) (v : V).

Lemma dict_get_updated k v d : PyDict.get k (PyDict.set k v d) = Some v.
Proof.
  induction d as [|[k' v'] r IH]; simpl.
  - rewrite String.eqb_refl. reflexivity.
  - destruct (String.eqb k' k) eqn:E; simpl; rewrite E; auto.
Qed.

Lemma dict_get_elsewhere k k' v d :
  k <> k' -> PyDict.get k' (PyDict.set k v d) = PyDict.get k' d.
Proof.
  intros Hne. induction d as [|[k0 v0] r IH]; simpl.
  - destruct (String.eqb k k') eqn:E; [apply String.eqb_eq in E; tauto|].
    reflexivity.
  - destruct (String.eqb k0 k) eqn:E; simpl.
    + apply String.eqb_eq in E. subst k0.
      destruct (String.eqb k k') eqn:E'; [apply String.eqb_eq in E'; tauto|].
      reflexivity.
    + rewrite IH. reflexivity.
Qed.

Lemma dict_getitem_found k v d :
  PyDict.get k d = Some v -> PyDict.getitem k d = Ok v.
Proof. unfold PyDict.getitem. intros ->. reflexivity. Qed.

Lemma dict_get_in_keys k d :
  In k (PyDict.keys d) <-> exists v, PyDict.get k d = Some v.
Proof.
  induction d as [|[k' v'] r IH]; simpl.
  - split; [tauto | intros [v Hv]; discriminate].
  - destruct (String.eqb k' k) eqn:E.
    + apply String.eqb_eq in E. split; eauto.
    + apply String.eqb_neq in E. rewrite <- IH. tauto.
Qed.

Lemma dict_mem_in_keys k d : PyDict.mem k d = true <-> In k (PyDict.keys d).
Proof.
  rewrite dict_get_in_keys. unfold PyDict.mem.
  destruct (PyDict.get k d); split; eauto; try discriminate.
  intros [v Hv]. discriminate.
Qed.

Lemma dict_get_of_entry k v d :
  NoDup (PyDict.keys d) -> In (k, v) d -> PyDict.get k d = Some v.
Proof.
  induction d as [|[k' v'] r IH]; simpl; intros Hnd Hin; [tauto|].
  inversion Hnd as [|? ? Hnotin Hnd']; subst.
  destruct Hin as [Heq|Hin].
  - injection Heq as -> ->. rewrite String.eqb_refl. reflexivity.
  - destruct (String.eqb k' k) eqn:E; [|auto].
    apply String.eqb_eq in E. subst k'. exfalso. apply Hnotin.
    change k with (fst (k, v)). apply in_map, Hin.
Qed.

Lemma dict_entry_of_get k v d : PyDict.get k d = Some v -> In (k, v) d.
Proof.
  induction d as [|[k' v'] r IH]; simpl; [discriminate|].
  destruct (String.eqb k' k) eqn:E.
  - apply String.eqb_eq in E. subst k'. intros [= ->]. auto.
  - auto.
Qed.

Lemma dict_keys_set k v d :
  PyDict.keys (PyDict.set k v d)
  = if PyDict.mem k d then PyDict.keys d else (PyDict.keys d ++ [k])%list.
Proof.
  unfold PyDict.mem. induction d as [|[k' v'] r IH]; simpl; [reflexivity|].
  destruct (String.eqb k' k) eqn:E; simpl; [reflexivity|].
  rewrite IH. destruct (PyDict.get k r); reflexivity.
Qed.

Lemma dict_keys_set_nodup k v d :
  NoDup (PyDict.keys d) -> NoDup (PyDict.keys (PyDict.set k v d)).
Proof.
  intros Hnd. rewrite dict_keys_set.
  destruct (PyDict.mem k d) eqn:E; [exact Hnd|].
  apply NoDup_app; [exact Hnd | repeat constructor; simpl; tauto |].
  intros x Hx [<-|[]].
  apply dict_mem_in_keys in Hx. congruence.
Qed.

Lemma dict_in_keys_set k k' v d :
  In k' (PyDict.keys (PyDict.set k v d)) <-> k' = k \/ In k' (PyDict.keys d).
Proof.
  rewrite !dict_get_in_keys.
  destruct (String.eqb k k') eqn:E.
  - apply String.eqb_eq in E. subst k'. rewrite dict_get_updated.
    split; eauto.
  - apply String.eqb_neq in E. rewrite dict_get_elsewhere by exact E.
    split; [tauto | intros [->|H]; [tauto | exact H]].
Qed.

Lemma dict_in_keys_del k k' d :
  In k' (PyDict.keys (PyDict.del k d)) <-> k' <> k /\ In k' (PyDict.keys d).
Proof.
  unfold PyDict.del, PyDict.keys. rewrite !in_map_iff. split.
  - intros [[k0 v0] [<- Hin]]. apply filter_In in Hin as [Hin Hne].
    simpl in *. apply negb_true_iff, String.eqb_neq in Hne.
    split; [exact Hne|]. exists (k0, v0). auto.
  - intros [Hne [[k0 v0] [<- Hin]]]. exists (k0, v0). split; [reflexivity|].
    apply filter_In. split; [exact Hin|].
    simpl in *. apply negb_true_iff, String.eqb_neq. exact Hne.
Qed.
End DictFacts.

Section SetFacts.
Implicit Types (s : PySet.t) (x y : string).

Lemma str_mem_In x (l : list string) : PyStr.mem x l = true <-> In x l.
Proof.
  unfold PyStr.mem. rewrite existsb_exists. split.
  - intros [y [Hy E]]. apply String.eqb_eq in E. subst. exact Hy.
  - intros H. exists x. split; [exact H | apply String.eqb_refl].
Qed.

Lemma set_in_add x y s : In x (PySet.add y s) <-> x = y \/ In x s.
Proof.
  unfold PySet.add, PySet.mem. destruct (PyStr.mem y s) eqn:E.
  - apply str_mem_In in E. split; [tauto | intros [->|H]; assumption].
  - rewrite in_app_iff. simpl. split; [intros [H|[<-|[]]] | intros [->|H]]; auto.
Qed.

Lemma set_add_nodup y s : NoDup s -> NoDup (PySet.add y s).
Proof.
  intros Hnd. unfold PySet.add, PySet.mem. destruct (PyStr.mem y s) eqn:E;
    [exact Hnd|].
  apply NoDup_app; [exact Hnd | repeat constructor; simpl; tauto |].
  intros x Hx [<-|[]]. apply str_mem_In in Hx. congruence.
Qed.

Lemma set_in_update x s other :
  In x (PySet.update s other) <-> In x s \/ In x other.
Proof.
  unfold PySet.update. revert s.
  induction other as [|y r IH]; intros s; simpl; [tauto|].
  rewrite IH, set_in_add. split; [intros [[->|H]|H] | intros [H|[->|H]]]; auto.
Qed.

Lemma set_update_nodup s other : NoDup s -> NoDup (PySet.update s other).
Proof.
  unfold PySet.update. revert s.
  induction other as [|y r IH]; intros s Hnd; simpl; [exact Hnd|].
  apply IH, set_add_nodup, Hnd.
Qed.

Lemma set_in_of_list x (l : list string) : In x (PySet.of_list l) <-> In x l.
Proof. unfold PySet.of_list. rewrite set_in_update. simpl. tauto. Qed.
End SetFacts.

Section CounterFacts.
Lemma counter_fold (tokens : list string) :
  Counter tokens = fold_left count_step tokens [].
Proof. reflexivity. Qed.

Lemma count_fold_get (tokens : list string) (c : PyDict.t nat) (tok : string) :
  PyDict.get tok (fold_left count_step tokens c)
  = match count_occ string_dec tokens tok with
    | O => PyDict.get tok c
    | S n => Some (counted c tok + S n)%nat
    end.
Proof.
  revert c. induction tokens as [|t r IH]; intros c; simpl; [reflexivity|].
  rewrite IH. unfold counted at 1. unfold count_step at 1 2.
  destruct (string_dec t tok) as [->|Hne].
  - rewrite dict_get_updated.
    destruct (count_occ string_dec r tok); f_equal; lia.
  - rewrite dict_get_elsewhere by exact Hne.
    destruct (count_occ string_dec r tok); reflexivity.
Qed.

Lemma count_fold_nodup (tokens : list string) (c : PyDict.t nat) :
  NoDup (PyDict.keys c) -> NoDup (PyDict.keys (fold_left count_step tokens c)).
Proof.
  revert c. induction tokens as [|t r IH]; intros c Hnd; simpl; [exact Hnd|].
  apply IH, dict_keys_set_nodup, Hnd.
Qed.

Lemma counter_get (tokens : list string) (tok : string) :
  PyDict.get tok (Counter tokens)
  = match count_occ string_dec tokens tok with
    | O => None
    | S n => Some (S n)
    end.
Proof. rewrite counter_fold, count_fold_get. reflexivity. Qed.

Lemma counter_nodup (tokens : list string) : NoDup (PyDict.keys (Counter tokens)).
Proof. rewrite counter_fold. apply count_fold_nodup. constructor. Qed.

(** An item of the counter is a token of the list with its number of
    occurrences, which is positive. *)
Lemma counter_item (tokens : list string) (tok : string) (n : nat) :
  In (tok, n) (Counter tokens) <->
  In tok tokens /\ n = count_occ string_dec tokens tok.
Proof.
  split.
  - intros Hin. apply dict_get_of_entry in Hin; [|apply counter_nodup].
    rewrite counter_get in Hin.
    destruct (count_occ string_dec tokens tok) eqn:E; [discriminate|].
    injection Hin as <-. split; [|reflexivity].
    apply (count_occ_In string_dec). lia.
  - intros [Hin ->]. apply dict_entry_of_get. rewrite counter_get.
    apply (count_occ_In string_dec) in Hin.
    destruct (count_occ string_dec tokens tok); [lia | reflexivity].
Qed.

End CounterFacts.

(* ------------------------------------------------------------------ *)
(** ** The index: ingestion *)

Section Ingestion.
Import TFIDFIndexer.

Lemma add_term_frame (doc_id : string) (self : t) (term : string) :
  let self' := add_term doc_id self term in
  preprocessor self' = preprocessor self
  /\ documents self' = documents self
  /\ document_frequencies self' = document_frequencies self
  /\ document_norms self' = document_norms self
  /\ tfidf_vectors self' = tfidf_vectors self
  /\ total_documents self' = total_documents self.
Proof.
  unfold add_term, inverted_index_default.
  destruct (negb (PyDict.mem term (vocabulary self)));
    cbn; destruct (PyDict.get term (inverted_index self)); cbn; auto 10.
Qed.

Lemma add_term_vocabulary (doc_id : string) (self : t) (term t0 : string) :
  In t0 (PyDict.keys (vocabulary (add_term doc_id self term)))
  <-> t0 = term \/ In t0 (PyDict.keys (vocabulary self)).
Proof.
  unfold add_term, inverted_index_default.
  destruct (PyDict.mem term (vocabulary self)) eqn:E; cbn;
    destruct (PyDict.get term (inverted_index self)); cbn.
  1,2: apply dict_mem_in_keys in E; split; [tauto | intros [->|H]; assumption].
  1,2: apply dict_in_keys_set.
Qed.

Lemma add_term_posting (doc_id : string) (self : t) (term t0 : string) :
  posting (add_term doc_id self term) t0
  = if String.eqb term t0 then PySet.add doc_id (posting self term)
    else posting self t0.
Proof.
  unfold posting, add_term, inverted_index_default.
  destruct (negb (PyDict.mem term (vocabulary self))); cbn;
    destruct (PyDict.get term (inverted_index self)) eqn:Eg; cbn;
    (destruct (String.eqb term t0) eqn:E;
     [ apply String.eqb_eq in E; subst t0; rewrite dict_get_updated; reflexivity
     | apply String.eqb_neq in E;
       rewrite ?dict_get_elsewhere by exact E; reflexivity ]).
Qed.

Lemma add_term_index_keys (doc_id : string) (self : t) (term t0 : string) :
  In t0 (PyDict.keys (inverted_index (add_term doc_id self term)))
  <-> t0 = term \/ In t0 (PyDict.keys (inverted_index self)).
Proof.
  unfold add_term, inverted_index_default.
  destruct (negb (PyDict.mem term (vocabulary self))); cbn -[PyDict.keys];
    destruct (PyDict.get term (inverted_index self)) eqn:Eg;
    cbn -[PyDict.keys]; rewrite ?dict_in_keys_set; tauto.
Qed.

Lemma add_terms_frame (doc_id : string) (terms : list string) (self : t) :
  let self' := fold_left (add_term doc_id) terms self in
  preprocessor self' = preprocessor self
  /\ documents self' = documents self
  /\ document_frequencies self' = document_frequencies self
  /\ document_norms self' = document_norms self
  /\ tfidf_vectors self' = tfidf_vectors self
  /\ total_documents self' = total_documents self.
Proof.
  revert self. induction terms as [|term r IH]; intros self; simpl; [auto 10|].
  destruct (IH (add_term doc_id self term)) as (H1 & H2 & H3 & H4 & H5 & H6).
  destruct (add_term_frame doc_id self term) as (G1 & G2 & G3 & G4 & G5 & G6).
  simpl in *. repeat split; congruence.
Qed.

Lemma add_terms_vocabulary (doc_id : string) (terms : list string) (self : t)
      (t0 : string) :
  In t0 (PyDict.keys (vocabulary (fold_left (add_term doc_id) terms self)))
  <-> In t0 terms \/ In t0 (PyDict.keys (vocabulary self)).
Proof.
  revert self. induction terms as [|term r IH]; intros self; simpl; [tauto|].
  rewrite IH, add_term_vocabulary. intuition auto.
Qed.

Lemma add_terms_index_keys (doc_id : string) (terms : list string) (self : t)
      (t0 : string) :
  In t0 (PyDict.keys (inverted_index (fold_left (add_term doc_id) terms self)))
  <-> In t0 terms \/ In t0 (PyDict.keys (inverted_index self)).
Proof.
  revert self. induction terms as [|term r IH]; intros self; simpl; [tauto|].
  rewrite IH, add_term_index_keys. intuition auto.
Qed.

Lemma add_terms_posting (doc_id : string) (terms : list string) (self : t)
      (t0 d0 : string) :
  In d0 (posting (fold_left (add_term doc_id) terms self) t0)
  <-> In d0 (posting self t0) \/ (d0 = doc_id /\ In t0 terms).
Proof.
  revert self. induction terms as [|term r IH]; intros self; simpl; [tauto|].
  rewrite IH, add_term_posting.
  destruct (String.eqb term t0) eqn:E.
  - apply String.eqb_eq in E. subst t0. rewrite set_in_add. intuition auto.
  - apply String.eqb_neq in E. intuition (subst; auto; congruence).
Qed.

(** What ingesting one document does to the index. *)
Lemma add_document_effect (self : t) (doc_id text : string) :
  let tokens := TextPreprocessor.preprocess (preprocessor self) text in
  let self' := add_document self (doc_id, text) in
  preprocessor self' = preprocessor self
  /\ documents self' = PyDict.set doc_id tokens (documents self)
  /\ document_frequencies self' = document_frequencies self
  /\ document_norms self' = document_norms self
  /\ tfidf_vectors self' = tfidf_vectors self
  /\ (forall t0, In t0 (PyDict.keys (vocabulary self'))
                 <-> In t0 tokens \/ In t0 (PyDict.keys (vocabulary self)))
  /\ (forall t0, In t0 (PyDict.keys (inverted_index self'))
                 <-> In t0 tokens \/ In t0 (PyDict.keys (inverted_index self)))
  /\ (forall t0 d0, In d0 (posting self' t0)
                    <-> In d0 (posting self t0) \/ (d0 = doc_id /\ In t0 tokens)).
Proof.
  intros tokens self'. unfold self', add_document. fold tokens.
  set (s0 := with_documents self (PyDict.set doc_id tokens (documents self))).
  destruct (add_terms_frame doc_id (PySet.of_list tokens) s0)
    as (H1 & H2 & H3 & H4 & H5 & _).
  repeat split; try assumption.
  1,2: rewrite add_terms_vocabulary, set_in_of_list; tauto.
  1,2: rewrite add_terms_index_keys, set_in_of_list; tauto.
  1,2: rewrite add_terms_posting, set_in_of_list; tauto.
Qed.

Lemma add_document_ingested (self : t) (doc : string * string) :
  ingested self -> ingested (add_document self doc).
Proof.
  destruct doc as [doc_id text]. intros [Hnd Hidx Hpost Hknown].
  destruct (add_document_effect self doc_id text)
    as (_ & Hdocs & _ & _ & _ & Hvoc & Hkeys & Hposting).
  set (tokens := TextPreprocessor.preprocess (preprocessor self) text) in *.
  constructor.
  - rewrite Hdocs. apply dict_keys_set_nodup, Hnd.
  - intros d0 toks term Hget Hin. rewrite Hdocs in Hget.
    rewrite Hvoc, Hposting.
    destruct (string_dec doc_id d0) as [<-|Hne].
    + rewrite dict_get_updated in Hget. injection Hget as <-. tauto.
    + rewrite dict_get_elsewhere in Hget by exact Hne.
      destruct (Hidx d0 toks term Hget Hin). tauto.
  - intros term. rewrite Hvoc, Hkeys. specialize (Hpost term). tauto.
  - intros term d0. rewrite Hposting, Hdocs, dict_in_keys_set.
    specialize (Hknown term d0). tauto.
Qed.

Lemma add_document_list_ingested (docs : PyDict.t string) (self : t) :
  ingested self -> ingested (fold_left add_document docs self).
Proof.
  revert self. induction docs as [|doc r IH]; intros self H; simpl; [exact H|].
  apply IH, add_document_ingested, H.
Qed.

Lemma with_total_documents_ingested (self : t) (n : nat) :
  ingested self -> ingested (with_total_documents self n).
Proof. intros [H1 H2 H3 H4]. constructor; assumption. Qed.

Lemma add_documents_consistent (self : t) (docs : PyDict.t string) :
  ingested self -> consistent (add_documents self docs).
Proof.
  intros H. unfold add_documents. constructor; [|reflexivity].
  apply with_total_documents_ingested, add_document_list_ingested, H.
Qed.

Lemma init_consistent (p : TextPreprocessor.t) : consistent (init p).
Proof.
  repeat constructor; cbv; try tauto; try discriminate.
Qed.
End Ingestion.

Section IngestionHistory.
Import TFIDFIndexer.

Lemma add_document_list_history (docs : PyDict.t string) (self : t) :
  let self' := fold_left add_document docs self in
  preprocessor self' = preprocessor self
  /\ forall term doc_id,
       In doc_id (posting self' term)
       <-> In doc_id (posting self term)
           \/ ingested_with (preprocessor self) docs doc_id term.
Proof.
  revert self. induction docs as [|[d text] r IH]; intros self;
    cbn [fold_left].
  - split; [reflexivity|]. intros term doc_id. unfold ingested_with. simpl.
    split; [tauto | intros [H|[? [[] _]]]; exact H].
  - destruct (IH (add_document self (d, text))) as [Hp Hpost].
    destruct (add_document_effect self d text) as (Hp0 & _ & _ & _ & _ & _ & _ & H0).
    split; [rewrite Hp; exact Hp0|].
    intros term doc_id. rewrite Hpost, H0, Hp0. unfold ingested_with.
    cbn [In]. split.
    + intros [[H|[-> H]]|[text' [Hin Htok]]]; eauto 6.
    + intros [H|[text' [[[= <- <-]|Hin] Htok]]]; eauto 6.
Qed.

Lemma add_documents_history (batches : list (PyDict.t string)) (self : t) :
  let self' := fold_left add_documents batches self in
  preprocessor self' = preprocessor self
  /\ forall term doc_id,
       In doc_id (posting self' term)
       <-> In doc_id (posting self term)
           \/ ingested_with (preprocessor self) (List.concat batches) doc_id term.
Proof.
  revert self. induction batches as [|docs r IH]; intros self;
    cbn [fold_left List.concat].
  - split; [reflexivity|]. intros term doc_id. unfold ingested_with. simpl.
    split; [tauto | intros [H|[? [[] _]]]; exact H].
  - destruct (IH (add_documents self docs)) as [Hp Hpost].
    destruct (add_document_list_history docs self) as [Hp0 H0].
    assert (Hp1 : preprocessor (add_documents self docs) = preprocessor self)
      by exact Hp0.
    split; [rewrite Hp; exact Hp1|].
    intros term doc_id. rewrite Hpost, Hp1.
    change (posting (add_documents self docs) term)
      with (posting (fold_left add_document docs self) term).
    rewrite H0. unfold ingested_with.
    split.
    + intros [[H|[text [Hin Htok]]]|[text [Hin Htok]]]; auto;
        right; exists text; rewrite in_app_iff; auto.
    + intros [H|[text [Hin Htok]]]; auto.
      apply in_app_iff in Hin as [Hin|Hin]; eauto 6.
Qed.

Lemma add_documents_list_consistent (batches : list (PyDict.t string)) (self : t) :
  consistent self -> consistent (fold_left add_documents batches self).
Proof.
  revert self. induction batches as [|docs r IH]; intros self H; simpl;
    [exact H|].
  apply IH, add_documents_consistent, H.
Qed.

(** C6 fails on re-ingestion: after "d1" is ingested as "alpha beta" and then
    again as "gamma delta", it is still in the entry of "alpha", a term its
    stored token sequence no longer has. *)
Lemma reingestion_keeps_stale_entry :
  PyDict.get "d1" (documents alpha_then_gamma) = Some ["gamma"; "delta"]
  /\ In "d1" (posting alpha_then_gamma "alpha")
  /\ ~ In "alpha" ["gamma"; "delta"].
Proof.
  split; [reflexivity|]. split; [vm_compute; auto|].
  simpl. intros [H|[H|[]]]; discriminate.
Qed.

(** C6, amended. After any sequence of [add_documents] calls on a fresh
    index, a document id is in the entry of a term exactly when the term
    occurs in the tokens of some text ingested under that id; so it is there
    whenever the term occurs in the tokens now stored for the document, and
    the converse holds for a document all of whose ingested texts have the
    stored tokens (one that was never re-ingested with other content). *)
Theorem inverted_index_tracks_ingestions
        (p : TextPreprocessor.t) (batches : list (PyDict.t string))
        (doc_id term : string) :
  let self := fold_left add_documents batches (init p) in
  (In doc_id (posting self term)
   <-> ingested_with p (List.concat batches) doc_id term)
  /\ (forall tokens,
        PyDict.get doc_id (documents self) = Some tokens ->
        In term tokens -> In doc_id (posting self term))
  /\ (forall tokens,
        PyDict.get doc_id (documents self) = Some tokens ->
        (forall text, In (doc_id, text) (List.concat batches) ->
                      TextPreprocessor.preprocess p text = tokens) ->
        (In doc_id (posting self term) <-> In term tokens)).
Proof.
  intros self.
  destruct (add_documents_history batches (init p)) as [_ Hpost].
  fold self in Hpost. simpl in Hpost.
  assert (Hhist : In doc_id (posting self term)
                  <-> ingested_with p (List.concat batches) doc_id term).
  { rewrite Hpost. tauto. }
  assert (Hcur : forall tokens,
             PyDict.get doc_id (documents self) = Some tokens ->
             In term tokens -> In doc_id (posting self term)).
  { intros tokens Hget Hin.
    pose proof (add_documents_list_consistent batches (init p) (init_consistent p))
      as [[_ Hidx _ _] _].
    exact (proj2 (Hidx doc_id tokens term Hget Hin)). }
  split; [exact Hhist|]. split; [exact Hcur|].
  intros tokens Hget Hsame. split; [|apply Hcur, Hget].
  rewrite Hhist. intros [text [Hin Htok]].
  rewrite <- (Hsame text Hin). exact Htok.
Qed.
End IngestionHistory.

(* ------------------------------------------------------------------ *)
(** ** The index: building the vectors *)

Section Build.
Import TFIDFIndexer.
Open Scope R_scope.

Lemma same_corpus_refl (self : t) : same_corpus self self.
Proof. repeat split. Qed.

Lemma same_corpus_trans (s1 s2 s3 : t) :
  same_corpus s1 s2 -> same_corpus s2 s3 -> same_corpus s1 s3.
Proof.
  intros (A1 & A2 & A3 & A4 & A5) (B1 & B2 & B3 & B4 & B5).
  repeat split; congruence.
Qed.

Lemma same_corpus_posting (self self' : t) (term : string) :
  same_corpus self self' -> posting self' term = posting self term.
Proof. intros (_ & _ & _ & H & _). unfold posting. rewrite H. reflexivity. Qed.

Lemma same_corpus_consistent (self self' : t) :
  same_corpus self self' -> consistent self -> consistent self'.
Proof.
  intros Hsame [[Hnd Hidx Hpost Hknown] Htot].
  pose proof Hsame as (A1 & A2 & A3 & A4 & A5).
  constructor; [constructor|]; try congruence.
  - intros d toks term. rewrite A2, A3, (same_corpus_posting _ _ _ Hsame).
    apply Hidx.
  - intros term. rewrite A3, A4. apply Hpost.
  - intros term d. rewrite A2, (same_corpus_posting _ _ _ Hsame). apply Hknown.
Qed.

Lemma update_document_frequency_known (self : t) (term : string) :
  In term (PyDict.keys (inverted_index self)) ->
  update_document_frequency self term
  = with_document_frequencies self
      (PyDict.set term (List.length (posting self term))
                  (document_frequencies self)).
Proof.
  intros Hin. apply dict_get_in_keys in Hin as [entry Hget].
  unfold update_document_frequency, inverted_index_default, posting.
  rewrite Hget. reflexivity.
Qed.

Lemma update_document_frequencies (terms : list string) (self : t) :
  (forall term, In term terms -> In term (PyDict.keys (inverted_index self))) ->
  let self' := fold_left update_document_frequency terms self in
  same_corpus self self'
  /\ document_norms self' = document_norms self
  /\ tfidf_vectors self' = tfidf_vectors self
  /\ forall term,
       PyDict.get term (document_frequencies self')
       = if in_dec string_dec term terms
         then Some (List.length (posting self term))
         else PyDict.get term (document_frequencies self).
Proof.
  revert self. induction terms as [|t1 r IH]; intros self Hkeys; cbn [fold_left].
  - split; [apply same_corpus_refl|]. repeat split.
  - rewrite update_document_frequency_known by (apply Hkeys; left; reflexivity).
    set (s1 := with_document_frequencies self _).
    assert (Hs1 : same_corpus self s1) by (repeat split).
    destruct (IH s1) as (Hsame & Hn & Hv & Hdf).
    { intros term Hin. apply Hkeys. right. exact Hin. }
    split; [exact (same_corpus_trans _ _ _ Hs1 Hsame)|].
    split; [exact Hn|]. split; [exact Hv|].
    intros term. rewrite Hdf.
    change (posting s1 term) with (posting self term).
    destruct (in_dec string_dec term r) as [Hin|Hnotin];
      destruct (in_dec string_dec term (t1 :: r)) as [Hin'|Hnotin'];
      try reflexivity.
    + exfalso. apply Hnotin'. right. exact Hin.
    + destruct Hin' as [<-|Hin']; [|contradiction].
      unfold s1. cbn [document_frequencies with_document_frequencies].
      apply dict_get_updated.
    + unfold s1. cbn [document_frequencies with_document_frequencies].
      apply dict_get_elsewhere. intros ->. apply Hnotin'. left. reflexivity.
Qed.

Lemma int_div_defined (a b : nat) :
  b <> 0%nat -> int_div a b = Ok (INR a / INR b).
Proof.
  intros Hb. unfold int_div. destruct (Nat.eqb_spec b 0); [contradiction|].
  reflexivity.
Qed.

Lemma math_log_defined (x : R) : 0 < x -> math_log x = Ok (ln x).
Proof. intros Hx. unfold math_log. destruct (Rle_dec x 0); [lra | reflexivity]. Qed.

Lemma ratio_positive (a b : nat) : a <> 0%nat -> b <> 0%nat -> 0 < INR a / INR b.
Proof.
  intros Ha Hb. apply Rdiv_lt_0_compat; apply lt_0_INR; lia.
Qed.

(** The loop of [tfidf_vector] raises nothing when every item can be
    weighed, and stores the weights one item after the other. *)
Lemma tfidf_vector_defined (self : t) (doc_length : nat)
      (items : list (string * nat)) (vec : PyDict.t R) :
  doc_length <> 0%nat \/ items = [] ->
  (forall item, In item items ->
     total_documents self <> 0%nat
     /\ exists n, PyDict.get (fst item) (document_frequencies self) = Some n
                  /\ n <> 0%nat) ->
  tfidf_vector self doc_length items vec
  = Ok (fold_left
          (store_weight (document_frequencies self) (total_documents self)
                        doc_length)
          items vec).
Proof.
  revert vec. induction items as [|[term count] r IH]; intros vec Hlen Hok;
    [reflexivity|].
  destruct Hlen as [Hlen|Hnil]; [|discriminate].
  destruct (Hok (term, count) (or_introl eq_refl)) as (Htot & n & Hget & Hn).
  cbn [tfidf_vector fold_left fst] in *.
  rewrite (int_div_defined _ _ Hlen). cbn [bind].
  rewrite (dict_getitem_found _ _ _ _ Hget). cbn [bind].
  rewrite (int_div_defined _ _ Hn). cbn [bind].
  rewrite (math_log_defined _ (ratio_positive _ _ Htot Hn)). cbn [bind].
  rewrite IH; [|left; exact Hlen|intros item Hin; apply Hok; right; exact Hin].
  do 2 f_equal. unfold store_weight, stored_weight, tfidf_weight, counted.
  cbn [fst snd]. rewrite Hget. reflexivity.
Qed.

Lemma fold_set_get (w : string * nat -> R) (items : list (string * nat))
      (vec : PyDict.t R) (term : string) :
  NoDup (PyDict.keys items) ->
  PyDict.get term
    (fold_left (fun v item => PyDict.set (fst item) (w item) v) items vec)
  = match PyDict.get term items with
    | Some count => Some (w (term, count))
    | None => PyDict.get term vec
    end.
Proof.
  revert vec. induction items as [|[t1 c1] r IH]; intros vec Hnd;
    cbn [fold_left]; [reflexivity|].
  inversion Hnd as [|? ? Hnotin Hnd']; subst.
  rewrite IH by exact Hnd'. cbn [PyDict.get fst].
  destruct (String.eqb t1 term) eqn:E.
  - apply String.eqb_eq in E. subst t1.
    destruct (PyDict.get term r) as [c|] eqn:Hget.
    + exfalso. apply Hnotin. apply dict_get_in_keys. eauto.
    + apply dict_get_updated.
  - apply String.eqb_neq in E.
    destruct (PyDict.get term r); [reflexivity|].
    apply dict_get_elsewhere, E.
Qed.

Lemma fold_left_agree (A B : Type) (f g : A -> B -> A) (l : list B) (a : A) :
  (forall x acc, In x l -> f acc x = g acc x) ->
  fold_left f l a = fold_left g l a.
Proof.
  revert a. induction l as [|x r IH]; intros a Hfg; simpl; [reflexivity|].
  rewrite (Hfg x a (or_introl eq_refl)). apply IH.
  intros y acc Hy. apply Hfg. right. exact Hy.
Qed.

Lemma vector_of_corpus (self : t) (frequencies : PyDict.t nat)
      (tokens : list string) :
  (forall term, In term tokens ->
     PyDict.get term frequencies = Some (List.length (posting self term))) ->
  vector_of frequencies (total_documents self) tokens
  = corpus_vector self tokens.
Proof.
  intros Hdf. unfold vector_of, corpus_vector. apply fold_left_agree.
  intros [term count] acc Hin. apply counter_item in Hin as [Hin _].
  unfold store_weight, stored_weight, counted. cbn [fst snd].
  rewrite (Hdf term Hin). reflexivity.
Qed.

(** The entries of the vector: the weight of every token of the sequence,
    and nothing else. *)
Lemma corpus_vector_get (self : t) (tokens : list string) (term : string) :
  PyDict.get term (corpus_vector self tokens)
  = match count_occ string_dec tokens term with
    | O => None
    | S n =>
        Some (tfidf_weight (total_documents self)
                           (List.length (posting self term))
                           (List.length tokens) (S n))
    end.
Proof.
  unfold corpus_vector.
  rewrite (fold_set_get
             (fun item =>
                tfidf_weight (total_documents self)
                             (List.length (posting self (fst item)))
                             (List.length tokens) (snd item)))
    by apply counter_nodup.
  rewrite counter_get.
  destruct (count_occ string_dec tokens term); reflexivity.
Qed.

Lemma build_document_defined (self : t) (doc_id : string) (tokens : list string) :
  weighable (document_frequencies self) (total_documents self) tokens ->
  let vec := vector_of (document_frequencies self) (total_documents self) tokens in
  build_document self (doc_id, tokens)
  = Ok (with_document_norms
          (with_tfidf_vectors self (PyDict.set doc_id vec (tfidf_vectors self)))
          (PyDict.set doc_id (sqrt (sumsq (PyDict.values vec)))
                      (document_norms self))).
Proof.
  intros Hok vec. unfold build_document.
  rewrite tfidf_vector_defined.
  - fold (vector_of (document_frequencies self) (total_documents self) tokens).
    fold vec. cbn [bind]. rewrite l2_norm_real. reflexivity.
  - destruct tokens; [right; reflexivity | left; discriminate].
  - intros [term count] Hin. apply counter_item in Hin as [Hin _].
    exact (Hok term Hin).
Qed.

Lemma build_documents_defined (docs : PyDict.t (list string)) (self : t) :
  NoDup (PyDict.keys docs) ->
  (forall doc_id tokens, In (doc_id, tokens) docs ->
     weighable (document_frequencies self) (total_documents self) tokens) ->
  exists self',
    build_documents self docs = Ok self'
    /\ same_corpus self self'
    /\ document_frequencies self' = document_frequencies self
    /\ (forall doc_id,
          PyDict.get doc_id (tfidf_vectors self')
          = match PyDict.get doc_id docs with
            | Some tokens =>
                Some (vector_of (document_frequencies self)
                                (total_documents self) tokens)
            | None => PyDict.get doc_id (tfidf_vectors self)
            end)
    /\ (forall doc_id,
          PyDict.get doc_id (document_norms self')
          = match PyDict.get doc_id docs with
            | Some tokens =>
                Some (sqrt (sumsq (PyDict.values
                        (vector_of (document_frequencies self)
                                   (total_documents self) tokens))))
            | None => PyDict.get doc_id (document_norms self)
            end).
Proof.
  revert self. induction docs as [|[d1 toks1] r IH]; intros self Hnd Hok.
  - exists self. split; [reflexivity|]. split; [apply same_corpus_refl|].
    repeat split.
  - inversion Hnd as [|? ? Hnotin Hnd']; subst.
    cbn [build_documents].
    rewrite build_document_defined by (apply (Hok d1); left; reflexivity).
    cbn [bind].
    set (vec1 := vector_of (document_frequencies self) (total_documents self) toks1).
    set (s1 := with_document_norms _ _).
    destruct (IH s1 Hnd') as (self' & Hrun & Hsame & Hdf & Hvec & Hnorm).
    { intros d toks Hin. apply (Hok d). right. exact Hin. }
    exists self'. split; [exact Hrun|].
    split; [apply (same_corpus_trans self s1 self'); [repeat split | exact Hsame]|].
    split; [exact Hdf|].
    assert (Hfresh : forall d, String.eqb d1 d = true -> PyDict.get d r = None).
    { intros d E. apply String.eqb_eq in E. subst d.
      destruct (PyDict.get d1 r) eqn:Hget; [|reflexivity].
      exfalso. apply Hnotin. apply dict_get_in_keys. eauto. }
    split; intros d; [rewrite Hvec | rewrite Hnorm]; cbn [PyDict.get];
      change (document_frequencies s1) with (document_frequencies self);
      change (total_documents s1) with (total_documents self);
      (destruct (String.eqb d1 d) eqn:E;
       [ rewrite (Hfresh d E); apply String.eqb_eq in E; subst d;
         apply dict_get_updated
       | destruct (PyDict.get d r); [reflexivity|];
         apply String.eqb_neq in E; apply dict_get_elsewhere, E ]).
Qed.

(** On a consistent index [build_index] raises nothing, leaves the ingested
    corpus as it is and stores, for every document, the vector of its tokens
    and the L2 norm of that vector. *)
Lemma build_index_defined (self : t) :
  consistent self ->
  exists self',
    build_index self = Ok self'
    /\ same_corpus self self'
    /\ (forall term,
          In term (PyDict.keys (vocabulary self)) ->
          PyDict.get term (document_frequencies self')
          = Some (List.length (posting self term)))
    /\ (forall doc_id tokens,
          PyDict.get doc_id (documents self) = Some tokens ->
          PyDict.get doc_id (tfidf_vectors self')
          = Some (corpus_vector self tokens)
          /\ PyDict.get doc_id (document_norms self')
             = Some (sqrt (sumsq (PyDict.values (corpus_vector self tokens))))).
Proof.
  intros [[Hnd Hidx Hpost Hknown] Htot]. unfold build_index.
  destruct (update_document_frequencies
              (PyDict.keys (vocabulary self)) self Hpost)
    as (Hsame1 & _ & _ & Hdf1).
  set (s1 := fold_left update_document_frequency
                       (PyDict.keys (vocabulary self)) self) in *.
  pose proof Hsame1 as (_ & Hdocs1 & _ & _ & Htot1).
  rewrite Hdocs1.
  assert (Hfreq : forall term,
             In term (PyDict.keys (vocabulary self)) ->
             PyDict.get term (document_frequencies s1)
             = Some (List.length (posting self term))).
  { intros term Hin. rewrite Hdf1.
    destruct (in_dec string_dec term (PyDict.keys (vocabulary self)));
      [reflexivity | contradiction]. }
  assert (Hweigh : forall doc_id tokens,
             In (doc_id, tokens) (documents self) ->
             weighable (document_frequencies s1) (total_documents s1) tokens).
  { intros d tokens Hin term Hterm.
    pose proof (dict_get_of_entry _ _ _ _ Hnd Hin) as Hget.
    destruct (Hidx d tokens term Hget Hterm) as [Hvoc Hd].
    split.
    - rewrite Htot1, Htot. destruct (documents self); [destruct Hin|discriminate].
    - exists (List.length (posting self term)). split; [apply Hfreq, Hvoc|].
      destruct (posting self term); [destruct Hd | discriminate]. }
  destruct (build_documents_defined (documents self) s1 Hnd Hweigh)
    as (self' & Hrun & Hsame & Hdf & Hvec & Hnorm).
  exists self'. split; [exact Hrun|].
  split; [exact (same_corpus_trans _ _ _ Hsame1 Hsame)|].
  split; [intros term Hin; rewrite Hdf; apply Hfreq, Hin|].
  intros d tokens Hget.
  assert (Hcorpus : vector_of (document_frequencies s1) (total_documents s1) tokens
                    = corpus_vector self tokens).
  { rewrite Htot1. apply vector_of_corpus. intros term Hterm.
    apply Hfreq. exact (proj1 (Hidx d tokens term Hget Hterm)). }
  rewrite Hvec, Hnorm, Hget, Hcorpus. split; reflexivity.
Qed.

Lemma reachable_consistent (self : t) : reachable self -> consistent self.
Proof.
  induction 1 as [p | self docs _ IH | self self' _ IH Hrun].
  - apply init_consistent.
  - apply add_documents_consistent, IH.
  - destruct (build_index_defined self IH) as (s & Hrun' & Hsame & _).
    rewrite Hrun in Hrun'. injection Hrun' as <-.
    exact (same_corpus_consistent _ _ Hsame IH).
Qed.

Lemma same_corpus_vector (self other : t) (tokens : list string) :
  same_corpus self other -> corpus_vector other tokens = corpus_vector self tokens.
Proof.
  intros (_ & _ & _ & Hinv & Htot). unfold corpus_vector, posting.
  rewrite Hinv, Htot. reflexivity.
Qed.

(** C5. On every index state reached by ingesting documents, [build_index]
    completes and stores for each document the vector [corpus_vector], a
    function of the ingested corpus alone (the token map, the inverted index
    and the document count, which is the number of ingested documents): its
    entry for a term of the document is (count / token count) * ln (N / df),
    with df the size of the term's inverted-index entry, it has no other
    entry, and the stored norm is the L2 norm of that vector. Any other
    index state with the same ingested corpus gets the same vectors and
    norms. *)
Theorem build_index_stores_tfidf (self : t) :
  reachable self ->
  exists self',
    build_index self = Ok self'
    /\ same_corpus self self'
    /\ total_documents self = List.length (documents self)
    /\ (forall doc_id tokens,
         PyDict.get doc_id (documents self) = Some tokens ->
         exists vec,
           vec = corpus_vector self tokens
           /\ PyDict.get doc_id (tfidf_vectors self') = Some vec
           /\ (forall term,
                 In term tokens ->
                 PyDict.get term vec
                 = Some (INR (count_occ string_dec tokens term)
                         / INR (List.length tokens)
                         * ln (INR (total_documents self)
                               / INR (List.length (posting self term)))))
           /\ (forall term, ~ In term tokens -> PyDict.get term vec = None)
           /\ PyDict.get doc_id (document_norms self')
              = Some (sqrt (sumsq (PyDict.values vec))))
    /\ (forall other,
          reachable other -> same_corpus self other ->
          exists other',
            build_index other = Ok other'
            /\ forall doc_id tokens,
                 PyDict.get doc_id (documents self) = Some tokens ->
                 PyDict.get doc_id (tfidf_vectors other')
                 = PyDict.get doc_id (tfidf_vectors self')
                 /\ PyDict.get doc_id (document_norms other')
                    = PyDict.get doc_id (document_norms self')).
Proof.
  intros Hreach. pose proof (reachable_consistent self Hreach) as Hcons.
  destruct (build_index_defined self Hcons) as (self' & Hrun & Hsame & _ & Hdocs).
  exists self'. split; [exact Hrun|]. split; [exact Hsame|].
  split; [apply Hcons|]. split.
  - intros d tokens Hget. destruct (Hdocs d tokens Hget) as [Hvec Hnorm].
    exists (corpus_vector self tokens).
    split; [reflexivity|]. split; [exact Hvec|].
    split; [|split; [|exact Hnorm]]; intros term Hterm;
      rewrite corpus_vector_get.
    + apply (count_occ_In string_dec) in Hterm.
      destruct (count_occ string_dec tokens term); [lia | reflexivity].
    + apply (count_occ_not_In string_dec) in Hterm. rewrite Hterm. reflexivity.
  - intros other Hother Hcorpus.
    pose proof (reachable_consistent other Hother) as Hcons'.
    destruct (build_index_defined other Hcons')
      as (other' & Hrun' & _ & _ & Hdocs').
    exists other'. split; [exact Hrun'|].
    intros d tokens Hget.
    destruct (Hdocs d tokens Hget) as [Hvec Hnorm].
    pose proof Hcorpus as (_ & Hsame_docs & _).
    rewrite <- Hsame_docs in Hget.
    destruct (Hdocs' d tokens Hget) as [Hvec' Hnorm'].
    rewrite Hvec, Hnorm, Hvec', Hnorm'.
    rewrite (same_corpus_vector self other tokens Hcorpus).
    split; reflexivity.
Qed.

(** The division of the term loop has the token count of a document as its
    denominator, and an item of the loop is a token of that document. *)
Lemma term_loop_denominator (tokens : list string) (term : string) (count : nat) :
  In (term, count) (Counter tokens) ->
  int_div count (List.length tokens)
  = Ok (INR count / INR (List.length tokens)).
Proof.
  intros Hin. apply counter_item in Hin as [Hin _].
  apply int_div_defined. destruct tokens; [destruct Hin | discriminate].
Qed.

(** C10. On every index state reached by ingesting documents, [build_index]
    completes, also when documents have no token: the division by the token
    count is only run for an item of the term loop, where the count is not
    0, and a document without tokens gets the empty vector and the norm
    0. *)
Theorem build_index_total_with_empty_documents (self : t) :
  reachable self ->
  exists self',
    build_index self = Ok self'
    /\ (forall doc_id tokens term count,
          PyDict.get doc_id (documents self) = Some tokens ->
          In (term, count) (Counter tokens) ->
          List.length tokens <> 0%nat
          /\ int_div count (List.length tokens)
             = Ok (INR count / INR (List.length tokens)))
    /\ (forall doc_id,
          PyDict.get doc_id (documents self) = Some [] ->
          PyDict.get doc_id (tfidf_vectors self') = Some []
          /\ PyDict.get doc_id (document_norms self') = Some 0).
Proof.
  intros Hreach. pose proof (reachable_consistent self Hreach) as Hcons.
  destruct (build_index_defined self Hcons) as (self' & Hrun & _ & _ & Hdocs).
  exists self'. split; [exact Hrun|]. split.
  - intros d tokens term count _ Hin. split.
    + apply counter_item in Hin as [Hin _].
      destruct tokens; [destruct Hin | discriminate].
    + apply (term_loop_denominator tokens term count Hin).
  - intros d Hget. destruct (Hdocs d [] Hget) as [Hvec Hnorm].
    split; [exact Hvec|]. rewrite Hnorm. cbn. rewrite sqrt_0. reflexivity.
Qed.
End Build.

(* ------------------------------------------------------------------ *)
(** ** The engine: where result ids come from *)

Section ResultIds.
Import QuestifySearchEngine.

Lemma candidates_from_postings (self : TFIDFIndexer.t)
      (query_terms : list string) (doc_id : string) :
  In doc_id (TFIDFIndexer.get_candidate_documents self query_terms) ->
  exists term, In term query_terms /\ In doc_id (posting self term).
Proof.
  unfold TFIDFIndexer.get_candidate_documents.
  assert (Hgen : forall terms acc,
            In doc_id
               (fold_left
                  (fun candidates term =>
                     match PyDict.get term (TFIDFIndexer.inverted_index self) with
                     | Some entry => PySet.update candidates entry
                     | None => candidates
                     end) terms acc) ->
            In doc_id acc
            \/ exists term, In term terms /\ In doc_id (posting self term)).
  { induction terms as [|t1 r IH]; intros acc Hin; cbn [fold_left] in Hin;
      [left; exact Hin|].
    destruct (IH _ Hin) as [Hacc|[term [Hterm Hpost]]].
    - unfold posting.
      destruct (PyDict.get t1 (TFIDFIndexer.inverted_index self)) eqn:Hget.
      + apply set_in_update in Hacc as [Hacc|Hentry]; [left; exact Hacc|].
        right. exists t1. rewrite Hget. split; [left; reflexivity | exact Hentry].
      + left. exact Hacc.
    - right. exists term. split; [right; exact Hterm | exact Hpost]. }
  intros Hin. destruct (Hgen _ _ Hin) as [[]|H]. exact H.
Qed.

Lemma restrict_keys (V : Type) (table : PyDict.t V) (candidates : list string)
      (acc r : PyDict.t V) (k : string) :
  restrict table candidates acc = Ok r ->
  In k (PyDict.keys r) -> In k candidates \/ In k (PyDict.keys acc).
Proof.
  revert acc. induction candidates as [|c rest IH]; intros acc Hrun Hin;
    cbn [restrict] in Hrun.
  - injection Hrun as <-. right. exact Hin.
  - destruct (PyDict.getitem c table) as [v|e]; [|discriminate].
    cbn [bind] in Hrun. destruct (IH _ Hrun Hin) as [H|H].
    + left. right. exact H.
    + apply dict_in_keys_set in H as [->|H]; [left; left; reflexivity|].
      right. exact H.
Qed.

Lemma batch_ids (query_vector : PyDict.t R)
      (document_vectors : list (string * PyDict.t R))
      (document_norms : PyDict.t R) (similarities : list (string * R))
      (x : string * R) :
  CosineSimilarityCalculator.batch_calculate_similarities
    query_vector document_vectors document_norms = Ok similarities ->
  In x similarities -> In (fst x) (PyDict.keys document_vectors).
Proof.
  revert similarities.
  induction document_vectors as [|[d v] rest IH]; intros similarities Hrun Hin;
    cbn [CosineSimilarityCalculator.batch_calculate_similarities] in Hrun.
  - injection Hrun as <-. destruct Hin.
  - destruct (CosineSimilarityCalculator.calculate_similarity _ _ _) as [s|e];
      [|discriminate].
    cbn [bind] in Hrun.
    destruct (CosineSimilarityCalculator.batch_calculate_similarities _ rest _)
      as [results|e]; [|discriminate].
    cbn [bind] in Hrun. injection Hrun as <-.
    destruct (Rgt0 s).
    + destruct Hin as [<-|Hin]; [left; reflexivity|].
      right. exact (IH _ eq_refl Hin).
    + right. exact (IH _ eq_refl Hin).
Qed.

Lemma firstn_in (A : Type) (n : nat) (l : list A) (x : A) :
  In x (firstn n l) -> In x l.
Proof.
  revert l. induction n as [|n IH]; intros [|y l]; simpl; try tauto.
  intros [H|H]; [left; exact H | right; apply IH, H].
Qed.

Lemma slice_to_in (A : Type) (l : list A) (n : Z) (x : A) :
  In x (ResultRanker.slice_to l n) -> In x l.
Proof.
  unfold ResultRanker.slice_to.
  destruct (0 <=? n)%Z; intros H; eapply firstn_in; exact H.
Qed.

Lemma format_results_ids (store : option DocumentStore.t)
      (top : list (string * R)) (acc : list ResultRanker.entry)
      (e : ResultRanker.entry) :
  In e (fold_left (ResultRanker.format_result store) top acc) ->
  In e acc \/ exists x, In x top /\ ResultRanker.doc_id e = fst x.
Proof.
  revert acc. induction top as [|y r IH]; intros acc Hin; cbn [fold_left] in Hin;
    [left; exact Hin|].
  destruct (format_result_snoc store acc y) as (e0 & Heq & Hd & _).
  rewrite Heq in Hin. destruct (IH _ Hin) as [H|[x [Hx Hid]]].
  - apply in_app_iff in H as [H|[<-|[]]]; [left; exact H|].
    right. exists y. split; [left; reflexivity | exact Hd].
  - right. exists x. split; [right; exact Hx | exact Hid].
Qed.

(** A ranked result carries the id of one of the scored candidates. *)
Lemma rank_results_ids (ranker : ResultRanker.t)
      (similarities : list (string * R)) (store : option DocumentStore.t)
      (e : ResultRanker.entry) :
  In e (ResultRanker.results (ResultRanker.rank_results ranker similarities store)) ->
  exists x, In x similarities /\ ResultRanker.doc_id e = fst x.
Proof.
  unfold ResultRanker.rank_results. cbn [ResultRanker.results]. intros Hin.
  destruct (format_results_ids _ _ _ _ Hin) as [[]|[x [Hx Hid]]].
  exists x. split; [|exact Hid].
  apply slice_to_in in Hx.
  apply (Permutation_in _ (sorted_desc_perm _)) in Hx.
  apply filter_In in Hx. tauto.
Qed.

(** A result of [search] carries the id of a document of some
    inverted-index entry. *)
Lemma search_result_ids (self : t) (query : string) (e : ResultRanker.entry) :
  In e (results (search self query)) ->
  exists term, In (ResultRanker.doc_id e) (posting (indexer self) term).
Proof.
  unfold search.
  destruct (search_body self query) as [r|ex] eqn:Hbody; [|intros []].
  unfold search_body in Hbody.
  destruct (negb (QueryProcessor.validate_query _));
    [injection Hbody as <-; intros []|].
  destruct (TFIDFIndexer.get_query_vector _ _) as [qv|ex]; [|discriminate].
  cbn [bind] in Hbody.
  destruct (PyDict.is_empty qv); [injection Hbody as <-; intros []|].
  destruct (TFIDFIndexer.get_candidate_documents _ _) as [|c cs] eqn:Hcand;
    [injection Hbody as <-; intros []|].
  destruct (restrict (TFIDFIndexer.tfidf_vectors _) _ _) as [vectors|ex] eqn:Hv;
    [|discriminate].
  cbn [bind] in Hbody.
  destruct (restrict (TFIDFIndexer.document_norms _) _ _) as [norms|ex];
    [|discriminate].
  cbn [bind] in Hbody.
  destruct (CosineSimilarityCalculator.batch_calculate_similarities _ _ _)
    as [sims|ex] eqn:Hsims; [|discriminate].
  cbn [bind] in Hbody. injection Hbody as <-. cbn [results]. intros Hin.
  apply rank_results_ids in Hin as [x [Hx Hid]].
  pose proof (batch_ids _ _ _ _ _ Hsims Hx) as Hkey.
  destruct (restrict_keys _ _ _ _ _ _ Hv Hkey) as [Hc|[]].
  rewrite <- Hcand in Hc.
  apply candidates_from_postings in Hc as [term [_ Hpost]].
  exists term. rewrite Hid. exact Hpost.
Qed.
End ResultIds.

(* ------------------------------------------------------------------ *)
(** ** The engine: removal *)

Section Removal.
Import QuestifySearchEngine.

Lemma add_document_list_keys (docs : PyDict.t string) (self : TFIDFIndexer.t)
      (doc_id : string) :
  In doc_id (PyDict.keys (TFIDFIndexer.documents
                            (fold_left TFIDFIndexer.add_document docs self))) ->
  In doc_id (PyDict.keys docs)
  \/ In doc_id (PyDict.keys (TFIDFIndexer.documents self)).
Proof.
  revert self. induction docs as [|[d text] r IH]; intros self Hin;
    cbn [fold_left] in Hin; [right; exact Hin|].
  destruct (IH _ Hin) as [H|H]; [left; right; exact H|].
  destruct (add_document_effect self d text) as (_ & Hdocs & _).
  rewrite Hdocs in H. apply dict_in_keys_set in H as [->|H];
    [left; left; reflexivity | right; exact H].
Qed.

(** An index freshly built from a corpus has no entry with an id outside
    the corpus. *)
Lemma fresh_index_postings (p : TextPreprocessor.t) (docs : PyDict.t string)
      (term doc_id : string) :
  In doc_id (posting (TFIDFIndexer.add_documents (TFIDFIndexer.init p) docs) term) ->
  In doc_id (PyDict.keys docs).
Proof.
  intros Hin.
  pose proof (add_documents_consistent (TFIDFIndexer.init p) docs
                (consistent_ingested _ (init_consistent p))) as [[_ _ _ Hknown] _].
  apply Hknown in Hin.
  apply add_document_list_keys in Hin as [H|[]]. exact H.
Qed.

Lemma store_remove_document (store : DocumentStore.t) (doc_id : string)
      (fs_ok : bool) :
  let '(success, store') := DocumentStore.remove_document store doc_id fs_ok in
  (success = true <->
     PyDict.mem doc_id (DocumentStore.documents store) = true
     /\ PyDict.mem doc_id (DocumentStore.metadata store) = true
     /\ fs_ok = true)
  /\ (success = true ->
      DocumentStore.documents store'
      = PyDict.del doc_id (DocumentStore.documents store)).
Proof.
  unfold DocumentStore.remove_document.
  destruct (PyDict.mem doc_id (DocumentStore.documents store)); cbn;
    [|split; [split; [discriminate | tauto] | discriminate]].
  destruct (PyDict.mem doc_id (DocumentStore.metadata store)); cbn;
    [|split; [split; [discriminate | tauto] | discriminate]].
  split; [tauto | reflexivity].
Qed.

(** C8. [remove_document] always returns. When it returns [True] the
    document was in the store and is no longer, and in the engine it leaves,
    whose index has been rebuilt from the remaining documents, the id is in
    no candidate set, whatever the query terms, and in no ranked result,
    whatever the query. *)
Theorem removed_document_is_never_returned
        (self : QuestifySearchEngine.t) (doc_id : string) (fs_ok : bool) :
  exists (success : bool) (self' : QuestifySearchEngine.t),
    remove_document self doc_id fs_ok = Ok (success, self')
    /\ (success = true <->
          PyDict.mem doc_id (DocumentStore.documents (document_store self)) = true
          /\ PyDict.mem doc_id (DocumentStore.metadata (document_store self)) = true
          /\ fs_ok = true)
    /\ (success = true ->
          ~ In doc_id (PyDict.keys (DocumentStore.documents (document_store self')))
          /\ (forall query_terms,
                ~ In doc_id
                     (TFIDFIndexer.get_candidate_documents (indexer self')
                                                           query_terms))
          /\ (forall query e,
                In e (results (search self' query)) ->
                ResultRanker.doc_id e <> doc_id)).
Proof.
  unfold remove_document.
  pose proof (store_remove_document (document_store self) doc_id fs_ok) as Hstore.
  destruct (DocumentStore.remove_document (document_store self) doc_id fs_ok)
    as [success store'].
  destruct Hstore as [Hiff Hdocs].
  destruct success; cbn -[TFIDFIndexer.add_documents TFIDFIndexer.build_index].
  - specialize (Hdocs eq_refl).
    assert (Hgone : ~ In doc_id (PyDict.keys (DocumentStore.documents store'))).
    { rewrite Hdocs, dict_in_keys_del. tauto. }
    assert (Hforget : forall idx,
               (forall term, ~ In doc_id (posting idx term)) ->
               forall e',
                 indexer e' = idx ->
                 (forall query_terms,
                     ~ In doc_id
                          (TFIDFIndexer.get_candidate_documents (indexer e')
                                                                query_terms))
                 /\ (forall query e,
                        In e (results (search e' query)) ->
                        ResultRanker.doc_id e <> doc_id)).
    { intros idx Hnone e' <-. split.
      - intros terms Hin.
        apply candidates_from_postings in Hin as [term [_ Hin]].
        exact (Hnone term Hin).
      - intros query e Hin Heq.
        apply search_result_ids in Hin as [term Hin].
        rewrite Heq in Hin. exact (Hnone term Hin). }
    unfold DocumentStore.get_all_documents.
    destruct (PyDict.is_empty (DocumentStore.documents store')) eqn:Hempty.
    + eexists true, _. split; [reflexivity|]. split; [exact Hiff|].
      intros _. split; [exact Hgone|].
      apply (Hforget (TFIDFIndexer.init (preprocessor self)));
        [|reflexivity].
      intros term [].
    + set (idx := TFIDFIndexer.add_documents
                    (TFIDFIndexer.init (preprocessor self))
                    (DocumentStore.documents store')).
      assert (Hcons : consistent idx).
      { apply add_documents_consistent.
        exact (consistent_ingested _ (init_consistent _)). }
      destruct (build_index_defined idx Hcons) as (idx' & Hrun & Hsame & _).
      unfold build_index. cbn [indexer with_indexer with_document_store].
      fold idx. rewrite Hrun. cbn [bind].
      eexists true, _. split; [reflexivity|]. split; [exact Hiff|].
      intros _. split; [exact Hgone|].
      apply (Hforget idx'); [|reflexivity].
      intros term Hin. rewrite (same_corpus_posting _ _ _ Hsame) in Hin.
      apply Hgone. exact (fresh_index_postings _ _ _ _ Hin).
  - eexists false, _. split; [reflexivity|]. split; [exact Hiff|].
    discriminate.
Qed.
End Removal.

(* ------------------------------------------------------------------ *)
(** ** The engine: searches without results *)

Section NoResults.
Import QuestifySearchEngine.

Lemma init_empty_engine (fs_ok : bool) :
  init true 3 10 (1 / 100) DocumentStore.empty fs_ok = Ok empty_engine.
Proof. reflexivity. Qed.

Lemma query_vector_loop_miss (self : TFIDFIndexer.t) (query_length : nat)
      (items : list (string * nat)) (vec : PyDict.t R) :
  (forall item, In item items ->
     PyDict.mem (fst item) (TFIDFIndexer.vocabulary self) = false) ->
  TFIDFIndexer.query_vector_loop self query_length items vec = Ok vec.
Proof.
  revert vec. induction items as [|[term count] r IH]; intros vec Hmiss;
    cbn [TFIDFIndexer.query_vector_loop]; [reflexivity|].
  pose proof (Hmiss (term, count) (or_introl eq_refl)) as Hterm.
  cbn [fst] in Hterm. rewrite Hterm.
  apply IH. intros item Hin. apply Hmiss. right. exact Hin.
Qed.

Lemma get_query_vector_miss (self : TFIDFIndexer.t) (query_terms : list string) :
  (forall term, In term query_terms ->
     PyDict.mem term (TFIDFIndexer.vocabulary self) = false) ->
  TFIDFIndexer.get_query_vector self query_terms = Ok [].
Proof.
  intros Hmiss. unfold TFIDFIndexer.get_query_vector.
  destruct query_terms as [|t1 r]; [reflexivity|].
  apply query_vector_loop_miss. intros [term count] Hin.
  apply counter_item in Hin as [Hin _]. apply Hmiss, Hin.
Qed.

Lemma search_invalid (self : t) (query : string) :
  QueryProcessor.validate_query
    (QueryProcessor.process_query (query_processor self) query) = false ->
  search self query = no_results invalid_query.
Proof. intros H. unfold search, search_body. rewrite H. reflexivity. Qed.

Lemma search_empty_vector (self : t) (query : string) :
  QueryProcessor.validate_query
    (QueryProcessor.process_query (query_processor self) query) = true ->
  TFIDFIndexer.get_query_vector (indexer self)
    (QueryProcessor.process_query (query_processor self) query) = Ok [] ->
  search self query = no_results vocabulary_miss.
Proof. intros H Hv. unfold search, search_body. rewrite H, Hv. reflexivity. Qed.

Lemma search_vocabulary_miss (self : t) (query : string) :
  QueryProcessor.validate_query
    (QueryProcessor.process_query (query_processor self) query) = true ->
  (forall term,
     In term (QueryProcessor.process_query (query_processor self) query) ->
     PyDict.mem term (TFIDFIndexer.vocabulary (indexer self)) = false) ->
  search self query = no_results vocabulary_miss.
Proof.
  intros H Hmiss. apply search_empty_vector; [exact H|].
  apply get_query_vector_miss, Hmiss.
Qed.

Lemma engine_build_index_defined (self : t) :
  consistent (indexer self) ->
  exists idx,
    build_index self = Ok (with_indexer self idx)
    /\ same_corpus (indexer self) idx.
Proof.
  intros Hcons.
  destruct (build_index_defined (indexer self) Hcons) as (idx & Hrun & Hsame & _).
  exists idx. unfold build_index. rewrite Hrun. split; [reflexivity | exact Hsame].
Qed.

(** C7 fails for the empty corpus. A valid query on the engine without
    documents gets the vocabulary-miss payload, not a message about missing
    documents, with no candidate count in the response; and the engine that
    holds the three documents of Scenario A answers the same query with the
    very same response. *)
Lemma empty_corpus_has_no_payload_of_its_own :
  search empty_engine "hello" = no_results vocabulary_miss
  /\ info (search empty_engine "hello") <> no_candidates
  /\ total_candidates (search empty_engine "hello") = None
  /\ exists e,
       build_index (add_documents empty_engine scenario_A true) = Ok e
       /\ search e "hello" = search empty_engine "hello".
Proof.
  split; [reflexivity|]. split; [discriminate|]. split; [reflexivity|].
  destruct (engine_build_index_defined
              (add_documents empty_engine scenario_A true)) as (idx & Hrun & Hsame).
  { apply add_documents_consistent.
    exact (consistent_ingested _ (init_consistent _)). }
  eexists. split; [exact Hrun|].
  destruct Hsame as (_ & _ & Hvoc & _).
  change (search empty_engine "hello") with (no_results vocabulary_miss).
  apply search_vocabulary_miss; [reflexivity|].
  cbn [indexer with_indexer]. rewrite Hvoc.
  intros term [<-|[]]. reflexivity.
Qed.

(** C7, amended. [search] turns every exception of its body into a
    response, and each way of finding nothing has a payload of its own: an
    invalid or empty query, no query term in the vocabulary, no candidate
    document, and an exception. On an empty vocabulary, that of an empty
    corpus, every query gets the first or the second of them, with no results
    and no candidate count: there is no payload for a corpus without
    documents. *)
Theorem search_reports_why_nothing_was_found (self : t) (query : string) :
  let query_terms := QueryProcessor.process_query (query_processor self) query in
  (QueryProcessor.validate_query query_terms = false ->
   search self query = no_results invalid_query)
  /\ (QueryProcessor.validate_query query_terms = true ->
      TFIDFIndexer.get_query_vector (indexer self) query_terms = Ok [] ->
      search self query = no_results vocabulary_miss)
  /\ (QueryProcessor.validate_query query_terms = true ->
      forall query_vector,
        TFIDFIndexer.get_query_vector (indexer self) query_terms = Ok query_vector ->
        query_vector <> [] ->
        TFIDFIndexer.get_candidate_documents (indexer self) query_terms = [] ->
        search self query = no_results no_candidates)
  /\ (forall e,
        search_body self query = Raise e ->
        search self query = no_results (search_error e))
  /\ (TFIDFIndexer.vocabulary (indexer self) = [] ->
      search self query = no_results invalid_query
      \/ search self query = no_results vocabulary_miss)
  /\ invalid_query <> vocabulary_miss
  /\ invalid_query <> no_candidates
  /\ vocabulary_miss <> no_candidates
  /\ (forall e, search_error e <> invalid_query
                /\ search_error e <> vocabulary_miss
                /\ search_error e <> no_candidates).
Proof.
  intros query_terms.
  split; [apply search_invalid|].
  split; [apply search_empty_vector|].
  split.
  { intros Hvalid qv Hqv Hne Hcand. unfold search, search_body.
    fold query_terms. rewrite Hvalid, Hqv. cbn [negb bind].
    destruct qv; [contradiction|]. cbn [PyDict.is_empty].
    rewrite Hcand. reflexivity. }
  split; [intros e He; unfold search; rewrite He; reflexivity|].
  split.
  { intros Hvoc.
    destruct (QueryProcessor.validate_query query_terms) eqn:Hvalid.
    - right. apply search_vocabulary_miss; [exact Hvalid|].
      intros term _. rewrite Hvoc. reflexivity.
    - left. apply search_invalid, Hvalid. }
  repeat split; try discriminate.
Qed.

(** C1. In Scenario A the index is built, and [search] on "machine learning"
    then finds nothing: the query is processed into the single term
    "machinelearning", which the vocabulary does not have, so no candidate is
    looked up and neither d1 nor d2 is returned. For the two terms "machine"
    and "learning" the same index gives the candidates d1 and d2. *)
Theorem scenario_A_search_finds_nothing :
  exists e,
    build_index (add_documents empty_engine scenario_A true) = Ok e
    /\ QueryProcessor.process_query (query_processor e) "machine learning"
       = ["machinelearning"]
    /\ search e "machine learning" = no_results vocabulary_miss
    /\ results (search e "machine learning") = []
    /\ TFIDFIndexer.get_candidate_documents (indexer e) ["machinelearning"] = []
    /\ TFIDFIndexer.get_candidate_documents (indexer e) ["machine"; "learning"]
       = ["d1"; "d2"].
Proof.
  destruct (engine_build_index_defined
              (add_documents empty_engine scenario_A true)) as (idx & Hrun & Hsame).
  { apply add_documents_consistent.
    exact (consistent_ingested _ (init_consistent _)). }
  eexists. split; [exact Hrun|].
  destruct Hsame as (_ & _ & Hvoc & Hinv & _).
  assert (Hsearch : search (with_indexer (add_documents empty_engine scenario_A true) idx)
                           "machine learning"
                    = no_results vocabulary_miss).
  { apply search_vocabulary_miss; [reflexivity|].
    cbn [indexer with_indexer]. rewrite Hvoc.
    intros term [<-|[]]. reflexivity. }
  split; [reflexivity|]. split; [exact Hsearch|].
  split; [rewrite Hsearch; reflexivity|].
  unfold TFIDFIndexer.get_candidate_documents.
  cbn [indexer with_indexer]. rewrite Hinv. split; reflexivity.
Qed.
End NoResults.

(* ------------------------------------------------------------------ *)
(** ** The theorems at concrete inputs *)

Section Witnesses.
Open Scope R_scope.

(** The ranker of the default configuration on two scored candidates, one
    of them below the threshold. *)
Lemma rank_results_on_two_scores :
  (0 <= ResultRanker.max_results ranker_10)%Z
  /\ (forall x,
        In x two_scores -> ~ In x (passing ranker_10 two_scores) ->
        snd x < ResultRanker.min_similarity_score ranker_10).
Proof.
  split; [cbn; lia|].
  apply (rank_results_filters_sorts_truncates ranker_10 None two_scores).
  cbn. lia.
Defined.

(** A one-term query against a one-term document. *)
Lemma calculate_similarity_on_one_term :
  exists s : R,
    CosineSimilarityCalculator.calculate_similarity
      [("a", 1)] [("a", 2)] (sqrt (sumsq [2])) = Ok s
    /\ 0 <= s <= 1
    /\ (s = 0 <->
        [("a", 1)] = [] \/ [("a", 2)] = [] \/ sqrt (sumsq [2]) = 0
        \/ overlap_dot [("a", 1)] [("a", 2)] = 0).
Proof.
  apply (calculate_similarity_exact_arithmetic [("a", 1)] [("a", 2)]).
  - repeat constructor. simpl. tauto.
  - repeat constructor. simpl. lra.
  - repeat constructor. simpl. lra.
  - apply l2_norm_real.
Defined.

(** The weight of "cooking" in d3 of Scenario A: one of two tokens, in one
    of three documents. *)
Lemma build_index_on_scenario_A :
  exists self' vec,
    TFIDFIndexer.build_index scenario_A_index = Ok self'
    /\ PyDict.get "d3" (TFIDFIndexer.tfidf_vectors self') = Some vec
    /\ PyDict.get "cooking" vec = Some (INR 1 / INR 2 * ln (INR 3 / INR 1)).
Proof.
  destruct (build_index_stores_tfidf scenario_A_index)
    as (self' & Hrun & _ & _ & Hdocs & _).
  { apply reachable_add, reachable_init. }
  destruct (Hdocs "d3" ["cooking"; "recipes"] eq_refl)
    as (vec & _ & Hvec & Hterm & _).
  exists self', vec. split; [exact Hrun|]. split; [exact Hvec|].
  exact (Hterm "cooking" (or_introl eq_refl)).
Defined.

(** A corpus with a document of stopwords and short words only. *)
Lemma build_index_on_stopwords_only :
  exists self',
    TFIDFIndexer.build_index stopwords_only_index = Ok self'
    /\ PyDict.get "d1" (TFIDFIndexer.documents stopwords_only_index) = Some []
    /\ PyDict.get "d1" (TFIDFIndexer.tfidf_vectors self') = Some []
    /\ PyDict.get "d1" (TFIDFIndexer.document_norms self') = Some 0.
Proof.
  destruct (build_index_total_with_empty_documents stopwords_only_index)
    as (self' & Hrun & _ & Hempty).
  { apply reachable_add, reachable_init. }
  destruct (Hempty "d1" eq_refl) as [Hvec Hnorm].
  exists self'. repeat split; assumption.
Defined.
End Witnesses.

(* ------------------------------------------------------------------ *)
(** ** The normalizer: what a token is *)

Section Tokens.
Variable self : TextPreprocessor.t.

Lemma forallb_snoc (p : ascii -> bool) (w : string) (c : ascii) :
  PyStr.forallb p (w ++ String c EmptyString) = PyStr.forallb p w && p c.
Proof.
  induction w as [|d r IH]; simpl.
  - rewrite andb_true_r. reflexivity.
  - rewrite IH, andb_assoc. reflexivity.
Qed.

Lemma snoc_not_empty (w : string) (c : ascii) : w ++ String c EmptyString <> "".
Proof. destruct w; discriminate. Qed.

(** The words [str.split()] returns are not empty and are made of the
    characters of the text that are not whitespace. *)
Lemma split_from_words (p : ascii -> bool) (s : string) (cur : option string) :
  PyStr.forallb (fun c => PyStr.is_space c || p c) s = true ->
  match cur with
  | Some w => w <> "" /\ PyStr.forallb p w = true
  | None => True
  end ->
  Forall (fun w => w <> "" /\ PyStr.forallb p w = true) (PyStr.split_from cur s).
Proof.
  revert cur. induction s as [|c r IH]; intros cur Hs Hcur; simpl.
  - destruct cur; [constructor; [exact Hcur | constructor] | constructor].
  - simpl in Hs. apply andb_true_iff in Hs as [Hc Hr].
    destruct (PyStr.is_space c) eqn:Hsp.
    + destruct cur; [constructor; [exact Hcur|]|]; apply IH; auto.
    + simpl in Hc. destruct cur as [w|]; apply IH; try exact Hr.
      * destruct Hcur as [_ Hw]. split; [apply snoc_not_empty|].
        rewrite forallb_snoc, Hw, Hc. reflexivity.
      * split; [discriminate|]. simpl. rewrite Hc. reflexivity.
Qed.

Lemma replaced_char_is_token_char (c : ascii) :
  let c' := if PyStr.kept_by_preprocess (PyStr.lower_char c)
            then PyStr.lower_char c else " "%char in
  PyStr.is_space c' || token_char c' = true.
Proof. by_cases_on_char c. Qed.

Lemma replace_special_chars (text : string) :
  PyStr.forallb (fun c => PyStr.is_space c || token_char c)
    (TextPreprocessor.replace_special (PyStr.lower text)) = true.
Proof.
  unfold TextPreprocessor.replace_special, PyStr.lower.
  induction text as [|c r IH]; simpl; [reflexivity|].
  rewrite IH, andb_true_r. apply replaced_char_is_token_char.
Qed.

Lemma preprocess_words (text : string) :
  Forall (fun w => w <> "" /\ PyStr.forallb token_char w = true)
         (TextPreprocessor.preprocess self text).
Proof.
  unfold TextPreprocessor.preprocess.
  destruct (PyStr.is_empty text); [constructor|]. cbv zeta.
  apply Forall_forall. intros token Hin.
  apply filter_In in Hin as [Hin _].
  pose proof (split_from_words token_char _ None (replace_special_chars text) I)
    as Hwords.
  rewrite Forall_forall in Hwords. exact (Hwords token Hin).
Qed.

(** X1. Every token [preprocess] returns is non-empty, is made of the
    characters a-z, 0-9 and backslash only, has at least [min_token_length]
    characters and, when stopword removal is on, is no stopword. *)
Theorem preprocess_tokens_well_formed (text : string) :
  Forall (well_formed_token self) (TextPreprocessor.preprocess self text).
Proof.
  unfold TextPreprocessor.preprocess.
  destruct (PyStr.is_empty text); [constructor|]. cbv zeta.
  apply Forall_forall. intros token Hin.
  apply filter_In in Hin as [Hin Hkeep].
  pose proof (split_from_words token_char _ None (replace_special_chars text) I)
    as Hwords.
  rewrite Forall_forall in Hwords. destruct (Hwords token Hin) as [Hne Hchars].
  unfold TextPreprocessor.keep_token in Hkeep.
  destruct (Z.of_nat (String.length token) <? TextPreprocessor.min_token_length self)%Z
    eqn:Hlen; [discriminate|].
  apply Z.ltb_ge in Hlen.
  repeat split; try assumption.
  intros Hstop Hmem. rewrite Hstop in Hkeep.
  apply str_mem_In in Hmem. rewrite Hmem in Hkeep. discriminate.
Qed.

Lemma lower_char_idempotent (c : ascii) :
  PyStr.lower_char (PyStr.lower_char c) = PyStr.lower_char c.
Proof. by_cases_on_char c. Qed.

Lemma lower_idempotent (text : string) :
  PyStr.lower (PyStr.lower text) = PyStr.lower text.
Proof.
  unfold PyStr.lower. induction text as [|c r IH]; simpl; [reflexivity|].
  rewrite lower_char_idempotent, IH. reflexivity.
Qed.

(** X2. [preprocess] does not see letter case: a text and its lower-case
    form give the same tokens. *)
Theorem preprocess_ignores_case (text : string) :
  TextPreprocessor.preprocess self (PyStr.lower text)
  = TextPreprocessor.preprocess self text.
Proof.
  unfold TextPreprocessor.preprocess. rewrite lower_idempotent.
  destruct text; reflexivity.
Qed.
End Tokens.

Section ValidQueries.
Variable self : QueryProcessor.t.

Lemma strip_keeps_word (w : string) :
  w <> "" -> PyStr.forallb token_char w = true -> PyStr.strip w <> "".
Proof.
  destruct w as [|c r]; [contradiction|]. intros _ Hchars.
  simpl in Hchars. apply andb_true_iff in Hchars as [Hc _].
  assert (Hsp : PyStr.is_space c = false).
  { revert Hc. clear. by_cases_on_char c. }
  unfold PyStr.strip. simpl. rewrite Hsp. simpl.
  destruct (PyStr.rstrip r); [rewrite Hsp|]; discriminate.
Qed.

Lemma process_query_tokens (raw_query : string) :
  Forall (fun w => w <> "" /\ PyStr.forallb token_char w = true)
         (QueryProcessor.process_query self raw_query).
Proof.
  unfold QueryProcessor.process_query.
  destruct (PyStr.is_empty raw_query || PyStr.is_empty (PyStr.strip raw_query));
    [constructor|].
  apply preprocess_words.
Qed.

(** X3. On the terms [process_query] returns, [validate_query] is the test
    that there is a term at all: no term it returns is empty or blank. *)
Theorem processed_query_valid_iff_nonempty (raw_query : string) :
  QueryProcessor.validate_query (QueryProcessor.process_query self raw_query)
  = true
  <-> QueryProcessor.process_query self raw_query <> [].
Proof.
  pose proof (process_query_tokens raw_query) as Hwf.
  destruct (QueryProcessor.process_query self raw_query) as [|t1 r].
  - split; [discriminate | intros H; contradiction].
  - split; [discriminate|]. intros _.
    unfold QueryProcessor.validate_query.
    inversion Hwf as [|? ? [Hne Hchars] _]; subst.
    cbn [List.filter].
    destruct (PyStr.strip t1) eqn:Hstrip;
      [exfalso; exact (strip_keeps_word t1 Hne Hchars Hstrip)|].
    reflexivity.
Qed.
End ValidQueries.

(* ------------------------------------------------------------------ *)
(** ** The index: vocabulary and candidates *)

Section Vocabulary.
Import TFIDFIndexer.

Lemma dict_set_fresh (V : Type) (k : string) (v : V) (d : PyDict.t V) :
  PyDict.mem k d = false -> PyDict.set k v d = (d ++ [(k, v)])%list.
Proof.
  unfold PyDict.mem. induction d as [|[k' v'] r IH]; simpl; [reflexivity|].
  destruct (String.eqb k' k); [discriminate|].
  intros H. rewrite (IH H). reflexivity.
Qed.

Lemma add_term_dense (doc_id : string) (self : t) (term : string) :
  vocabulary_dense self -> vocabulary_dense (add_term doc_id self term).
Proof.
  intros [Hids Hnd]. unfold vocabulary_dense, add_term, inverted_index_default.
  destruct (PyDict.mem term (vocabulary self)) eqn:E; cbn -[PyDict.keys];
    destruct (PyDict.get term (inverted_index self)); cbn -[PyDict.keys];
    try (split; assumption).
  all: split; [|apply dict_keys_set_nodup, Hnd].
  all: rewrite (dict_set_fresh _ _ _ _ E), map_app, length_app, Hids.
  all: cbn [List.map List.length snd]; rewrite Nat.add_1_r, seq_S; reflexivity.
Qed.

Lemma add_terms_dense (doc_id : string) (terms : list string) (self : t) :
  vocabulary_dense self ->
  vocabulary_dense (fold_left (add_term doc_id) terms self).
Proof.
  revert self. induction terms as [|term r IH]; intros self H; simpl; [exact H|].
  apply IH, add_term_dense, H.
Qed.

Lemma add_documents_dense (self : t) (docs : PyDict.t string) :
  vocabulary_dense self -> vocabulary_dense (add_documents self docs).
Proof.
  unfold add_documents.
  change (vocabulary_dense self ->
          vocabulary_dense (fold_left add_document docs self)).
  revert self. induction docs as [|[d text] r IH]; intros self H; simpl;
    [exact H|].
  apply IH. apply add_terms_dense. exact H.
Qed.

Lemma reachable_dense (self : t) : reachable self -> vocabulary_dense self.
Proof.
  induction 1 as [p | self docs Hreach IH | self self' Hreach IH Hrun].
  - split; [reflexivity | constructor].
  - apply add_documents_dense, IH.
  - destruct (build_index_defined self (reachable_consistent self Hreach))
      as (s & Hrun' & (_ & _ & Hvoc & _) & _).
    rewrite Hrun in Hrun'. injection Hrun' as <-.
    unfold vocabulary_dense. rewrite Hvoc. exact IH.
Qed.

Lemma dense_get_nth (d : PyDict.t nat) (a : nat) (term : string) (id : nat) :
  List.map snd d = seq a (List.length d) ->
  NoDup (PyDict.keys d) ->
  (PyDict.get term d = Some id
   <-> (a <= id)%nat /\ nth_error (PyDict.keys d) (id - a) = Some term).
Proof.
  revert a. induction d as [|[k v] r IH]; intros a Hids Hnd.
  - simpl. split; [discriminate|]. intros [_ H]. destruct (id - a)%nat; discriminate.
  - simpl in Hids. injection Hids as -> Hids.
    inversion Hnd as [|? ? Hnotin Hnd']; subst.
    specialize (IH (S a) Hids Hnd'). cbn [PyDict.get PyDict.keys List.map fst].
    destruct (String.eqb k term) eqn:E.
    + apply String.eqb_eq in E. subst k. split.
      * intros [= <-]. split; [lia|]. rewrite Nat.sub_diag. reflexivity.
      * intros [Hle Hnth]. destruct (id - a)%nat as [|n] eqn:En.
        -- f_equal. lia.
        -- exfalso. apply Hnotin. simpl in Hnth.
           exact (nth_error_In _ _ Hnth).
    + apply String.eqb_neq in E. rewrite IH. split.
      * intros [Hle Hnth]. split; [lia|].
        replace (id - a)%nat with (S (id - S a)) by lia. exact Hnth.
      * intros [Hle Hnth]. destruct (id - a)%nat as [|n] eqn:En.
        -- simpl in Hnth. congruence.
        -- split; [lia|]. replace (id - S a)%nat with n by lia. exact Hnth.
Qed.

(** X4. In every index state a caller can reach, the id of a vocabulary
    term is its position among the vocabulary's keys, in the order the terms
    were first seen: the ids are distinct and run from 0 to the vocabulary
    size less one. *)
Theorem vocabulary_ids_are_positions (self : t) (term : string) (id : nat) :
  reachable self ->
  (PyDict.get term (vocabulary self) = Some id
   <-> nth_error (PyDict.keys (vocabulary self)) id = Some term).
Proof.
  intros Hreach. destruct (reachable_dense self Hreach) as [Hids Hnd].
  rewrite (dense_get_nth _ 0 term id Hids Hnd), Nat.sub_0_r.
  split; [tauto | intros H; split; [lia | exact H]].
Qed.

Lemma add_term_keeps_ids (doc_id : string) (self : t) (term t0 : string)
      (id : nat) :
  PyDict.get t0 (vocabulary self) = Some id ->
  PyDict.get t0 (vocabulary (add_term doc_id self term)) = Some id.
Proof.
  intros Hget. unfold add_term, inverted_index_default.
  destruct (PyDict.mem term (vocabulary self)) eqn:E; cbn;
    destruct (PyDict.get term (inverted_index self)); cbn; try exact Hget.
  all: rewrite dict_get_elsewhere; [exact Hget|].
  all: intros <-; unfold PyDict.mem in E; rewrite Hget in E; discriminate.
Qed.

Lemma add_documents_keeps_ids (self : t) (docs : PyDict.t string)
      (t0 : string) (id : nat) :
  PyDict.get t0 (vocabulary self) = Some id ->
  PyDict.get t0 (vocabulary (add_documents self docs)) = Some id.
Proof.
  unfold add_documents.
  change (PyDict.get t0 (vocabulary self) = Some id ->
          PyDict.get t0 (vocabulary (fold_left add_document docs self)) = Some id).
  revert self. induction docs as [|[d text] r IH]; intros self H; simpl;
    [exact H|].
  apply IH.
  generalize (PySet.of_list
                (TextPreprocessor.preprocess (preprocessor self) text)).
  assert (H0 : PyDict.get t0
                 (vocabulary
                    (with_documents self
                       (PyDict.set d
                          (TextPreprocessor.preprocess (preprocessor self) text)
                          (documents self)))) = Some id) by exact H.
  revert H0. generalize (with_documents self
                           (PyDict.set d
                              (TextPreprocessor.preprocess (preprocessor self) text)
                              (documents self))).
  intros s Hs terms. revert s Hs.
  induction terms as [|term terms IHt]; intros s Hs; simpl; [exact Hs|].
  apply IHt, add_term_keeps_ids, Hs.
Qed.

(** X5. [add_documents] only adds: a vocabulary term keeps its id, a
    document stays in every inverted-index entry it is in, and a stored
    document id stays stored. *)
Theorem add_documents_only_adds (self : t) (docs : PyDict.t string) :
  let self' := add_documents self docs in
  (forall term id,
      PyDict.get term (vocabulary self) = Some id ->
      PyDict.get term (vocabulary self') = Some id)
  /\ (forall term doc_id,
        In doc_id (posting self term) -> In doc_id (posting self' term))
  /\ (forall doc_id,
        In doc_id (PyDict.keys (documents self)) ->
        In doc_id (PyDict.keys (documents self'))).
Proof.
  intros self'. split; [|split].
  - intros term id. apply add_documents_keeps_ids.
  - intros term d Hin.
    destruct (add_document_list_history docs self) as [_ Hpost].
    apply Hpost. left. exact Hin.
  - intros d. unfold self', add_documents.
    change (In d (PyDict.keys (documents self)) ->
            In d (PyDict.keys (documents (fold_left add_document docs self)))).
    clear self'. revert self.
    induction docs as [|[d1 text] r IH]; intros self H; cbn [fold_left];
      [exact H|].
    apply IH. destruct (add_document_effect self d1 text) as (_ & Hdocs & _).
    rewrite Hdocs. apply dict_in_keys_set. right. exact H.
Qed.

Lemma candidates_fold (self : t) (terms : list string) (acc : PySet.t)
      (doc_id : string) :
  In doc_id
     (fold_left
        (fun candidates term =>
           match PyDict.get term (inverted_index self) with
           | Some entry => PySet.update candidates entry
           | None => candidates
           end) terms acc)
  <-> In doc_id acc
      \/ exists term, In term terms /\ In doc_id (posting self term).
Proof.
  revert acc. induction terms as [|t1 r IH]; intros acc; cbn [fold_left].
  - split; [tauto | intros [H|[term [[] _]]]; exact H].
  - rewrite IH. unfold posting at 2.
    destruct (PyDict.get t1 (inverted_index self)) as [entry|] eqn:Hget.
    + rewrite set_in_update. split.
      * intros [[H|H]|[term [Hin Hpost]]]; auto.
        -- right. exists t1. unfold posting. rewrite Hget. auto using in_eq.
        -- right. exists term. auto using in_cons.
      * intros [H|[term [[<-|Hin] Hpost]]]; auto.
        -- left. right. unfold posting in Hpost. rewrite Hget in Hpost. exact Hpost.
        -- right. exists term. auto.
    + split.
      * intros [H|[term [Hin Hpost]]]; auto.
        right. exists term. auto using in_cons.
      * intros [H|[term [[<-|Hin] Hpost]]]; auto.
        -- unfold posting in Hpost. rewrite Hget in Hpost. destruct Hpost.
        -- right. exists term. auto.
Qed.

Lemma candidates_fold_nodup (self : t) (terms : list string) (acc : PySet.t) :
  NoDup acc ->
  NoDup
    (fold_left
       (fun candidates term =>
          match PyDict.get term (inverted_index self) with
          | Some entry => PySet.update candidates entry
          | None => candidates
          end) terms acc).
Proof.
  revert acc. induction terms as [|t1 r IH]; intros acc Hnd; cbn [fold_left];
    [exact Hnd|].
  apply IH. destruct (PyDict.get t1 (inverted_index self));
    [apply set_update_nodup|]; exact Hnd.
Qed.

(** X6. The candidate set is the union of the inverted-index entries of the
    query terms, each document once; a term without an entry adds nothing
    and an empty query has no candidate. *)
Theorem candidates_are_the_union_of_entries (self : t)
        (query_terms : list string) :
  (forall doc_id,
      In doc_id (get_candidate_documents self query_terms)
      <-> exists term, In term query_terms /\ In doc_id (posting self term))
  /\ NoDup (get_candidate_documents self query_terms).
Proof.
  unfold get_candidate_documents. split.
  - intros d. rewrite candidates_fold. split; [intros [[]|H]; exact H | auto].
  - apply candidates_fold_nodup. constructor.
Qed.

(** X7. In every index state a caller can reach, a stored document whose
    tokens include one of the query terms is a candidate. *)
Theorem document_with_query_term_is_candidate
        (self : t) (query_terms tokens : list string) (doc_id term : string) :
  reachable self ->
  PyDict.get doc_id (documents self) = Some tokens ->
  In term tokens -> In term query_terms ->
  In doc_id (get_candidate_documents self query_terms).
Proof.
  intros Hreach Hget Htok Hquery.
  unfold get_candidate_documents. apply candidates_fold. right.
  exists term. split; [exact Hquery|].
  destruct (reachable_consistent self Hreach) as [[_ Hidx _ _] _].
  exact (proj2 (Hidx doc_id tokens term Hget Htok)).
Qed.
End Vocabulary.

(* ------------------------------------------------------------------ *)
(** ** The index: query vectors *)

Section QueryVectors.
Import TFIDFIndexer.
Open Scope R_scope.

Lemma add_terms_inhabited (doc_id : string) (terms : list string) (self : t) :
  postings_inhabited self ->
  postings_inhabited (fold_left (add_term doc_id) terms self).
Proof.
  intros H term Hin. apply add_terms_vocabulary in Hin as [Hin|Hin].
  - exists doc_id. apply add_terms_posting. right. split; [reflexivity | exact Hin].
  - destruct (H term Hin) as [d Hd]. exists d. apply add_terms_posting. left. exact Hd.
Qed.

Lemma add_documents_inhabited (self : t) (docs : PyDict.t string) :
  postings_inhabited self -> postings_inhabited (add_documents self docs).
Proof.
  unfold add_documents.
  change (postings_inhabited self ->
          postings_inhabited (fold_left add_document docs self)).
  revert self. induction docs as [|[d text] r IH]; intros self H; simpl;
    [exact H|].
  apply IH. apply add_terms_inhabited. exact H.
Qed.

Lemma same_corpus_inhabited (self self' : t) :
  same_corpus self self' -> postings_inhabited self -> postings_inhabited self'.
Proof.
  intros Hsame H term Hin. pose proof Hsame as (_ & _ & Hvoc & _).
  rewrite Hvoc in Hin. destruct (H term Hin) as [d Hd]. exists d.
  rewrite (same_corpus_posting _ _ term Hsame). exact Hd.
Qed.

Lemma reachable_inhabited (self : t) : reachable self -> postings_inhabited self.
Proof.
  induction 1 as [p | self docs Hreach IH | self self' Hreach IH Hrun].
  - intros term [].
  - apply add_documents_inhabited, IH.
  - destruct (build_index_defined self (reachable_consistent self Hreach))
      as (s & Hrun' & Hsame & _).
    rewrite Hrun in Hrun'. injection Hrun' as <-.
    exact (same_corpus_inhabited _ _ Hsame IH).
Qed.

(** What a built index is: a consistent one whose document frequencies are
    up to date. *)
Lemma built_index_facts (self : t) :
  built self ->
  reachable self /\ consistent self /\ postings_inhabited self
  /\ frequencies_current self.
Proof.
  intros (before & Hreach & Hrun).
  assert (Hself : reachable self) by exact (reachable_build before self Hreach Hrun).
  split; [exact Hself|]. split; [exact (reachable_consistent self Hself)|].
  split; [exact (reachable_inhabited self Hself)|].
  destruct (build_index_defined before (reachable_consistent before Hreach))
    as (s & Hrun' & Hsame & Hdf & _).
  rewrite Hrun in Hrun'. injection Hrun' as <-.
  intros term Hin. pose proof Hsame as (_ & _ & Hvoc & _).
  rewrite Hvoc in Hin. rewrite (same_corpus_posting _ _ term Hsame).
  exact (Hdf term Hin).
Qed.

Lemma inhabited_has_documents (self : t) (term : string) :
  consistent self -> postings_inhabited self ->
  In term (PyDict.keys (vocabulary self)) ->
  total_documents self <> 0%nat /\ List.length (posting self term) <> 0%nat.
Proof.
  intros [[_ _ _ Hknown] Htot] Hinh Hin.
  destruct (Hinh term Hin) as [d Hd]. split.
  - apply Hknown in Hd. rewrite Htot.
    destruct (documents self); [destruct Hd | discriminate].
  - destruct (posting self term); [destruct Hd | discriminate].
Qed.

Lemma query_vector_loop_defined (self : t) (query_length : nat)
      (items : list (string * nat)) (vec : PyDict.t R) :
  consistent self -> postings_inhabited self -> frequencies_current self ->
  query_length <> 0%nat ->
  query_vector_loop self query_length items vec
  = Ok (fold_left (store_query_weight self query_length) items vec).
Proof.
  intros Hcons Hinh Hfreq Hlen. revert vec.
  induction items as [|[term count] r IH]; intros vec; [reflexivity|].
  cbn [query_vector_loop fold_left].
  unfold store_query_weight at 2, query_item_weight. cbn [fst snd].
  destruct (PyDict.mem term (vocabulary self)) eqn:Hmem; [|apply IH].
  apply dict_mem_in_keys in Hmem.
  destruct (inhabited_has_documents self term Hcons Hinh Hmem) as [Htot Hdf].
  rewrite (int_div_defined _ _ Hlen). cbn [bind].
  rewrite (dict_getitem_found _ _ _ _ (Hfreq term Hmem)). cbn [bind].
  rewrite (int_div_defined _ _ Hdf). cbn [bind].
  rewrite (math_log_defined _ (ratio_positive _ _ Htot Hdf)). cbn [bind].
  apply IH.
Qed.

Lemma fold_store_query_weight_get (self : t) (query_length : nat)
      (items : list (string * nat)) (vec : PyDict.t R) (term : string) :
  NoDup (PyDict.keys items) ->
  PyDict.get term (fold_left (store_query_weight self query_length) items vec)
  = match PyDict.get term items with
    | Some count =>
        match query_item_weight self query_length (term, count) with
        | Some w => Some w
        | None => PyDict.get term vec
        end
    | None => PyDict.get term vec
    end.
Proof.
  revert vec. induction items as [|[t1 c1] r IH]; intros vec Hnd;
    cbn [fold_left]; [reflexivity|].
  inversion Hnd as [|? ? Hnotin Hnd']; subst.
  rewrite IH by exact Hnd'. cbn [PyDict.get fst].
  destruct (String.eqb t1 term) eqn:E.
  - apply String.eqb_eq in E. subst t1.
    destruct (PyDict.get term r) as [c|] eqn:Hget.
    + exfalso. apply Hnotin. apply dict_get_in_keys. eauto.
    + unfold store_query_weight.
      destruct (query_item_weight self query_length (term, c1));
        [apply dict_get_updated | reflexivity].
  - apply String.eqb_neq in E.
    assert (Hpast : PyDict.get term (store_query_weight self query_length vec (t1, c1))
                    = PyDict.get term vec).
    { unfold store_query_weight.
      destruct (query_item_weight self query_length (t1, c1)); [|reflexivity].
      apply dict_get_elsewhere, E. }
    rewrite Hpast. reflexivity.
Qed.

(** X8. On an index as [build_index] leaves it, [get_query_vector] raises
    nothing, whatever the query terms, and the vector has an entry exactly
    for the query terms that are in the vocabulary: (occurrences in the
    query / number of query terms) * ln (N / df), with df the size of the
    term's inverted-index entry. *)
Theorem get_query_vector_on_built_index (self : t) (query_terms : list string) :
  built self ->
  exists query_vector,
    get_query_vector self query_terms = Ok query_vector
    /\ (forall term,
          In term query_terms -> known self term = true ->
          PyDict.get term query_vector
          = Some (INR (count_occ string_dec query_terms term)
                  / INR (List.length query_terms)
                  * ln (INR (total_documents self)
                        / INR (List.length (posting self term)))))
    /\ (forall term,
          ~ In term query_terms \/ known self term = false ->
          PyDict.get term query_vector = None).
Proof.
  intros Hbuilt.
  destruct (built_index_facts self Hbuilt) as (_ & Hcons & Hinh & Hfreq).
  destruct query_terms as [|t1 r].
  { exists []. split; [reflexivity|]. split; [intros term []|reflexivity]. }
  set (terms := t1 :: r).
  exists (fold_left (store_query_weight self (List.length terms))
                    (Counter terms) []).
  split.
  { unfold get_query_vector. fold terms.
    apply query_vector_loop_defined; try assumption. discriminate. }
  split; intros term Hterm;
    rewrite fold_store_query_weight_get by apply counter_nodup;
    rewrite counter_get.
  - intros Hknown. apply (count_occ_In string_dec) in Hterm.
    destruct (count_occ string_dec terms term) as [|n]; [lia|].
    unfold query_item_weight. cbn [fst snd]. unfold known in Hknown.
    rewrite Hknown. reflexivity.
  - destruct Hterm as [Hnotin|Hunknown].
    + apply (count_occ_not_In string_dec) in Hnotin. rewrite Hnotin. reflexivity.
    + destruct (count_occ string_dec terms term); [reflexivity|].
      unfold query_item_weight. cbn [fst]. unfold known in Hunknown.
      rewrite Hunknown. reflexivity.
Qed.

Lemma find_snoc (A : Type) (p : A -> bool) (l : list A) (x : A) :
  find p (l ++ [x])
  = match find p l with
    | Some y => Some y
    | None => if p x then Some x else None
    end.
Proof.
  induction l as [|y r IH]; simpl; [reflexivity|].
  destruct (p y); [reflexivity | exact IH].
Qed.

Lemma count_fold_find (p : string -> bool) (tokens : list string)
      (c : PyDict.t nat) :
  find p (PyDict.keys (fold_left count_step tokens c))
  = match find p (PyDict.keys c) with
    | Some x => Some x
    | None => find p tokens
    end.
Proof.
  revert c. induction tokens as [|t1 r IH]; intros c; cbn [fold_left].
  - destruct (find p (PyDict.keys c)); reflexivity.
  - rewrite IH. unfold count_step at 1. rewrite dict_keys_set.
    destruct (PyDict.mem t1 c) eqn:Hmem.
    + destruct (find p (PyDict.keys c)) eqn:Hfind; [reflexivity|].
      cbn [find]. apply dict_mem_in_keys in Hmem.
      rewrite (find_none _ _ Hfind t1 Hmem). reflexivity.
    + rewrite find_snoc. destruct (find p (PyDict.keys c)); [reflexivity|].
      cbn [find]. destruct (p t1); reflexivity.
Qed.

Lemma counter_find (p : string -> bool) (tokens : list string) (term : string) :
  find p tokens = Some term ->
  exists count,
    find (fun item => p (fst item)) (Counter tokens) = Some (term, count).
Proof.
  intros Hfind.
  assert (Hkeys : find p (PyDict.keys (Counter tokens)) = Some term).
  { rewrite counter_fold, count_fold_find. exact Hfind. }
  revert Hkeys. generalize (Counter tokens). intros items.
  induction items as [|[k c] r IH]; cbn [PyDict.keys List.map find fst];
    [discriminate|].
  destruct (p k); [intros [= ->]; eauto | exact IH].
Qed.

Lemma query_vector_loop_key_error (self : t) (query_length : nat)
      (items : list (string * nat)) (vec : PyDict.t R) (term : string)
      (count : nat) :
  query_length <> 0%nat ->
  find (fun item => known self (fst item)) items = Some (term, count) ->
  PyDict.get term (document_frequencies self) = None ->
  query_vector_loop self query_length items vec = Raise (KeyError term).
Proof.
  intros Hlen Hfind Hdf. revert vec.
  induction items as [|[t1 c1] r IH]; intros vec; [discriminate|].
  cbn [query_vector_loop find fst] in *. unfold known in Hfind.
  destruct (PyDict.mem t1 (vocabulary self)).
  - injection Hfind as -> ->.
    rewrite (int_div_defined _ _ Hlen). cbn [bind].
    unfold PyDict.getitem. rewrite Hdf. reflexivity.
  - apply IH. exact Hfind.
Qed.

(** The first query term that is in the vocabulary of an index without its
    document frequency makes [get_query_vector] raise. *)
Lemma get_query_vector_key_error (self : t) (query_terms : list string)
      (term : string) :
  find (known self) query_terms = Some term ->
  PyDict.get term (document_frequencies self) = None ->
  get_query_vector self query_terms = Raise (KeyError term).
Proof.
  intros Hfind Hdf. unfold get_query_vector.
  destruct query_terms as [|t1 r]; [discriminate|].
  destruct (counter_find (known self) (t1 :: r) term Hfind) as [count Hitem].
  apply (query_vector_loop_key_error self _ _ _ term count);
    [discriminate | exact Hitem | exact Hdf].
Qed.

Lemma dict_set_same (V : Type) (k : string) (v : V) (d : PyDict.t V) :
  PyDict.get k d = Some v -> PyDict.set k v d = d.
Proof.
  induction d as [|[k' v'] r IH]; simpl; [discriminate|].
  destruct (String.eqb k' k) eqn:E.
  - intros [= ->]. reflexivity.
  - intros H. rewrite (IH H). reflexivity.
Qed.

Lemma update_document_frequency_current (self : t) (term : string) :
  In term (PyDict.keys (inverted_index self)) ->
  PyDict.get term (document_frequencies self)
  = Some (List.length (posting self term)) ->
  update_document_frequency self term = self.
Proof.
  intros Hin Hdf. rewrite update_document_frequency_known by exact Hin.
  rewrite (dict_set_same _ _ _ _ Hdf). destruct self; reflexivity.
Qed.

Lemma update_document_frequencies_current (terms : list string) (self : t) :
  (forall term, In term terms ->
     In term (PyDict.keys (inverted_index self))
     /\ PyDict.get term (document_frequencies self)
        = Some (List.length (posting self term))) ->
  fold_left update_document_frequency terms self = self.
Proof.
  induction terms as [|t1 r IH]; intros H; cbn [fold_left]; [reflexivity|].
  destruct (H t1 (or_introl eq_refl)) as [Hin Hdf].
  rewrite (update_document_frequency_current self t1 Hin Hdf).
  apply IH. intros term Hterm. apply H. right. exact Hterm.
Qed.

Lemma build_documents_current (docs : PyDict.t (list string)) (self : t) :
  (forall doc_id tokens,
      In (doc_id, tokens) docs -> build_document self (doc_id, tokens) = Ok self) ->
  build_documents self docs = Ok self.
Proof.
  induction docs as [|[d tokens] r IH]; intros H; cbn [build_documents];
    [reflexivity|].
  rewrite (H d tokens (or_introl eq_refl)). cbn [bind].
  apply IH. intros d' tokens' Hin. apply H. right. exact Hin.
Qed.

Lemma built_index_vectors (self : t) (doc_id : string) (tokens : list string) :
  built self ->
  PyDict.get doc_id (documents self) = Some tokens ->
  PyDict.get doc_id (tfidf_vectors self) = Some (corpus_vector self tokens)
  /\ PyDict.get doc_id (document_norms self)
     = Some (sqrt (sumsq (PyDict.values (corpus_vector self tokens)))).
Proof.
  intros (before & Hreach & Hrun) Hget.
  destruct (build_index_defined before (reachable_consistent before Hreach))
    as (s & Hrun' & Hsame & _ & Hdocs).
  rewrite Hrun in Hrun'. injection Hrun' as <-.
  pose proof Hsame as (_ & Hsame_docs & _).
  rewrite Hsame_docs in Hget.
  rewrite (same_corpus_vector before self tokens Hsame).
  exact (Hdocs doc_id tokens Hget).
Qed.

(** X9. Building twice is building once: on an index as [build_index]
    leaves it, another [build_index] completes and changes nothing, neither
    the document frequencies nor a vector nor a norm. *)
Theorem build_index_twice (self : t) :
  built self -> build_index self = Ok self.
Proof.
  intros Hbuilt.
  destruct (built_index_facts self Hbuilt) as (_ & Hcons & Hinh & Hfreq).
  pose proof Hcons as [[Hnd Hidx Hpost _] _].
  unfold build_index.
  rewrite update_document_frequencies_current
    by (intros term Hin; split; [apply Hpost, Hin | apply Hfreq, Hin]).
  apply build_documents_current. intros d tokens Hin.
  pose proof (dict_get_of_entry _ _ _ _ Hnd Hin) as Hget.
  destruct (built_index_vectors self d tokens Hbuilt Hget) as [Hvec Hnorm].
  assert (Hcorpus : vector_of (document_frequencies self) (total_documents self)
                              tokens = corpus_vector self tokens).
  { apply vector_of_corpus. intros term Hterm. apply Hfreq.
    exact (proj1 (Hidx d tokens term Hget Hterm)). }
  rewrite build_document_defined.
  - cbv zeta. rewrite Hcorpus.
    rewrite (dict_set_same _ _ _ _ Hvec), (dict_set_same _ _ _ _ Hnorm).
    destruct self; reflexivity.
  - intros term Hterm.
    destruct (Hidx d tokens term Hget Hterm) as [Hvoc _].
    destruct (inhabited_has_documents self term Hcons Hinh Hvoc) as [Htot Hdf].
    split; [exact Htot|]. exists (List.length (posting self term)).
    split; [apply Hfreq, Hvoc | exact Hdf].
Qed.
End QueryVectors.

(* ------------------------------------------------------------------ *)
(** ** The similarity scorer: exact arithmetic *)

Section Cosine.
Import CosineSimilarityCalculator.
Open Scope R_scope.

Lemma score_of_missing (k : string) (d : PyDict.t R) :
  ~ In k (PyDict.keys d) -> score_of k d = 0.
Proof.
  intros Hnotin. unfold score_of.
  destruct (PyDict.get k d) eqn:Hget; [|reflexivity].
  exfalso. apply Hnotin. apply dict_get_in_keys. eauto.
Qed.

Lemma overlap_dot_nil_r (q : PyDict.t R) : overlap_dot q [] = 0.
Proof.
  induction q as [|[k x] r IH]; simpl; [reflexivity|].
  simpl in IH. rewrite IH. unfold score_of. simpl. lra.
Qed.

Lemma overlap_dot_no_shared_term (q d : PyDict.t R) :
  no_shared_term q d -> overlap_dot q d = 0.
Proof.
  unfold no_shared_term.
  induction q as [|[k x] r IH]; simpl; intros H; [reflexivity|].
  rewrite (score_of_missing k d) by (apply H; left; reflexivity).
  simpl in IH. rewrite IH; [lra|]. intros term Hin. apply H. right. exact Hin.
Qed.

Lemma overlap_dot_cons_r (d q : PyDict.t R) (k : string) (x : R) :
  NoDup (PyDict.keys d) -> ~ In k (PyDict.keys q) ->
  overlap_dot d ((k, x) :: q) = x * score_of k d + overlap_dot d q.
Proof.
  intros Hnd Hfresh. induction d as [|[k' y] r IH].
  - unfold score_of. simpl. lra.
  - inversion Hnd as [|? ? Hnotin Hnd']; subst. specialize (IH Hnd').
    change (overlap_dot ((k', y) :: r) ((k, x) :: q))
      with (y * score_of k' ((k, x) :: q) + overlap_dot r ((k, x) :: q)).
    change (overlap_dot ((k', y) :: r) q)
      with (y * score_of k' q + overlap_dot r q).
    rewrite IH, !score_of_cons.
    destruct (String.eqb k k') eqn:E.
    + apply String.eqb_eq in E. subst k'. rewrite String.eqb_refl.
      rewrite (score_of_missing k r Hnotin), (score_of_missing k q Hfresh). lra.
    + rewrite String.eqb_sym, E. lra.
Qed.

Lemma overlap_dot_sym (q d : PyDict.t R) :
  NoDup (PyDict.keys q) -> NoDup (PyDict.keys d) ->
  overlap_dot q d = overlap_dot d q.
Proof.
  intros Hq Hd. induction q as [|[k x] r IH].
  - rewrite overlap_dot_nil_r. reflexivity.
  - inversion Hq as [|? ? Hnotin Hq']; subst.
    rewrite (overlap_dot_cons_r d r k x Hd Hnotin), <- (IH Hq'). reflexivity.
Qed.

Lemma overlap_dot_own (l d : PyDict.t R) :
  (forall k x, In (k, x) l -> PyDict.get k d = Some x) ->
  overlap_dot l d = sumsq (PyDict.values l).
Proof.
  induction l as [|[k x] r IH]; intros H; simpl; [reflexivity|].
  unfold score_of. rewrite (H k x (or_introl eq_refl)).
  simpl in IH. rewrite IH; [lra|]. intros k' x' Hin. apply H. right. exact Hin.
Qed.

(** With the L2 norm of the document as its norm, the score is the cosine
    of the two vectors. *)
Lemma calculate_similarity_is_cosine (q d : PyDict.t R) :
  NoDup (PyDict.keys q) ->
  calculate_similarity q d (sqrt (sumsq (PyDict.values d))) = Ok (cosine q d).
Proof.
  intros Hnd. rewrite calculate_similarity_real. unfold cosine.
  pose proof (overlap_dot_bound q d Hnd) as Hcs.
  pose proof (sumsq_nonneg (PyDict.values q)) as HA.
  pose proof (sumsq_nonneg (PyDict.values d)) as HD.
  pose proof (pow2_ge_0 (overlap_dot q d)) as Hsq.
  destruct (Req0 (overlap_dot q d)) eqn:Edot.
  { destruct (PyDict.is_empty q || PyDict.is_empty d
              || Req0 (sqrt (sumsq (PyDict.values d)))); reflexivity. }
  apply Req0_false in Edot.
  assert (Hne : overlap_dot q d ^ 2 <> 0).
  { intros H. apply Edot. nra. }
  assert (HApos : 0 < sumsq (PyDict.values q)) by nra.
  assert (HDpos : 0 < sumsq (PyDict.values d)) by nra.
  pose proof (sqrt_lt_R0 _ HApos) as Hqn.
  pose proof (sqrt_lt_R0 _ HDpos) as Hdn.
  destruct q as [|kx q']; [simpl in Edot; contradiction|].
  destruct d as [|ky d']; [rewrite overlap_dot_nil_r in Edot; contradiction|].
  cbn [PyDict.is_empty orb].
  destruct (Req0 (sqrt (sumsq (PyDict.values (ky :: d'))))) eqn:E1;
    [apply Req0_true in E1; lra|].
  destruct (Req0 (sqrt (sumsq (PyDict.values (kx :: q'))))) eqn:E2;
    [apply Req0_true in E2; lra|].
  destruct (Req0 (sqrt (sumsq (PyDict.values (kx :: q')))
                  * sqrt (sumsq (PyDict.values (ky :: d'))))) eqn:E3;
    [apply Req0_true in E3; nra|].
  reflexivity.
Qed.

(** X10. In exact arithmetic the score is symmetric: scoring a query against
    a document with the document's L2 norm gives what scoring the document
    against the query with the query's L2 norm gives. *)
Theorem calculate_similarity_symmetric (q d : PyDict.t R) (qn dn : R) :
  NoDup (PyDict.keys q) -> NoDup (PyDict.keys d) ->
  l2_norm q = Ok qn -> l2_norm d = Ok dn ->
  calculate_similarity q d dn = calculate_similarity d q qn.
Proof.
  intros Hq Hd Hqn Hdn. rewrite l2_norm_real in Hqn, Hdn.
  injection Hqn as <-. injection Hdn as <-.
  rewrite (calculate_similarity_is_cosine q d Hq),
          (calculate_similarity_is_cosine d q Hd).
  unfold cosine. rewrite (overlap_dot_sym q d Hq Hd).
  rewrite (Rmult_comm (sqrt (sumsq (PyDict.values q)))). reflexivity.
Qed.

(** X11. In exact arithmetic a vector with a weight that is not 0 has the
    score 1 against itself. *)
Theorem calculate_similarity_with_itself (v : PyDict.t R) (norm : R) :
  NoDup (PyDict.keys v) -> l2_norm v = Ok norm -> norm <> 0 ->
  calculate_similarity v v norm = Ok 1.
Proof.
  intros Hnd Hnorm Hne. rewrite l2_norm_real in Hnorm. injection Hnorm as <-.
  rewrite (calculate_similarity_is_cosine v v Hnd). unfold cosine.
  rewrite (overlap_dot_own v v)
    by (intros k x Hin; exact (dict_get_of_entry _ k x v Hnd Hin)).
  pose proof (sumsq_nonneg (PyDict.values v)) as HS.
  assert (HSpos : 0 < sumsq (PyDict.values v)).
  { destruct (Rle_lt_or_eq_dec _ _ HS) as [|E]; [assumption|].
    exfalso. apply Hne. rewrite <- E. apply sqrt_0. }
  destruct (Req0 (sumsq (PyDict.values v))) eqn:E;
    [apply Req0_true in E; lra|].
  rewrite sqrt_sqrt by exact HS. f_equal. field. lra.
Qed.

(** In exact arithmetic nothing can raise, whatever the arguments. *)
Lemma calculate_similarity_defined (q d : PyDict.t R) (dn : R) :
  exists s, calculate_similarity q d dn = Ok s.
Proof.
  rewrite calculate_similarity_real.
  destruct (PyDict.is_empty q || PyDict.is_empty d || Req0 dn) eqn:E0; [eauto|].
  apply orb_false_iff in E0 as [_ Edn]. apply Req0_false in Edn.
  destruct (Req0 (overlap_dot q d)); [eauto|].
  destruct (Req0 (sqrt (sumsq (PyDict.values q)))) eqn:Eqn; [eauto|].
  apply Req0_false in Eqn.
  destruct (Req0 (sqrt (sumsq (PyDict.values q)) * dn)) eqn:Eprod; [|eauto].
  apply Req0_true in Eprod. exfalso.
  destruct (Rmult_integral _ _ Eprod); contradiction.
Qed.

Lemma calculate_similarity_no_shared_term (q d : PyDict.t R) (dn : R) :
  no_shared_term q d -> calculate_similarity q d dn = Ok 0.
Proof.
  intros H. rewrite calculate_similarity_real.
  rewrite (overlap_dot_no_shared_term q d H).
  assert (E : Req0 0 = true) by (apply Req0_true; reflexivity).
  rewrite E. destruct (PyDict.is_empty q || PyDict.is_empty d || Req0 dn);
    reflexivity.
Qed.

Lemma Rgt0_true (x : R) : Rgt0 x = true <-> 0 < x.
Proof. unfold Rgt0. destruct (Rlt_dec 0 x); split; auto; discriminate. Qed.

(** X12. In exact arithmetic [batch_calculate_similarities] raises nothing;
    it returns a document with a score exactly when the document is among
    the vectors given and [calculate_similarity] gives it that score, above
    0, for the norm found for its id (0 when there is none). A document that
    shares no term with the query is scored 0 and left out. *)
Theorem batch_keeps_the_positive_scores
        (query_vector : PyDict.t R)
        (document_vectors : list (string * PyDict.t R))
        (document_norms : PyDict.t R) :
  exists results,
    batch_calculate_similarities query_vector document_vectors document_norms
    = Ok results
    /\ (forall doc_id score,
          In (doc_id, score) results
          <-> exists doc_vector,
                In (doc_id, doc_vector) document_vectors
                /\ calculate_similarity query_vector doc_vector
                     (norm_for document_norms doc_id) = Ok score
                /\ 0 < score)
    /\ (forall doc_id doc_vector,
          no_shared_term query_vector doc_vector ->
          calculate_similarity query_vector doc_vector
            (norm_for document_norms doc_id) = Ok 0).
Proof.
  induction document_vectors as [|[d v] rest IH].
  - exists []. split; [reflexivity|]. split.
    + intros doc_id score. split; [intros [] | intros [? [[] _]]].
    + intros doc_id doc_vector. apply calculate_similarity_no_shared_term.
  - destruct IH as (results & Hrun & Hiff & Hnone).
    destruct (calculate_similarity_defined query_vector v
                (norm_for document_norms d)) as [s Hs].
    cbn [batch_calculate_similarities].
    change (match PyDict.get d document_norms with Some n => n | None => f0 end)
      with (norm_for document_norms d).
    rewrite Hs. cbn [bind]. rewrite Hrun. cbn [bind fgt0 R_PyFloat].
    eexists. split; [reflexivity|]. split; [|exact Hnone].
    intros doc_id score. destruct (Rgt0 s) eqn:Epos.
    + apply Rgt0_true in Epos. cbn [In]. rewrite Hiff. split.
      * intros [[= <- <-]|(v' & Hin & Hcalc & Hpos)].
        -- exists v. auto.
        -- exists v'. auto.
      * intros (v' & [[= <- <-]|Hin] & Hcalc & Hpos).
        -- left. rewrite Hs in Hcalc. injection Hcalc as <-. reflexivity.
        -- right. exists v'. auto.
    + rewrite Hiff. split.
      * intros (v' & Hin & Hcalc & Hpos). exists v'. cbn [In]. auto.
      * intros (v' & [[= <- <-]|Hin] & Hcalc & Hpos).
        -- exfalso. rewrite Hs in Hcalc. injection Hcalc as <-.
           apply Rgt0_true in Hpos. congruence.
        -- exists v'. auto.
Qed.
End Cosine.

(* ------------------------------------------------------------------ *)
(** ** The result ranker: ties, limits, previews and statistics *)

Section Ranking.
Import ResultRanker.
Open Scope R_scope.

Variable self : ResultRanker.t.
Variable document_store : option DocumentStore.t.

Lemma filter_insert_desc (s : R) (x : string * R) (l : list (string * R)) :
  List.filter (has_score s) (insert_desc x l)
  = if has_score s x then x :: List.filter (has_score s) l
    else List.filter (has_score s) l.
Proof.
  induction l as [|y r IH]; cbn [insert_desc List.filter].
  - destruct (has_score s x); reflexivity.
  - destruct (Rlt_dec (snd x) (snd y)) as [Hlt|Hge]; cbn [List.filter].
    + rewrite IH. destruct (has_score s x) eqn:Ex; [|reflexivity].
      assert (Ey : has_score s y = false).
      { unfold has_score in *. destruct (Req_dec_T (snd x) s); [|discriminate].
        destruct (Req_dec_T (snd y) s); [lra | reflexivity]. }
      rewrite Ey. reflexivity.
    + destruct (has_score s x); reflexivity.
Qed.

Lemma sorted_desc_stable (s : R) (l : list (string * R)) :
  List.filter (has_score s) (sorted_desc l) = List.filter (has_score s) l.
Proof.
  induction l as [|x r IH]; cbn [sorted_desc fold_right List.filter];
    [reflexivity|].
  fold (sorted_desc r). rewrite filter_insert_desc, IH. reflexivity.
Qed.

Lemma format_results_doc_ids (top : list (string * R)) (acc : list entry) :
  List.map doc_id (fold_left (format_result document_store) top acc)
  = (List.map doc_id acc ++ List.map fst top)%list.
Proof.
  revert acc. induction top as [|x r IH]; intros acc; cbn [fold_left List.map].
  - rewrite app_nil_r. reflexivity.
  - destruct (format_result_snoc document_store acc x) as (e & -> & Hd & _).
    rewrite IH, map_app, <- app_assoc. cbn [List.map app]. rewrite Hd.
    reflexivity.
Qed.

(** X13. The documents [rank_results] returns are, in this order, those of
    the kept candidates sorted by descending score and cut by the slice
    [[:max_results]]; candidates of equal score stay in the order in which
    they were given; and a negative [max_results] n does not empty the
    result but cuts the last -n candidates off. *)
Theorem rank_results_order_and_limit (similarities : list (string * R)) :
  let ranked := rank_results self similarities document_store in
  let sorted := ranked_candidates self similarities in
  List.map doc_id (results ranked)
  = List.map fst (slice_to sorted (max_results self))
  /\ (forall s, List.filter (has_score s) sorted
                = List.filter (has_score s) (passing self similarities))
  /\ List.length (results ranked)
     = (if (0 <=? max_results self)%Z
        then Nat.min (Z.to_nat (max_results self))
                     (List.length (passing self similarities))
        else List.length (passing self similarities)
             - Z.to_nat (- max_results self))%nat.
Proof.
  intros ranked sorted. split; [|split].
  - unfold ranked, rank_results. cbn [results].
    rewrite format_results_doc_ids. reflexivity.
  - intros s. apply sorted_desc_stable.
  - unfold ranked, rank_results. cbn [results].
    rewrite format_results_length. cbn [List.length Nat.add].
    fold (passing self similarities).
    unfold slice_to.
    destruct (0 <=? max_results self)%Z eqn:E;
      rewrite length_firstn,
        ?(Permutation_length (sorted_desc_perm (passing self similarities)));
      [reflexivity|].
    apply Z.leb_gt in E. lia.
Qed.

Lemma append_length (a b : string) :
  String.length (a ++ b) = (String.length a + String.length b)%nat.
Proof. induction a as [|c r IH]; simpl; [reflexivity|]. rewrite IH. reflexivity. Qed.

Lemma substring_prefix_length (n : nat) (s : string) :
  (n <= String.length s)%nat -> String.length (String.substring 0 n s) = n.
Proof.
  revert s. induction n as [|n IH]; intros s H.
  - destruct s; reflexivity.
  - destruct s as [|c r]; simpl in *; [lia|]. rewrite IH by lia. reflexivity.
Qed.

Lemma substring_prefix_twice (n m : nat) (s : string) :
  (n <= m)%nat ->
  String.substring 0 n (String.substring 0 m s) = String.substring 0 n s.
Proof.
  revert m s. induction n as [|n IH]; intros m s H.
  - destruct (String.substring 0 m s), s; reflexivity.
  - destruct m as [|m]; [lia|]. destruct s as [|c r]; [reflexivity|].
    simpl. rewrite IH by lia. reflexivity.
Qed.

Lemma substring_prefix_get (i m : nat) (s : string) :
  (i < m)%nat -> String.get i (String.substring 0 m s) = String.get i s.
Proof.
  revert m s. induction i as [|i IH]; intros [|m] [|c r] H; simpl; try lia;
    try reflexivity.
  apply IH. lia.
Qed.

Lemma rfind_space_found (s : string) (i : nat) (last : option nat) (j : nat) :
  rfind_space_from i last s = Some j ->
  last = Some j
  \/ ((i <= j < i + String.length s)%nat
      /\ String.get (j - i) s = Some " "%char).
Proof.
  revert i last. induction s as [|c r IH]; intros i last H; simpl in H.
  - left. exact H.
  - destruct (IH _ _ H) as [Hlast|[Hrange Hget]].
    + destruct (Ascii.eqb c " ") eqn:E; [|left; exact Hlast].
      injection Hlast as <-. right. split; [simpl; lia|].
      rewrite Nat.sub_diag. simpl. apply Ascii.eqb_eq in E. subst. reflexivity.
    + right. split; [simpl; lia|].
      replace (j - i)%nat with (S (j - S i)) by lia. exact Hget.
Qed.

Lemma rfind_space_some (s : string) (i j0 : nat) :
  exists j, rfind_space_from i (Some j0) s = Some j.
Proof.
  revert i j0. induction s as [|c r IH]; intros i j0; simpl; [eauto|].
  destruct (Ascii.eqb c " "); apply IH.
Qed.

Lemma rfind_space_is_last (s : string) (i : nat) (last : option nat) (j : nat) :
  rfind_space_from i last s = Some j ->
  (forall j0, last = Some j0 -> (j0 < i)%nat) ->
  forall k, (j < i + k)%nat -> String.get k s <> Some " "%char.
Proof.
  revert i last. induction s as [|c r IH]; intros i last H Hlast k Hk.
  - destruct k; discriminate.
  - simpl in H. destruct k as [|k]; simpl.
    + intros [= ->]. rewrite Ascii.eqb_refl in H.
      apply rfind_space_found in H as [[= <-]|[Hrange _]]; lia.
    + apply (IH (S i) _ H); [|lia].
      intros j0 Hj0. destruct (Ascii.eqb c " ").
      * injection Hj0 as <-. lia.
      * specialize (Hlast _ Hj0). lia.
Qed.

Lemma rfind_space_none (s : string) (i : nat) :
  rfind_space_from i None s = None ->
  forall k, String.get k s <> Some " "%char.
Proof.
  revert i. induction s as [|c r IH]; intros i H k.
  - destruct k; discriminate.
  - simpl in H. destruct (Ascii.eqb c " ") eqn:E.
    + destruct (rfind_space_some r (S i) i) as [j Hj]. congruence.
    + destruct k as [|k]; simpl.
      * intros [= ->]. rewrite Ascii.eqb_refl in E. discriminate.
      * apply (IH (S i) H).
Qed.

(** X14. A preview is the content itself when the content has at most 200
    characters. Otherwise it is the first n characters of the content
    followed by three dots, where n is the position of the last space among
    the first 200 characters when that position is above 160, and 200
    when there is no space there: n is between 161 and 200, at n < 200 the
    content has a space at position n and none between n and 200, and at
    n = 200 it has no space at the positions 161 to 199. *)
Theorem create_preview_bounds (content : string) :
  ((String.length content <= 200)%nat -> _create_preview content = content)
  /\ ((200 < String.length content)%nat ->
      exists n,
        (161 <= n <= 200)%nat
        /\ _create_preview content = String.substring 0 n content ++ "..."
        /\ String.length (_create_preview content) = (n + 3)%nat
        /\ ((n < 200)%nat -> String.get n content = Some " "%char)
        /\ (forall i,
              (160 < i < 200)%nat -> (n = 200 \/ n < i)%nat ->
              String.get i content <> Some " "%char)).
Proof.
  unfold _create_preview. split.
  - intros Hlen. destruct content as [|c r]; [reflexivity|].
    cbn [PyStr.is_empty].
    destruct (Nat.leb_spec (String.length (String c r)) 200); [reflexivity | lia].
  - intros Hlen. destruct content as [|c r]; [simpl in Hlen; lia|].
    cbn [PyStr.is_empty]. set (content := String c r) in *.
    destruct (Nat.leb_spec (String.length content) 200) as [|_]; [lia|].
    assert (Hcut : forall n, (n <= 200)%nat ->
               String.length (String.substring 0 n content ++ "...") = (n + 3)%nat).
    { intros n Hn. rewrite append_length, substring_prefix_length by lia.
      reflexivity. }
    destruct (rfind_space_from 0 None (String.substring 0 200 content))
      as [j|] eqn:Hfind.
    + assert (Hafter : forall i, (i < 200)%nat -> (j < i)%nat ->
                         String.get i content <> Some " "%char).
      { intros i Hi Hji. rewrite <- (substring_prefix_get i 200 content Hi).
        apply (rfind_space_is_last _ 0 None j Hfind); [discriminate | lia]. }
      destruct (Nat.ltb_spec 160 j) as [Hj|Hj].
      * apply rfind_space_found in Hfind as [Hlast|[Hrange Hget]];
          [discriminate|].
        rewrite substring_prefix_length in Hrange by lia.
        rewrite Nat.sub_0_r in Hget.
        rewrite substring_prefix_get in Hget by lia.
        exists j. rewrite substring_prefix_twice by lia.
        split; [lia|]. split; [reflexivity|]. split; [apply Hcut; lia|].
        split; [intros _; exact Hget|].
        intros i Hi [Hn|Hn]; [lia|]. apply Hafter; lia.
      * exists 200%nat. split; [lia|]. split; [reflexivity|].
        split; [apply Hcut; lia|]. split; [lia|].
        intros i Hi _. apply Hafter; lia.
    + exists 200%nat. split; [lia|]. split; [reflexivity|].
      split; [apply Hcut; lia|]. split; [lia|].
      intros i Hi _. rewrite <- (substring_prefix_get i 200 content) by lia.
      exact (rfind_space_none _ 0 Hfind i).
Qed.

Lemma max_score_bounds (rest : list R) (first : R) :
  first <= max_score first rest
  /\ Forall (fun y => y <= max_score first rest) rest
  /\ In (max_score first rest) (first :: rest).
Proof.
  unfold max_score. revert first.
  induction rest as [|y r IH]; intros first; cbn [fold_left].
  - split; [lra|]. split; [constructor | left; reflexivity].
  - destruct (Rlt_dec first y) as [Hlt|Hge].
    + destruct (IH y) as (H1 & H2 & H3).
      split; [lra|]. split; [constructor; assumption|].
      right. exact H3.
    + destruct (IH first) as (H1 & H2 & H3).
      split; [exact H1|]. split; [constructor; [lra | exact H2]|].
      destruct H3 as [H3|H3]; [left; exact H3 | right; right; exact H3].
Qed.

Lemma min_score_bounds (rest : list R) (first : R) :
  min_score first rest <= first
  /\ Forall (fun y => min_score first rest <= y) rest
  /\ In (min_score first rest) (first :: rest).
Proof.
  unfold min_score. revert first.
  induction rest as [|y r IH]; intros first; cbn [fold_left].
  - split; [lra|]. split; [constructor | left; reflexivity].
  - destruct (Rlt_dec y first) as [Hlt|Hge].
    + destruct (IH y) as (H1 & H2 & H3).
      split; [lra|]. split; [constructor; assumption|].
      right. exact H3.
    + destruct (IH first) as (H1 & H2 & H3).
      split; [exact H1|]. split; [constructor; [lra | exact H2]|].
      destruct H3 as [H3|H3]; [left; exact H3 | right; right; exact H3].
Qed.

Lemma sum_scores_bounds (lo hi : R) (scores : list R) (acc : R) :
  Forall (fun y => lo <= y <= hi) scores ->
  acc + INR (List.length scores) * lo <= fold_left Rplus scores acc
  <= acc + INR (List.length scores) * hi.
Proof.
  revert acc. induction scores as [|y r IH]; intros acc H.
  - simpl. lra.
  - inversion H as [|? ? Hy Hr]; subst. specialize (IH (acc + y) Hr).
    cbn [fold_left]. change (List.length (y :: r)) with (S (List.length r)).
    rewrite S_INR. lra.
Qed.

Lemma filter_scores_length (l : list (string * R)) :
  List.length
    (List.filter (fun s => Rgeb s (min_similarity_score self)) (List.map snd l))
  = List.length (passing self l).
Proof.
  unfold passing. induction l as [|x r IH]; cbn [List.map List.filter];
    [reflexivity|].
  destruct (Rgeb (snd x) (min_similarity_score self)); cbn [List.length];
    rewrite IH; reflexivity.
Qed.

(** X15. With the scores taken as real numbers (exact arithmetic),
    [get_ranking_stats] raises nothing; for a list with a candidate the
    minimum and the maximum it reports are scores of the list that bound
    every score, the average lies between them, and [above_threshold] counts
    the candidates that [rank_results] keeps; for the empty list everything
    is 0 and there is no [above_threshold]. The bound on the average is one
    of exact arithmetic only: in binary64 the average of three scores of 0.1
    is above 0.1. *)
Theorem ranking_stats_bounds (similarities : list (string * R)) :
  (exists stats,
     get_ranking_stats self similarities = Ok stats
     /\ stats_total_candidates stats = List.length similarities
     /\ (similarities = [] ->
         stats = mk_ranking_stats 0 0 0 0 None)
     /\ (similarities <> [] ->
         min_similarity stats <= avg_similarity stats <= max_similarity stats
         /\ In (min_similarity stats) (List.map snd similarities)
         /\ In (max_similarity stats) (List.map snd similarities)
         /\ Forall (fun x => min_similarity stats <= snd x <= max_similarity stats)
                   similarities
         /\ above_threshold stats
            = Some (List.length (passing self similarities))))
  /\ (exists average : float,
        mean three_tenths 3%float = Ok average
        /\ PrimFloat.ltb tenth average = true).
Proof.
  split;
    [|exists ((0 + tenth + tenth + tenth) / 3)%float;
      split; vm_compute; reflexivity].
  unfold get_ranking_stats.
  destruct similarities as [|[d first] rest].
  { exists (mk_ranking_stats 0 0 0 0 None).
    split; [reflexivity|]. split; [reflexivity|]. split; [reflexivity|].
    intros Hne. contradiction. }
  cbn [List.map snd].
  set (scores := first :: List.map snd rest).
  assert (Hlen : INR (List.length scores) <> 0).
  { apply not_0_INR. discriminate. }
  unfold mean. cbn [fdiv fadd f0 R_PyFloat].
  destruct (Req0 (INR (List.length scores))) eqn:E;
    [apply Req0_true in E; contradiction|].
  cbn [bind]. eexists. split; [reflexivity|].
  cbn [stats_total_candidates avg_similarity max_similarity min_similarity
       above_threshold].
  split; [reflexivity|]. split; [discriminate|]. intros _.
  destruct (max_score_bounds (List.map snd rest) first) as (Hmax1 & Hmax2 & Hmax3).
  destruct (min_score_bounds (List.map snd rest) first) as (Hmin1 & Hmin2 & Hmin3).
  set (hi := max_score first (List.map snd rest)) in *.
  set (lo := min_score first (List.map snd rest)) in *.
  assert (Hall : Forall (fun y => lo <= y <= hi) scores).
  { constructor; [lra|]. rewrite Forall_forall in *. intros y Hy.
    split; [apply Hmin2, Hy | apply Hmax2, Hy]. }
  split.
  - pose proof (sum_scores_bounds lo hi scores 0 Hall) as Hsum.
    assert (Hpos : 0 < INR (List.length scores)).
    { apply lt_0_INR. simpl. lia. }
    split.
    + apply (Rmult_le_reg_r (INR (List.length scores))); [exact Hpos|].
      unfold Rdiv. rewrite Rmult_assoc, Rinv_l by exact Hlen. lra.
    + apply (Rmult_le_reg_r (INR (List.length scores))); [exact Hpos|].
      unfold Rdiv. rewrite Rmult_assoc, Rinv_l by exact Hlen. lra.
  - split; [exact Hmin3|]. split; [exact Hmax3|]. split.
    + constructor; [cbn [snd]; lra|].
      inversion Hall as [|? ? _ Hrest]; subst.
      rewrite Forall_forall in *. intros x Hx. apply Hrest.
      apply in_map, Hx.
    + f_equal. change scores with (List.map snd ((d, first) :: rest)).
      apply filter_scores_length.
Qed.
End Ranking.

(* ------------------------------------------------------------------ *)
(** ** The document store *)

Section Store.
Import DocumentStore.

Lemma dict_get_del (V : Type) (k k' : string) (d : PyDict.t V) :
  PyDict.get k' (PyDict.del k d)
  = if String.eqb k k' then None else PyDict.get k' d.
Proof.
  unfold PyDict.del. induction d as [|[k0 v0] r IH]; cbn [List.filter fst].
  - destruct (String.eqb k k'); reflexivity.
  - destruct (String.eqb k0 k) eqn:E0; cbn [negb PyDict.get].
    + apply String.eqb_eq in E0. subst k0. rewrite IH.
      destruct (String.eqb k k'); reflexivity.
    + rewrite IH. destruct (String.eqb k0 k') eqn:E1; [|reflexivity].
      apply String.eqb_eq in E1. subst k0.
      rewrite String.eqb_sym, E0. reflexivity.
Qed.

Lemma dict_del_absent (V : Type) (k : string) (d : PyDict.t V) :
  ~ In k (PyDict.keys d) -> PyDict.del k d = d.
Proof.
  unfold PyDict.del. induction d as [|[k0 v0] r IH]; cbn [List.filter fst];
    intros Hnotin; [reflexivity|].
  cbn [PyDict.keys List.map fst In] in Hnotin.
  destruct (String.eqb k0 k) eqn:E.
  - apply String.eqb_eq in E. tauto.
  - cbn [negb]. rewrite IH by tauto. reflexivity.
Qed.

Lemma dict_del_set_fresh (V : Type) (k : string) (v : V) (d : PyDict.t V) :
  ~ In k (PyDict.keys d) -> PyDict.del k (PyDict.set k v d) = d.
Proof.
  intros Hnotin.
  assert (Hmem : PyDict.mem k d = false).
  { destruct (PyDict.mem k d) eqn:E; [|reflexivity].
    apply dict_mem_in_keys in E. contradiction. }
  rewrite (dict_set_fresh _ _ _ _ Hmem). unfold PyDict.del.
  rewrite filter_app. cbn [List.filter fst]. rewrite String.eqb_refl.
  cbn [negb]. rewrite app_nil_r. apply (dict_del_absent _ k d Hnotin).
Qed.

(** X16. [add_document] stores the content under the id, also when writing
    the file fails and it returns [False]: the content is then what
    [get_document_content] returns for the id, the other documents are as
    before, and every stored document still has its metadata. *)
Theorem add_document_then_get (store : t) (doc_id content : string)
        (fs_ok : bool) :
  let '(ok, store') := add_document store doc_id content fs_ok in
  ok = fs_ok
  /\ get_document_content store' doc_id = Some content
  /\ (forall other,
        other <> doc_id ->
        get_document_content store' other = get_document_content store other)
  /\ (store_wf store -> store_wf store').
Proof.
  unfold add_document, get_document_content. cbn [documents metadata].
  split; [reflexivity|]. split; [apply dict_get_updated|]. split.
  - intros other Hne. apply dict_get_elsewhere. congruence.
  - intros Hwf d. cbn [documents metadata].
    rewrite !dict_in_keys_set. specialize (Hwf d). tauto.
Qed.

(** X17. On a store whose documents all have metadata, [remove_document]
    returns [False] and changes nothing for an id that is not stored; for a
    stored id it returns whether the file operations went through, and in
    both cases the document is gone from the store afterwards, the other
    documents are as before, and every stored document still has its
    metadata. *)
Theorem remove_document_effect (store : t) (doc_id : string) (fs_ok : bool) :
  store_wf store ->
  let '(ok, store') := remove_document store doc_id fs_ok in
  store_wf store'
  /\ (PyDict.mem doc_id (documents store) = false ->
      ok = false /\ store' = store)
  /\ (PyDict.mem doc_id (documents store) = true ->
      ok = fs_ok
      /\ get_document_content store' doc_id = None
      /\ forall other,
           other <> doc_id ->
           get_document_content store' other = get_document_content store other).
Proof.
  intros Hwf. unfold remove_document.
  destruct (PyDict.mem doc_id (documents store)) eqn:Hmem; cbn [negb].
  - assert (Hmeta : PyDict.mem doc_id (metadata store) = true).
    { apply dict_mem_in_keys, Hwf, dict_mem_in_keys, Hmem. }
    cbn [documents metadata]. rewrite Hmeta. cbn [negb].
    split; [|split; [discriminate|]].
    + intros d. cbn [documents metadata]. rewrite !dict_in_keys_del.
      specialize (Hwf d). tauto.
    + intros _. unfold get_document_content. cbn [documents].
      split; [reflexivity|]. split.
      * rewrite dict_get_del, String.eqb_refl. reflexivity.
      * intros other Hne. rewrite dict_get_del.
        destruct (String.eqb doc_id other) eqn:E; [|reflexivity].
        apply String.eqb_eq in E. congruence.
  - split; [exact Hwf|]. split; [auto | discriminate].
Qed.

(** X18. Adding a document under an id the store does not know and removing
    it again gives the store back as it was. *)
Theorem add_then_remove_document (store : t) (doc_id content : string)
        (fs_add fs_remove : bool) :
  ~ In doc_id (PyDict.keys (documents store)) ->
  ~ In doc_id (PyDict.keys (metadata store)) ->
  remove_document (snd (add_document store doc_id content fs_add))
                  doc_id fs_remove
  = (fs_remove, store).
Proof.
  intros Hdocs Hmeta. unfold add_document, remove_document.
  cbn [snd documents metadata]. unfold PyDict.mem.
  rewrite !dict_get_updated. cbn [negb].
  rewrite (dict_del_set_fresh _ _ _ _ Hdocs), (dict_del_set_fresh _ _ _ _ Hmeta).
  destruct store; reflexivity.
Qed.
End Store.

(* ------------------------------------------------------------------ *)
(** ** The engine: the index and the store *)

Section EngineState.

Lemma dict_get_app (V : Type) (k : string) (a b : PyDict.t V) :
  PyDict.get k (a ++ b)%list
  = match PyDict.get k a with Some v => Some v | None => PyDict.get k b end.
Proof.
  induction a as [|[k0 v0] r IH]; cbn [app PyDict.get]; [reflexivity|].
  destruct (String.eqb k0 k); [reflexivity | exact IH].
Qed.

Lemma dict_get_rev (V : Type) (k : string) (d : PyDict.t V) :
  NoDup (PyDict.keys d) -> PyDict.get k (rev d) = PyDict.get k d.
Proof.
  intros Hnd.
  assert (Hnd' : NoDup (PyDict.keys (rev d))).
  { unfold PyDict.keys. rewrite map_rev. apply NoDup_rev. exact Hnd. }
  destruct (PyDict.get k d) as [v|] eqn:Hget.
  - apply dict_get_of_entry; [exact Hnd'|].
    apply in_rev. rewrite rev_involutive. apply dict_entry_of_get, Hget.
  - destruct (PyDict.get k (rev d)) as [v|] eqn:Hrev; [|reflexivity].
    apply dict_entry_of_get in Hrev. apply in_rev in Hrev.
    rewrite (dict_get_of_entry _ _ _ _ Hnd Hrev) in Hget. discriminate.
Qed.

Lemma store_add_document_proper (store : DocumentStore.t)
      (doc_id content : string) (fs_ok : bool) :
  proper_store store ->
  proper_store (snd (DocumentStore.add_document store doc_id content fs_ok)).
Proof.
  intros [Hnd Hwf]. unfold DocumentStore.add_document. cbn [snd]. split.
  - cbn [DocumentStore.documents]. apply dict_keys_set_nodup, Hnd.
  - intros d. cbn [DocumentStore.documents DocumentStore.metadata].
    rewrite !dict_in_keys_set. specialize (Hwf d). tauto.
Qed.

Lemma store_remove_document_proper (store : DocumentStore.t)
      (doc_id : string) (fs_ok : bool) :
  proper_store store ->
  proper_store (snd (DocumentStore.remove_document store doc_id fs_ok)).
Proof.
  intros [Hnd Hwf]. unfold DocumentStore.remove_document.
  destruct (PyDict.mem doc_id (DocumentStore.documents store)) eqn:Hmem;
    cbn [negb]; [|split; assumption].
  assert (Hmeta : PyDict.mem doc_id (DocumentStore.metadata store) = true).
  { apply dict_mem_in_keys, Hwf, dict_mem_in_keys, Hmem. }
  cbn [DocumentStore.documents DocumentStore.metadata]. rewrite Hmeta.
  cbn [negb snd]. split.
  - cbn [DocumentStore.documents]. unfold PyDict.del, PyDict.keys.
    clear - Hnd. unfold PyDict.keys in Hnd.
    induction (DocumentStore.documents store) as [|[k v] r IH];
      cbn [List.filter List.map fst]; [constructor|].
    cbn [List.map fst] in Hnd. inversion Hnd as [|? ? Hnotin Hnd']; subst.
    destruct (negb (String.eqb k doc_id)); [|exact (IH Hnd')].
    cbn [List.map fst]. constructor; [|exact (IH Hnd')].
    intros Hin. apply Hnotin. apply in_map_iff in Hin as [x [Hx Hin]].
    apply filter_In in Hin as [Hin _]. apply in_map_iff. eauto.
  - intros d. cbn [DocumentStore.documents DocumentStore.metadata].
    rewrite !dict_in_keys_del. specialize (Hwf d). tauto.
Qed.

Lemma store_add_documents (docs : PyDict.t string) (fs_ok : bool)
      (store : DocumentStore.t) :
  let store' :=
    fold_left
      (fun store doc =>
         snd (DocumentStore.add_document store (fst doc) (snd doc) fs_ok))
      docs store in
  (proper_store store -> proper_store store')
  /\ forall doc_id,
       DocumentStore.get_document_content store' doc_id
       = match PyDict.get doc_id (rev docs) with
         | Some text => Some text
         | None => DocumentStore.get_document_content store doc_id
         end.
Proof.
  revert store. induction docs as [|[d1 text] r IH]; intros store;
    cbn [fold_left].
  - split; [auto | reflexivity].
  - cbn [fst snd].
    destruct (IH (snd (DocumentStore.add_document store d1 text fs_ok)))
      as [Hproper Hget].
    split.
    + intros H. apply Hproper, store_add_document_proper, H.
    + intros d. rewrite Hget. cbn [rev]. rewrite dict_get_app.
      destruct (PyDict.get d (rev r)); [reflexivity|].
      unfold DocumentStore.get_document_content, DocumentStore.add_document.
      cbn [snd DocumentStore.documents PyDict.get].
      destruct (String.eqb d1 d) eqn:E.
      * apply String.eqb_eq in E. subst d1. apply dict_get_updated.
      * apply String.eqb_neq in E. apply dict_get_elsewhere, E.
Qed.

Lemma index_add_document_list (docs : PyDict.t string) (self : TFIDFIndexer.t) :
  let self' := fold_left TFIDFIndexer.add_document docs self in
  TFIDFIndexer.preprocessor self' = TFIDFIndexer.preprocessor self
  /\ forall doc_id,
       PyDict.get doc_id (TFIDFIndexer.documents self')
       = match PyDict.get doc_id (rev docs) with
         | Some text =>
             Some (TextPreprocessor.preprocess (TFIDFIndexer.preprocessor self)
                                               text)
         | None => PyDict.get doc_id (TFIDFIndexer.documents self)
         end.
Proof.
  revert self. induction docs as [|[d1 text] r IH]; intros self;
    cbn [fold_left].
  - split; reflexivity.
  - destruct (IH (TFIDFIndexer.add_document self (d1, text))) as [Hpre Hget].
    destruct (add_document_effect self d1 text) as (Hp & Hdocs & _).
    cbv zeta in Hp, Hdocs. split; [rewrite Hpre; exact Hp|].
    intros d. rewrite Hget, Hp, Hdocs. cbn [rev]. rewrite dict_get_app.
    destruct (PyDict.get d (rev r)); [reflexivity|].
    cbn [PyDict.get]. destruct (String.eqb d1 d) eqn:E.
    + apply String.eqb_eq in E. subst d1. apply dict_get_updated.
    + apply String.eqb_neq in E. apply dict_get_elsewhere, E.
Qed.

Lemma engine_add_documents_ok (self : QuestifySearchEngine.t)
      (docs : PyDict.t string) (fs_ok : bool) :
  TFIDFIndexer.preprocessor (QuestifySearchEngine.indexer self)
  = QuestifySearchEngine.preprocessor self ->
  proper_store (QuestifySearchEngine.document_store self) ->
  reachable (QuestifySearchEngine.indexer self) ->
  (forall doc_id,
     PyDict.get doc_id (rev docs) = None ->
     PyDict.get doc_id
       (TFIDFIndexer.documents (QuestifySearchEngine.indexer self))
     = option_map
         (TextPreprocessor.preprocess (QuestifySearchEngine.preprocessor self))
         (DocumentStore.get_document_content
            (QuestifySearchEngine.document_store self) doc_id)) ->
  engine_ok (QuestifySearchEngine.add_documents self docs fs_ok).
Proof.
  intros Hpre Hstore Hreach Hrest.
  destruct (store_add_documents docs fs_ok
              (QuestifySearchEngine.document_store self)) as [Hproper Hcontent].
  destruct (index_add_document_list docs (QuestifySearchEngine.indexer self))
    as [Hpre' Hget].
  cbv zeta in Hproper, Hcontent, Hpre', Hget.
  unfold engine_ok, in_sync, QuestifySearchEngine.add_documents,
    TFIDFIndexer.add_documents.
  cbn [QuestifySearchEngine.indexer QuestifySearchEngine.document_store
       QuestifySearchEngine.preprocessor QuestifySearchEngine.with_indexer
       QuestifySearchEngine.with_document_store
       TFIDFIndexer.with_total_documents TFIDFIndexer.preprocessor
       TFIDFIndexer.documents].
  split; [split|split].
  - rewrite Hpre'. exact Hpre.
  - intros d. rewrite Hget, Hcontent, Hpre.
    destruct (PyDict.get d (rev docs)) eqn:E; [reflexivity|].
    apply Hrest, E.
  - apply Hproper, Hstore.
  - apply (reachable_add (QuestifySearchEngine.indexer self) docs Hreach).
Qed.

Lemma engine_build_index_ok (self self' : QuestifySearchEngine.t) :
  engine_ok self -> QuestifySearchEngine.build_index self = Ok self' ->
  engine_ok self'.
Proof.
  intros ([Hpre Hdocs] & Hstore & Hreach) Hrun.
  unfold QuestifySearchEngine.build_index in Hrun.
  destruct (TFIDFIndexer.build_index (QuestifySearchEngine.indexer self))
    as [idx|ex] eqn:Hbuild; [|discriminate].
  cbn [bind] in Hrun. injection Hrun as <-.
  destruct (build_index_defined _ (reachable_consistent _ Hreach))
    as (idx' & Hrun' & (Hp & Hd & _) & _).
  rewrite Hbuild in Hrun'. injection Hrun' as <-.
  unfold engine_ok, in_sync.
  cbn [QuestifySearchEngine.indexer QuestifySearchEngine.document_store
       QuestifySearchEngine.preprocessor QuestifySearchEngine.with_indexer].
  rewrite Hp, Hd. split; [split; assumption|]. split; [exact Hstore|].
  exact (reachable_build _ _ Hreach Hbuild).
Qed.

Lemma dict_is_empty_nil (V : Type) (d : PyDict.t V) :
  PyDict.is_empty d = true -> d = [].
Proof. destruct d; [reflexivity | discriminate]. Qed.

(** An engine whose index is made anew from the documents of its store. *)
Lemma engine_reindexed_ok (self : QuestifySearchEngine.t) :
  proper_store (QuestifySearchEngine.document_store self) ->
  engine_ok
    (QuestifySearchEngine.with_indexer self
       (TFIDFIndexer.add_documents
          (TFIDFIndexer.init (QuestifySearchEngine.preprocessor self))
          (DocumentStore.documents (QuestifySearchEngine.document_store self)))).
Proof.
  intros Hstore.
  set (docs := DocumentStore.documents (QuestifySearchEngine.document_store self)).
  destruct (index_add_document_list docs
              (TFIDFIndexer.init (QuestifySearchEngine.preprocessor self)))
    as [Hpre Hget].
  cbv zeta in Hpre, Hget.
  unfold engine_ok, in_sync, TFIDFIndexer.add_documents.
  cbn [QuestifySearchEngine.indexer QuestifySearchEngine.document_store
       QuestifySearchEngine.preprocessor QuestifySearchEngine.with_indexer
       TFIDFIndexer.with_total_documents TFIDFIndexer.preprocessor
       TFIDFIndexer.documents].
  split; [split|split].
  - rewrite Hpre. reflexivity.
  - intros d. rewrite Hget. unfold DocumentStore.get_document_content.
    fold docs. rewrite (dict_get_rev _ d docs (proj1 Hstore)).
    cbn [TFIDFIndexer.init TFIDFIndexer.preprocessor TFIDFIndexer.documents
         PyDict.get].
    destruct (PyDict.get d docs); reflexivity.
  - exact Hstore.
  - apply (reachable_add _ docs), reachable_init.
Qed.

Lemma engine_reachable_ok (self : QuestifySearchEngine.t) :
  engine_reachable self -> engine_ok self.
Proof.
  induction 1 as [rs mtl mr mss stored fs self Hstored Hinit
                 | self docs fs _ IH
                 | self self' _ IH Hbuild
                 | self self' doc_id success _ IH Hremove].
  - unfold QuestifySearchEngine.init,
      QuestifySearchEngine.load_documents_from_store in Hinit.
    cbn [QuestifySearchEngine.document_store] in Hinit.
    unfold DocumentStore.get_all_documents in Hinit.
    destruct (PyDict.is_empty (DocumentStore.documents stored)) eqn:Hempty.
    + injection Hinit as <-. apply dict_is_empty_nil in Hempty.
      unfold engine_ok, in_sync.
      cbn [QuestifySearchEngine.indexer QuestifySearchEngine.document_store
           QuestifySearchEngine.preprocessor TFIDFIndexer.init
           TFIDFIndexer.preprocessor TFIDFIndexer.documents].
      split; [split; [reflexivity|]|split; [exact Hstored | apply reachable_init]].
      intros d. unfold DocumentStore.get_document_content. rewrite Hempty.
      reflexivity.
    + refine (engine_build_index_ok _ _ _ Hinit).
      apply engine_add_documents_ok;
        [reflexivity | exact Hstored | apply reachable_init |].
      intros d Hd.
      cbn [QuestifySearchEngine.indexer QuestifySearchEngine.document_store
           QuestifySearchEngine.preprocessor TFIDFIndexer.init
           TFIDFIndexer.documents PyDict.get].
      unfold DocumentStore.get_document_content.
      rewrite (dict_get_rev _ d _ (proj1 Hstored)) in Hd. rewrite Hd.
      reflexivity.
  - destruct IH as ([Hpre Hdocs] & Hstore & Hreach).
    apply engine_add_documents_ok; auto.
  - exact (engine_build_index_ok _ _ IH Hbuild).
  - destruct IH as (Hsync & Hstore & Hreach).
    unfold QuestifySearchEngine.remove_document in Hremove.
    pose proof (store_remove_document_proper _ doc_id true Hstore) as Hstore'.
    destruct (DocumentStore.remove_document
                (QuestifySearchEngine.document_store self) doc_id true)
      as [ok store'] eqn:Hstep.
    cbn [snd] in Hstore'. destruct ok.
    + cbn [QuestifySearchEngine.document_store
           QuestifySearchEngine.with_document_store
           QuestifySearchEngine.with_indexer QuestifySearchEngine.indexer
           QuestifySearchEngine.preprocessor] in Hremove.
      unfold DocumentStore.get_all_documents in Hremove.
      pose proof (engine_reindexed_ok
                    (QuestifySearchEngine.with_document_store self store')
                    Hstore') as Hre.
      cbn [QuestifySearchEngine.document_store
           QuestifySearchEngine.with_document_store
           QuestifySearchEngine.with_indexer QuestifySearchEngine.indexer
           QuestifySearchEngine.preprocessor] in Hre.
      destruct (PyDict.is_empty (DocumentStore.documents store')) eqn:Hempty.
      * injection Hremove as _ <-. apply dict_is_empty_nil in Hempty.
        rewrite Hempty in Hre. exact Hre.
      * destruct (QuestifySearchEngine.build_index _) as [built_engine|ex]
          eqn:Hbuild in Hremove; [|discriminate].
        cbn [bind] in Hremove. injection Hremove as _ <-.
        exact (engine_build_index_ok _ _ Hre Hbuild).
    + injection Hremove as _ <-.
      assert (Hsame : store' = QuestifySearchEngine.document_store self).
      { unfold DocumentStore.remove_document in Hstep.
        destruct (PyDict.mem doc_id _) eqn:Hmem in Hstep; cbn [negb] in Hstep;
          [|injection Hstep as <-; reflexivity].
        assert (Hmeta : PyDict.mem doc_id
                          (DocumentStore.metadata
                             (QuestifySearchEngine.document_store self)) = true).
        { apply dict_mem_in_keys, (proj2 Hstore), dict_mem_in_keys, Hmem. }
        cbn [DocumentStore.documents DocumentStore.metadata] in Hstep.
        rewrite Hmeta in Hstep. discriminate. }
      subst store'. destruct self. exact (conj Hsync (conj Hstore Hreach)).
Qed.

(** X19. The index follows the store: in every engine a caller can bring
    about from a proper store, with removals whose file operations go
    through, the documents of the index are the documents of the store, each
    with the tokens [preprocess] makes of its stored content; the store
    still holds every id once, with its metadata. *)
Theorem index_follows_store (self : QuestifySearchEngine.t) :
  engine_reachable self ->
  in_sync self /\ proper_store (QuestifySearchEngine.document_store self).
Proof.
  intros H. destruct (engine_reachable_ok self H) as (Hsync & Hstore & _).
  split; assumption.
Qed.
End EngineState.

(* ------------------------------------------------------------------ *)
(** ** The engine: searching *)

Section Searching.
Open Scope R_scope.

Lemma process_query_valid (qp : QueryProcessor.t) (raw_query : string) :
  QueryProcessor.process_query qp raw_query <> [] ->
  QueryProcessor.validate_query (QueryProcessor.process_query qp raw_query)
  = true.
Proof.
  pose proof (process_query_tokens qp raw_query) as Hwf.
  destruct (QueryProcessor.process_query qp raw_query) as [|t1 r];
    [intros H; contradiction|]. intros _.
  unfold QueryProcessor.validate_query.
  inversion Hwf as [|? ? [Hne Hchars] _]; subst.
  cbn [List.filter].
  destruct (PyStr.strip t1) eqn:Hstrip;
    [exfalso; exact (strip_keeps_word t1 Hne Hchars Hstrip)|].
  reflexivity.
Qed.

Lemma lstrip_whitespace_only (s : string) :
  whitespace_only s -> PyStr.lstrip s = "".
Proof.
  unfold whitespace_only. induction s as [|c r IH]; simpl; [reflexivity|].
  intros H. apply andb_true_iff in H as [Hc Hr]. rewrite Hc. exact (IH Hr).
Qed.

Lemma process_query_whitespace_only (qp : QueryProcessor.t) (query : string) :
  whitespace_only query -> QueryProcessor.process_query qp query = [].
Proof.
  intros H. unfold QueryProcessor.process_query, PyStr.strip.
  rewrite (lstrip_whitespace_only query H). cbn [PyStr.rstrip PyStr.is_empty].
  rewrite orb_true_r. reflexivity.
Qed.

Lemma batch_scores (query_vector : PyDict.t R)
      (document_vectors : list (string * PyDict.t R))
      (document_norms : PyDict.t R) :
  exists results,
    CosineSimilarityCalculator.batch_calculate_similarities
      query_vector document_vectors document_norms = Ok results
    /\ (List.length results <= List.length document_vectors)%nat
    /\ forall doc_id score,
         In (doc_id, score) results ->
         exists doc_vector,
           In (doc_id, doc_vector) document_vectors
           /\ CosineSimilarityCalculator.calculate_similarity
                query_vector doc_vector (norm_for document_norms doc_id)
              = Ok score
           /\ 0 < score.
Proof.
  induction document_vectors as [|[d v] rest IH].
  - exists []. split; [reflexivity|]. split; [apply Nat.le_refl|].
    intros doc_id score [].
  - destruct IH as (results & Hrun & Hlen & Hin).
    destruct (calculate_similarity_defined query_vector v
                (norm_for document_norms d)) as [s Hs].
    cbn [CosineSimilarityCalculator.batch_calculate_similarities].
    change (match PyDict.get d document_norms with Some n => n | None => f0 end)
      with (norm_for document_norms d).
    rewrite Hs. cbn [bind]. rewrite Hrun. cbn [bind fgt0 R_PyFloat].
    eexists. split; [reflexivity|].
    destruct (Rgt0 s) eqn:Epos.
    + apply Rgt0_true in Epos. split; [simpl; lia|].
      intros doc_id score [[= <- <-]|H].
      * exists v. split; [left; reflexivity|]. split; assumption.
      * destruct (Hin doc_id score H) as (v' & Hv' & Hcalc & Hpos).
        exists v'. split; [right; exact Hv'|]. split; assumption.
    + split; [simpl; lia|]. intros doc_id score H.
      destruct (Hin doc_id score H) as (v' & Hv' & Hcalc & Hpos).
      exists v'. split; [right; exact Hv'|]. split; assumption.
Qed.

Lemma built_query_vector (self : TFIDFIndexer.t) (query_terms : list string) :
  built self ->
  exists query_vector,
    TFIDFIndexer.get_query_vector self query_terms = Ok query_vector
    /\ forall term,
         In term (PyDict.keys query_vector) -> In term query_terms.
Proof.
  intros Hbuilt.
  destruct (built_index_facts self Hbuilt) as (_ & Hcons & Hinh & Hfreq).
  destruct query_terms as [|t1 r].
  { exists []. split; [reflexivity | intros term []]. }
  set (terms := t1 :: r).
  exists (fold_left (store_query_weight self (List.length terms))
                    (Counter terms) []).
  split.
  { unfold TFIDFIndexer.get_query_vector. fold terms.
    apply query_vector_loop_defined; try assumption. discriminate. }
  intros term Hkey. apply dict_get_in_keys in Hkey as [w Hw].
  rewrite fold_store_query_weight_get in Hw by apply counter_nodup.
  rewrite counter_get in Hw.
  destruct (in_dec string_dec term terms) as [Hin|Hnotin]; [exact Hin|].
  apply (count_occ_not_In string_dec) in Hnotin. rewrite Hnotin in Hw.
  discriminate.
Qed.

Lemma dict_set_entries (V : Type) (k k' : string) (v v' : V) (d : PyDict.t V) :
  In (k', v') (PyDict.set k v d) -> (k' = k /\ v' = v) \/ In (k', v') d.
Proof.
  induction d as [|[k0 v0] r IH]; cbn [PyDict.set].
  - intros [[= <- <-]|[]]. left. split; reflexivity.
  - destruct (String.eqb k0 k) eqn:E.
    + apply String.eqb_eq in E. subst k0.
      intros [[= <- <-]|H]; [left; split; reflexivity | right; right; exact H].
    + intros [H|H]; [right; left; exact H|].
      destruct (IH H) as [H'|H']; [left; exact H' | right; right; exact H'].
Qed.

Lemma dict_set_length (V : Type) (k : string) (v : V) (d : PyDict.t V) :
  (List.length (PyDict.set k v d) <= S (List.length d))%nat.
Proof.
  induction d as [|[k0 v0] r IH]; cbn [PyDict.set]; [simpl; lia|].
  destruct (String.eqb k0 k); simpl in *; lia.
Qed.

Lemma restrict_defined (V : Type) (table : PyDict.t V)
      (candidates : list string) (acc : PyDict.t V) :
  (forall c, In c candidates -> In c (PyDict.keys table)) ->
  exists r,
    QuestifySearchEngine.restrict table candidates acc = Ok r
    /\ (List.length r <= List.length acc + List.length candidates)%nat
    /\ forall k v,
         In (k, v) r ->
         In (k, v) acc \/ (In k candidates /\ PyDict.get k table = Some v).
Proof.
  revert acc. induction candidates as [|c cs IH]; intros acc Hkeys;
    cbn [QuestifySearchEngine.restrict].
  - exists acc. split; [reflexivity|]. split; [lia | auto].
  - destruct (proj1 (dict_get_in_keys _ _ _) (Hkeys c (or_introl eq_refl)))
      as [v Hv].
    rewrite (dict_getitem_found _ _ _ _ Hv). cbn [bind].
    destruct (IH (PyDict.set c v acc)
                 (fun c' H => Hkeys c' (or_intror H)))
      as (r & Hrun & Hlen & Hin).
    exists r. split; [exact Hrun|]. split.
    + pose proof (dict_set_length _ c v acc). simpl. lia.
    + intros k v' H. destruct (Hin k v' H) as [Hset|[Hc Hget]].
      * apply dict_set_entries in Hset as [[-> ->]|Hacc]; [|left; exact Hacc].
        right. split; [left; reflexivity | exact Hv].
      * right. split; [right; exact Hc | exact Hget].
Qed.

Lemma format_results_content (store : DocumentStore.t)
      (top : list (string * R)) (acc : list ResultRanker.entry)
      (e : ResultRanker.entry) :
  In e (fold_left (ResultRanker.format_result (Some store)) top acc) ->
  In e acc
  \/ ResultRanker.content e
     = match DocumentStore.get_document_content store (ResultRanker.doc_id e) with
       | Some c => if PyStr.is_empty c then None else Some c
       | None => None
       end.
Proof.
  revert acc. induction top as [|[d s] r IH]; intros acc Hin;
    cbn [fold_left] in Hin; [left; exact Hin|].
  destruct (IH _ Hin) as [H|H]; [|right; exact H].
  unfold ResultRanker.format_result in H.
  apply in_app_or in H as [H|[<-|[]]]; [left; exact H|].
  right. reflexivity.
Qed.

Lemma slice_to_length (A : Type) (l : list A) (n : Z) :
  (List.length (ResultRanker.slice_to l n) <= List.length l)%nat.
Proof.
  unfold ResultRanker.slice_to.
  destruct (0 <=? n)%Z; rewrite length_firstn; apply Nat.le_min_r.
Qed.

Lemma rank_results_length (ranker : ResultRanker.t)
      (similarities : list (string * R)) (store : option DocumentStore.t) :
  let ranked := ResultRanker.rank_results ranker similarities store in
  ResultRanker.total_results ranked
  = List.length (ResultRanker.results ranked)
  /\ (List.length (ResultRanker.results ranked)
      <= List.length similarities)%nat.
Proof.
  unfold ResultRanker.rank_results.
  cbn [ResultRanker.total_results ResultRanker.results].
  split; [reflexivity|]. rewrite format_results_length. cbn [List.length Nat.add].
  apply (Nat.le_trans _ _ _ (slice_to_length _ _ _)).
  rewrite (Permutation_length (sorted_desc_perm _)).
  apply filter_length_le.
Qed.

Lemma shared_term_or_none (q d : PyDict.t R) :
  (exists term, In term (PyDict.keys q) /\ In term (PyDict.keys d))
  \/ no_shared_term q d.
Proof.
  unfold no_shared_term. induction q as [|[k x] r IH].
  - right. intros term [].
  - destruct (in_dec string_dec k (PyDict.keys d)) as [Hin|Hnotin].
    + left. exists k. split; [left; reflexivity | exact Hin].
    + destruct IH as [(term & Hq & Hd)|Hnone].
      * left. exists term. split; [right; exact Hq | exact Hd].
      * right. intros term [<-|Hq]; [exact Hnotin | exact (Hnone term Hq)].
Qed.

Lemma candidate_is_indexed (self : TFIDFIndexer.t) (query_terms : list string)
      (doc_id : string) :
  built self ->
  In doc_id (TFIDFIndexer.get_candidate_documents self query_terms) ->
  exists tokens,
    PyDict.get doc_id (TFIDFIndexer.documents self) = Some tokens
    /\ PyDict.get doc_id (TFIDFIndexer.tfidf_vectors self)
       = Some (corpus_vector self tokens)
    /\ PyDict.get doc_id (TFIDFIndexer.document_norms self)
       = Some (sqrt (sumsq (PyDict.values (corpus_vector self tokens)))).
Proof.
  intros Hbuilt Hcand.
  destruct (built_index_facts self Hbuilt) as (_ & [[_ _ _ Hknown] _] & _).
  apply candidates_from_postings in Hcand as (term & _ & Hpost).
  apply Hknown, dict_get_in_keys in Hpost as [tokens Hget].
  exists tokens. split; [exact Hget|].
  exact (built_index_vectors self doc_id tokens Hbuilt Hget).
Qed.

(** What the body of [search] does on an index as [build_index] leaves
    it. *)
Lemma search_body_on_built_index (self : QuestifySearchEngine.t)
      (query : string) :
  let query_terms :=
    QueryProcessor.process_query (QuestifySearchEngine.query_processor self)
                                 query in
  let candidates :=
    TFIDFIndexer.get_candidate_documents (QuestifySearchEngine.indexer self)
                                         query_terms in
  built (QuestifySearchEngine.indexer self) ->
  exists query_vector vectors norms similarities,
    TFIDFIndexer.get_query_vector (QuestifySearchEngine.indexer self)
                                  query_terms = Ok query_vector
    /\ (forall term, In term (PyDict.keys query_vector) -> In term query_terms)
    /\ QuestifySearchEngine.restrict
         (TFIDFIndexer.tfidf_vectors (QuestifySearchEngine.indexer self))
         candidates [] = Ok vectors
    /\ (List.length vectors <= List.length candidates)%nat
    /\ (forall k v,
          In (k, v) vectors ->
          In k candidates
          /\ PyDict.get k (TFIDFIndexer.tfidf_vectors
                             (QuestifySearchEngine.indexer self)) = Some v)
    /\ QuestifySearchEngine.restrict
         (TFIDFIndexer.document_norms (QuestifySearchEngine.indexer self))
         candidates [] = Ok norms
    /\ CosineSimilarityCalculator.batch_calculate_similarities
         query_vector vectors norms = Ok similarities
    /\ (List.length similarities <= List.length vectors)%nat
    /\ forall doc_id score,
         In (doc_id, score) similarities ->
         exists doc_vector,
           In (doc_id, doc_vector) vectors
           /\ CosineSimilarityCalculator.calculate_similarity
                query_vector doc_vector (norm_for norms doc_id) = Ok score
           /\ 0 < score.
Proof.
  intros query_terms candidates Hbuilt.
  destruct (built_query_vector _ query_terms Hbuilt) as (qv & Hqv & Hkeys).
  destruct (restrict_defined _
              (TFIDFIndexer.tfidf_vectors (QuestifySearchEngine.indexer self))
              candidates [])
    as (vectors & Hvectors & Hvlen & Hventries).
  { intros c Hc.
    destruct (candidate_is_indexed _ _ _ Hbuilt Hc) as (tokens & _ & Hv & _).
    apply dict_get_in_keys. eauto. }
  destruct (restrict_defined _
              (TFIDFIndexer.document_norms (QuestifySearchEngine.indexer self))
              candidates [])
    as (norms & Hnorms & _).
  { intros c Hc.
    destruct (candidate_is_indexed _ _ _ Hbuilt Hc) as (tokens & _ & _ & Hn).
    apply dict_get_in_keys. eauto. }
  destruct (batch_scores qv vectors norms) as (sims & Hsims & Hslen & Hsin).
  exists qv, vectors, norms, sims.
  split; [exact Hqv|]. split; [exact Hkeys|]. split; [exact Hvectors|].
  split; [exact Hvlen|]. split.
  { intros k v H. destruct (Hventries k v H) as [[]|H']. exact H'. }
  split; [exact Hnorms|]. split; [exact Hsims|]. split; [exact Hslen|].
  exact Hsin.
Qed.

(** X20. On an index as [build_index] leaves it, nothing in [search] raises
    in exact arithmetic, so that it never answers with a 'Search error';
    the [total_results] it reports is the number of results it returns, and
    that is at most the number of candidates it reports. *)
Theorem search_on_built_index (self : QuestifySearchEngine.t)
        (query : string) :
  built (QuestifySearchEngine.indexer self) ->
  QuestifySearchEngine.search_body self query
  = Ok (QuestifySearchEngine.search self query)
  /\ (forall e,
        QuestifySearchEngine.info (QuestifySearchEngine.search self query)
        <> search_error e)
  /\ QuestifySearchEngine.total_results (QuestifySearchEngine.search self query)
     = List.length
         (QuestifySearchEngine.results (QuestifySearchEngine.search self query))
  /\ forall n,
       QuestifySearchEngine.total_candidates
         (QuestifySearchEngine.search self query) = Some n ->
       (QuestifySearchEngine.total_results
          (QuestifySearchEngine.search self query) <= n)%nat.
Proof.
  intros Hbuilt.
  destruct (search_body_on_built_index self query Hbuilt)
    as (qv & vectors & norms & sims & Hqv & _ & Hvectors & Hvlen & _ & Hnorms
        & Hsims & Hslen & _).
  unfold QuestifySearchEngine.search, QuestifySearchEngine.search_body.
  destruct (negb (QueryProcessor.validate_query _)).
  { split; [reflexivity|]. split; [discriminate|]. split; [reflexivity|].
    discriminate. }
  rewrite Hqv. cbn [bind].
  destruct (PyDict.is_empty qv).
  { split; [reflexivity|]. split; [discriminate|]. split; [reflexivity|].
    discriminate. }
  destruct (TFIDFIndexer.get_candidate_documents _ _) as [|c cs] eqn:Hcand.
  { split; [reflexivity|]. split; [discriminate|]. split; [reflexivity|].
    discriminate. }
  rewrite Hvectors. cbn [bind]. rewrite Hnorms. cbn [bind].
  rewrite Hsims. cbn [bind].
  destruct (rank_results_length (QuestifySearchEngine.ranker self) sims
              (Some (QuestifySearchEngine.document_store self)))
    as [Htotal Hlen].
  cbn [QuestifySearchEngine.info QuestifySearchEngine.total_results
       QuestifySearchEngine.results QuestifySearchEngine.total_candidates].
  split; [reflexivity|]. split; [discriminate|]. split; [exact Htotal|].
  intros n [= <-]. rewrite Htotal. cbn [List.length] in Hvlen |- *. lia.
Qed.

(** X21. With a built index that is in step with the store, every result of
    [search] is a stored document, comes with that document's content, and
    the tokens of that content include one of the terms of the processed
    query: a document that only has a stale inverted-index entry is a
    candidate but never a result. *)
Theorem search_results_match_query (self : QuestifySearchEngine.t)
        (query : string) :
  in_sync self ->
  built (QuestifySearchEngine.indexer self) ->
  Forall
    (fun result =>
       exists text term,
         DocumentStore.get_document_content
           (QuestifySearchEngine.document_store self)
           (ResultRanker.doc_id result) = Some text
         /\ ResultRanker.content result = Some text
         /\ In term (QueryProcessor.process_query
                       (QuestifySearchEngine.query_processor self) query)
         /\ In term (TextPreprocessor.preprocess
                       (QuestifySearchEngine.preprocessor self) text))
    (QuestifySearchEngine.results (QuestifySearchEngine.search self query)).
Proof.
  intros [Hpre Hdocs] Hbuilt.
  destruct (search_body_on_built_index self query Hbuilt)
    as (qv & vectors & norms & sims & Hqv & Hkeys & Hvectors & _ & Hventries
        & Hnorms & Hsims & _ & Hscores).
  unfold QuestifySearchEngine.search, QuestifySearchEngine.search_body.
  destruct (negb (QueryProcessor.validate_query _)); [constructor|].
  rewrite Hqv. cbn [bind].
  destruct (PyDict.is_empty qv); [constructor|].
  destruct (TFIDFIndexer.get_candidate_documents _ _) as [|c cs] eqn:Hcand;
    [constructor|].
  rewrite Hvectors. cbn [bind]. rewrite Hnorms. cbn [bind].
  rewrite Hsims. cbn [bind QuestifySearchEngine.results].
  apply Forall_forall. intros result Hin.
  destruct (rank_results_ids _ _ _ _ Hin) as ([d s] & Hsim & Hid).
  cbn [fst] in Hid.
  destruct (Hscores d s Hsim) as (v & Hv & Hcalc & Hpos).
  destruct (Hventries d v Hv) as [Hc Hvec]. rewrite <- Hcand in Hc.
  destruct (candidate_is_indexed _ _ _ Hbuilt Hc) as (tokens & Htok & Hvec' & _).
  rewrite Hvec in Hvec'. injection Hvec' as ->.
  destruct (shared_term_or_none qv
              (corpus_vector (QuestifySearchEngine.indexer self) tokens))
    as [(term & Hq & Hd)|Hnone].
  2:{ rewrite (calculate_similarity_no_shared_term _ _ _ Hnone) in Hcalc.
      injection Hcalc as <-. lra. }
  assert (Hterm : In term tokens).
  { apply dict_get_in_keys in Hd as [w Hw]. rewrite corpus_vector_get in Hw.
    apply (count_occ_In string_dec).
    destruct (count_occ string_dec tokens term); [discriminate | lia]. }
  rewrite Hdocs in Htok.
  destruct (DocumentStore.get_document_content
              (QuestifySearchEngine.document_store self) d) as [text|] eqn:Htext;
    [|discriminate].
  cbn [option_map] in Htok. injection Htok as <-.
  exists text, term. rewrite Hid. split; [exact Htext|].
  split; [|split; [apply Hkeys, Hq | exact Hterm]].
  unfold ResultRanker.rank_results in Hin. cbn [ResultRanker.results] in Hin.
  destruct (format_results_content _ _ _ _ Hin) as [[]|Hcontent].
  rewrite Hcontent, Hid, Htext.
  destruct text; [destruct Hterm | reflexivity].
Qed.

(** X22. A query one of whose terms is in the vocabulary but has no
    document frequency yet, as after [add_documents] without [build_index],
    is answered with the 'Search error' of a [KeyError] on the first such
    term: the error text ends with the [repr] of the term. *)
Theorem search_before_build_index (self : QuestifySearchEngine.t)
        (query term : string) :
  find (known (QuestifySearchEngine.indexer self))
       (QueryProcessor.process_query
          (QuestifySearchEngine.query_processor self) query) = Some term ->
  PyDict.get term
    (TFIDFIndexer.document_frequencies (QuestifySearchEngine.indexer self))
  = None ->
  QuestifySearchEngine.search self query
  = QuestifySearchEngine.no_results (search_error (KeyError term)).
Proof.
  intros Hfind Hdf.
  unfold QuestifySearchEngine.search, QuestifySearchEngine.search_body.
  rewrite process_query_valid
    by (intros E; rewrite E in Hfind; discriminate).
  cbn [negb].
  rewrite (get_query_vector_key_error _ _ _ Hfind Hdf). reflexivity.
Qed.

(** X23. [search] answers 'Invalid or empty query' exactly when
    [process_query] leaves no term of the query, as it does for a query of
    whitespace only. *)
Theorem search_rejects_the_empty_queries (self : QuestifySearchEngine.t)
        (query : string) :
  (QuestifySearchEngine.search self query
   = QuestifySearchEngine.no_results invalid_query
   <-> QueryProcessor.process_query
         (QuestifySearchEngine.query_processor self) query = [])
  /\ (whitespace_only query ->
      QuestifySearchEngine.search self query
      = QuestifySearchEngine.no_results invalid_query).
Proof.
  assert (Hempty : QueryProcessor.process_query
                     (QuestifySearchEngine.query_processor self) query = [] ->
                   QuestifySearchEngine.search self query
                   = QuestifySearchEngine.no_results invalid_query).
  { intros E. apply search_invalid. rewrite E. reflexivity. }
  split; [split; [|exact Hempty]|].
  - intros Hsearch.
    destruct (QueryProcessor.process_query
                (QuestifySearchEngine.query_processor self) query)
      as [|t1 r] eqn:Hterms; [reflexivity|]. exfalso.
    assert (Hvalid : QueryProcessor.validate_query (t1 :: r) = true).
    { rewrite <- Hterms. apply process_query_valid. rewrite Hterms.
      discriminate. }
    revert Hsearch.
    unfold QuestifySearchEngine.search, QuestifySearchEngine.search_body.
    rewrite Hterms, Hvalid. cbn [negb].
    destruct (TFIDFIndexer.get_query_vector _ _) as [qv|ex];
      [|discriminate].
    cbn [bind]. destruct (PyDict.is_empty qv); [discriminate|].
    destruct (TFIDFIndexer.get_candidate_documents _ _); [discriminate|].
    destruct (QuestifySearchEngine.restrict
                (TFIDFIndexer.tfidf_vectors _) _ _); [|discriminate].
    cbn [bind].
    destruct (QuestifySearchEngine.restrict
                (TFIDFIndexer.document_norms _) _ _); [|discriminate].
    cbn [bind].
    destruct (CosineSimilarityCalculator.batch_calculate_similarities _ _ _);
      discriminate.
  - intros Hws. apply Hempty, process_query_whitespace_only, Hws.
Qed.

(** X24. When the file operations of a removal fail, [remove_document]
    returns [False] and leaves the index as it is, although the store has
    forgotten the document. *)
Theorem failed_removal_keeps_index (self : QuestifySearchEngine.t)
        (doc_id : string) :
  store_wf (QuestifySearchEngine.document_store self) ->
  PyDict.mem doc_id
    (DocumentStore.documents (QuestifySearchEngine.document_store self))
  = true ->
  exists self',
    QuestifySearchEngine.remove_document self doc_id false = Ok (false, self')
    /\ QuestifySearchEngine.indexer self' = QuestifySearchEngine.indexer self
    /\ DocumentStore.get_document_content
         (QuestifySearchEngine.document_store self') doc_id = None.
Proof.
  intros Hwf Hmem.
  assert (Hmeta : PyDict.mem doc_id
                    (DocumentStore.metadata
                       (QuestifySearchEngine.document_store self)) = true).
  { apply dict_mem_in_keys, Hwf, dict_mem_in_keys, Hmem. }
  unfold QuestifySearchEngine.remove_document, DocumentStore.remove_document.
  rewrite Hmem. cbn [negb DocumentStore.documents DocumentStore.metadata].
  rewrite Hmeta. cbn [negb].
  eexists. split; [reflexivity|]. split; [reflexivity|].
  unfold DocumentStore.get_document_content.
  cbn [QuestifySearchEngine.document_store
       QuestifySearchEngine.with_document_store DocumentStore.documents].
  rewrite dict_get_del, String.eqb_refl. reflexivity.
Qed.
End Searching.

(* ------------------------------------------------------------------ *)
(** ** The engine: the scores of the results *)

Section Scores.
Open Scope R_scope.

Lemma restrict_get (V : Type) (table : PyDict.t V) (candidates : list string)
      (acc r : PyDict.t V) (k : string) :
  QuestifySearchEngine.restrict table candidates acc = Ok r ->
  PyDict.get k r
  = if in_dec string_dec k candidates then PyDict.get k table
    else PyDict.get k acc.
Proof.
  revert acc. induction candidates as [|c cs IH]; intros acc Hrun;
    cbn [QuestifySearchEngine.restrict] in Hrun.
  - injection Hrun as <-. reflexivity.
  - unfold PyDict.getitem in Hrun.
    destruct (PyDict.get c table) as [v|] eqn:Hc; [|discriminate].
    cbn [bind] in Hrun. rewrite (IH _ Hrun).
    destruct (in_dec string_dec k cs) as [Hcs|Hcs];
      destruct (in_dec string_dec k (c :: cs)) as [Hin|Hnotin];
      try reflexivity.
    + exfalso. apply Hnotin. right. exact Hcs.
    + destruct Hin as [<-|Hin]; [|contradiction].
      rewrite dict_get_updated, Hc. reflexivity.
    + apply dict_get_elsewhere. intros ->. apply Hnotin. left. reflexivity.
Qed.

Lemma query_weights_nodup (self : TFIDFIndexer.t) (query_length : nat)
      (items : list (string * nat)) (vec : PyDict.t R) :
  NoDup (PyDict.keys vec) ->
  NoDup (PyDict.keys (fold_left (store_query_weight self query_length)
                                items vec)).
Proof.
  revert vec. induction items as [|item r IH]; intros vec Hnd;
    cbn [fold_left]; [exact Hnd|].
  apply IH. unfold store_query_weight.
  destruct (query_item_weight self query_length item);
    [apply dict_keys_set_nodup|]; exact Hnd.
Qed.

Lemma built_query_vector_nodup (self : TFIDFIndexer.t)
      (query_terms : list string) (query_vector : PyDict.t R) :
  built self ->
  TFIDFIndexer.get_query_vector self query_terms = Ok query_vector ->
  NoDup (PyDict.keys query_vector).
Proof.
  intros Hbuilt Hrun.
  destruct (built_index_facts self Hbuilt) as (_ & Hcons & Hinh & Hfreq).
  destruct query_terms as [|t1 r].
  { injection Hrun as <-. constructor. }
  unfold TFIDFIndexer.get_query_vector in Hrun.
  rewrite query_vector_loop_defined in Hrun by (assumption || discriminate).
  injection Hrun as <-. apply query_weights_nodup. constructor.
Qed.

Lemma cosine_at_most_one (q d : PyDict.t R) :
  NoDup (PyDict.keys q) -> cosine q d <= 1.
Proof.
  intros Hnd. unfold cosine.
  pose proof (overlap_dot_bound q d Hnd) as Hcs.
  pose proof (sumsq_nonneg (PyDict.values q)) as HA.
  pose proof (sumsq_nonneg (PyDict.values d)) as HD.
  destruct (Req0 (overlap_dot q d)) eqn:Edot; [lra|].
  apply Req0_false in Edot.
  set (x := overlap_dot q d) in *.
  set (A := sumsq (PyDict.values q)) in *.
  set (D := sumsq (PyDict.values d)) in *.
  assert (Hx2 : 0 < x ^ 2) by (pose proof (pow2_ge_0 x); nra).
  assert (HApos : 0 < A) by nra.
  assert (HDpos : 0 < D) by nra.
  pose proof (sqrt_lt_R0 _ HApos) as HsA.
  pose proof (sqrt_lt_R0 _ HDpos) as HsD.
  assert (Hprod : (sqrt A * sqrt D) ^ 2 = A * D).
  { replace ((sqrt A * sqrt D) ^ 2)
      with ((sqrt A * sqrt A) * (sqrt D * sqrt D)) by ring.
    rewrite !sqrt_sqrt by lra. reflexivity. }
  assert (Hle : x <= sqrt A * sqrt D).
  { destruct (Rle_or_lt x (sqrt A * sqrt D)) as [H|H]; [exact H|].
    exfalso. assert (0 < sqrt A * sqrt D) by nra. nra. }
  apply (Rmult_le_reg_r (sqrt A * sqrt D)); [nra|].
  unfold Rdiv. rewrite Rmult_assoc, Rinv_l by nra. lra.
Qed.

Lemma round_half_even_bounds (x : R) :
  0 <= x <= 10000 ->
  (0 <= ResultRanker.round_half_even x <= 10000)%Z.
Proof.
  intros [Hlo Hhi]. unfold ResultRanker.round_half_even.
  destruct (base_Int_part x) as [Hfloor Hfrac].
  set (f := Int_part x) in *.
  assert (Hf0 : (0 <= f)%Z).
  { apply Z.lt_succ_r, lt_IZR. rewrite succ_IZR. lra. }
  assert (Hf1 : (f <= 10000)%Z) by (apply le_IZR; lra).
  cbv zeta.
  destruct (Rlt_dec (x - IZR f) (1 / 2)) as [Hd|Hd]; [lia|].
  assert (Hlt : (f < 10000)%Z).
  { apply lt_IZR. lra. }
  destruct (Rlt_dec (1 / 2) (x - IZR f)); [lia|].
  destruct (Z.even f); lia.
Qed.

Lemma round4_bounds (s : R) :
  0 <= s <= 1 -> 0 <= ResultRanker.round4 s <= 1.
Proof.
  intros Hs. unfold ResultRanker.round4.
  destruct (round_half_even_bounds (s * 10000)) as [Hlo Hhi]; [lra|].
  apply IZR_le in Hlo, Hhi.
  set (n := IZR (ResultRanker.round_half_even (s * 10000))) in *.
  split.
  - apply Rmult_le_reg_r with (r := 10000); [lra|].
    unfold Rdiv. rewrite Rmult_assoc, Rinv_l by lra. lra.
  - apply Rmult_le_reg_r with (r := 10000); [lra|].
    unfold Rdiv. rewrite Rmult_assoc, Rinv_l by lra. lra.
Qed.

Lemma format_results_scores (store : option DocumentStore.t)
      (top : list (string * R)) (acc : list ResultRanker.entry)
      (e : ResultRanker.entry) :
  In e (fold_left (ResultRanker.format_result store) top acc) ->
  In e acc
  \/ exists x,
       In x top /\ ResultRanker.doc_id e = fst x
       /\ ResultRanker.similarity_score e = ResultRanker.round4 (snd x).
Proof.
  revert acc. induction top as [|y r IH]; intros acc Hin; cbn [fold_left] in Hin;
    [left; exact Hin|].
  destruct (format_result_snoc store acc y) as (e0 & Heq & Hd & Hs & _).
  rewrite Heq in Hin. destruct (IH _ Hin) as [H|(x & Hx & Hid & Hscore)].
  - apply in_app_or in H as [H|[<-|[]]]; [left; exact H|].
    right. exists y. split; [left; reflexivity|]. split; assumption.
  - right. exists x. split; [right; exact Hx|]. split; assumption.
Qed.

Lemma rank_results_scores (ranker : ResultRanker.t)
      (similarities : list (string * R)) (store : option DocumentStore.t)
      (e : ResultRanker.entry) :
  In e (ResultRanker.results
          (ResultRanker.rank_results ranker similarities store)) ->
  exists x,
    In x similarities
    /\ ResultRanker.doc_id e = fst x
    /\ ResultRanker.similarity_score e = ResultRanker.round4 (snd x)
    /\ ResultRanker.min_similarity_score ranker <= snd x.
Proof.
  unfold ResultRanker.rank_results. cbn [ResultRanker.results]. intros Hin.
  destruct (format_results_scores _ _ _ _ Hin) as [[]|(x & Hx & Hid & Hs)].
  exists x. apply slice_to_in in Hx.
  apply (Permutation_in _ (sorted_desc_perm _)) in Hx.
  apply filter_In in Hx as [Hx Hpass]. apply Rgeb_true in Hpass.
  repeat (split; [assumption|]). lra.
Qed.

(** X28. When the index is as [build_index] left it, the score [search]
    reports for a result is the rounding to four decimals of a cosine: of a
    number above 0, at least [min_similarity_score] and at most 1. So the
    reported score is between 0 and 1. *)
Theorem search_scores_are_bounded (self : QuestifySearchEngine.t)
        (query : string) :
  built (QuestifySearchEngine.indexer self) ->
  Forall
    (fun result =>
       exists s,
         ResultRanker.similarity_score result = ResultRanker.round4 s
         /\ 0 < s <= 1
         /\ ResultRanker.min_similarity_score
              (QuestifySearchEngine.ranker self) <= s
         /\ 0 <= ResultRanker.similarity_score result <= 1)
    (QuestifySearchEngine.results (QuestifySearchEngine.search self query)).
Proof.
  intros Hbuilt.
  destruct (search_body_on_built_index self query Hbuilt)
    as (qv & vectors & norms & sims & Hqv & _ & Hvectors & _ & Hventries
        & Hnorms & Hsims & _ & Hscores).
  pose proof (built_query_vector_nodup _ _ _ Hbuilt Hqv) as Hnd.
  unfold QuestifySearchEngine.search, QuestifySearchEngine.search_body.
  destruct (negb (QueryProcessor.validate_query _)); [constructor|].
  rewrite Hqv. cbn [bind].
  destruct (PyDict.is_empty qv); [constructor|].
  destruct (TFIDFIndexer.get_candidate_documents _ _) as [|c cs] eqn:Hcand;
    [constructor|].
  rewrite Hvectors. cbn [bind]. rewrite Hnorms. cbn [bind].
  rewrite Hsims. cbn [bind QuestifySearchEngine.results].
  apply Forall_forall. intros result Hin.
  destruct (rank_results_scores _ _ _ _ Hin) as ([d s] & Hsim & _ & Hscore & Hmin).
  cbn [fst snd] in Hscore, Hmin.
  destruct (Hscores d s Hsim) as (v & Hv & Hcalc & Hpos).
  destruct (Hventries d v Hv) as [Hc Hvec].
  pose proof Hc as Hc'. rewrite <- Hcand in Hc'.
  destruct (candidate_is_indexed _ _ _ Hbuilt Hc')
    as (tokens & _ & Hvec' & Hnorm).
  rewrite Hvec in Hvec'. injection Hvec' as ->.
  assert (Hn : norm_for norms d
               = sqrt (sumsq (PyDict.values
                        (corpus_vector (QuestifySearchEngine.indexer self)
                                       tokens)))).
  { unfold norm_for. rewrite (restrict_get _ _ _ _ _ d Hnorms).
    destruct (in_dec string_dec d (c :: cs)); [|contradiction].
    rewrite Hnorm. reflexivity. }
  rewrite Hn, (calculate_similarity_is_cosine _ _ Hnd) in Hcalc.
  injection Hcalc as <-.
  pose proof (cosine_at_most_one qv
                (corpus_vector (QuestifySearchEngine.indexer self) tokens) Hnd)
    as Hle.
  eexists. split; [exact Hscore|]. split; [lra|]. split; [exact Hmin|].
  rewrite Hscore. apply round4_bounds. lra.
Qed.
End Scores.

(* ------------------------------------------------------------------ *)
(** ** The query processor: queries of plain words *)

Section PlainQueries.
Variable self : QueryProcessor.t.

Lemma filter_not_space_lstrip (s : string) :
  PyStr.filter not_space (PyStr.lstrip s) = PyStr.filter not_space s.
Proof.
  induction s as [|c r IH]; [reflexivity|].
  cbn [PyStr.lstrip]. destruct (PyStr.is_space c) eqn:E; [|reflexivity].
  assert (Hc : not_space c = false) by (unfold not_space; rewrite E; reflexivity).
  cbn [PyStr.filter]. rewrite Hc. exact IH.
Qed.

Lemma filter_not_space_rstrip (s : string) :
  PyStr.filter not_space (PyStr.rstrip s) = PyStr.filter not_space s.
Proof.
  induction s as [|c r IH]; [reflexivity|].
  cbn [PyStr.rstrip PyStr.filter]. rewrite <- IH.
  destruct (PyStr.rstrip r) as [|c' r'] eqn:E; [|reflexivity].
  destruct (PyStr.is_space c) eqn:Hc.
  - assert (Hns : not_space c = false)
      by (unfold not_space; rewrite Hc; reflexivity).
    rewrite Hns. reflexivity.
  - reflexivity.
Qed.

Lemma filter_not_space_strip (s : string) :
  PyStr.filter not_space (PyStr.strip s) = PyStr.filter not_space s.
Proof.
  unfold PyStr.strip. rewrite filter_not_space_rstrip.
  apply filter_not_space_lstrip.
Qed.

Lemma plain_char_not_backslash (c : ascii) :
  PyStr.is_alnum c || PyStr.is_space c = true ->
  Ascii.eqb c PyStr.backslash = false.
Proof. by_cases_on_char c. Qed.

Lemma plain_char_kept (c : ascii) :
  PyStr.is_alnum c || PyStr.is_space c = true ->
  PyStr.kept_by_clean_query c = not_space c.
Proof. by_cases_on_char c. Qed.

Lemma plain_char_alnum (c : ascii) :
  PyStr.is_alnum c || PyStr.is_space c = true -> not_space c = true ->
  PyStr.is_alnum c = true.
Proof. by_cases_on_char c. Qed.

Lemma alnum_char_lower (c : ascii) :
  PyStr.is_alnum c = true ->
  (if PyStr.kept_by_preprocess (PyStr.lower_char c)
   then PyStr.lower_char c else " "%char) = PyStr.lower_char c
  /\ PyStr.is_space (PyStr.lower_char c) = false.
Proof. intros H. split; revert H; by_cases_on_char c. Qed.

Lemma plain_strip (s : string) :
  plain_query s -> plain_query (PyStr.strip s).
Proof.
  unfold plain_query, PyStr.strip. intros H.
  assert (Hl : PyStr.forallb (fun c => PyStr.is_alnum c || PyStr.is_space c)
                             (PyStr.lstrip s) = true).
  { induction s as [|c r IH]; [reflexivity|].
    cbn [PyStr.forallb] in H. apply andb_true_iff in H as [Hc Hr].
    cbn [PyStr.lstrip]. case_eq (PyStr.is_space c); intros E;
      [exact (IH Hr)|].
    cbn [PyStr.forallb]. rewrite Hc, Hr. reflexivity. }
  clear H. induction (PyStr.lstrip s) as [|c r IH]; [reflexivity|].
  cbn [PyStr.forallb] in Hl. apply andb_true_iff in Hl as [Hc Hr].
  specialize (IH Hr).
  cbn [PyStr.rstrip]. destruct (PyStr.rstrip r) as [|c' r'].
  - case_eq (PyStr.is_space c); intros E; [reflexivity|].
    cbn [PyStr.forallb]. rewrite Hc. reflexivity.
  - cbn [PyStr.forallb] in IH |- *. rewrite Hc. exact IH.
Qed.

Lemma sub_backslash_s_plain (s : string) :
  plain_query s -> PyStr.sub_backslash_s s = s.
Proof.
  unfold plain_query, PyStr.sub_backslash_s.
  induction s as [|c r IH]; [reflexivity|]. intros H.
  cbn [PyStr.forallb] in H. apply andb_true_iff in H as [Hc Hr].
  cbn [PyStr.sub_backslash_s_run andb].
  rewrite (plain_char_not_backslash c Hc). cbn [andb].
  rewrite (IH Hr). reflexivity.
Qed.

Lemma filter_kept_plain (s : string) :
  plain_query s ->
  PyStr.filter PyStr.kept_by_clean_query s = PyStr.filter not_space s.
Proof.
  unfold plain_query. induction s as [|c r IH]; [reflexivity|]. intros H.
  cbn [PyStr.forallb] in H. apply andb_true_iff in H as [Hc Hr].
  cbn [PyStr.filter]. rewrite (plain_char_kept c Hc), (IH Hr). reflexivity.
Qed.

Lemma filter_plain_alnum (s : string) :
  plain_query s ->
  PyStr.forallb PyStr.is_alnum (PyStr.filter not_space s) = true.
Proof.
  unfold plain_query. induction s as [|c r IH]; [reflexivity|]. intros H.
  cbn [PyStr.forallb] in H. apply andb_true_iff in H as [Hc Hr].
  cbn [PyStr.filter]. destruct (not_space c) eqn:Hns; [|exact (IH Hr)].
  cbn [PyStr.forallb]. rewrite (plain_char_alnum c Hc Hns). exact (IH Hr).
Qed.

Lemma replace_special_alnum (w : string) :
  PyStr.forallb PyStr.is_alnum w = true ->
  TextPreprocessor.replace_special (PyStr.lower w) = PyStr.lower w
  /\ PyStr.forallb not_space (PyStr.lower w) = true.
Proof.
  unfold TextPreprocessor.replace_special, PyStr.lower.
  induction w as [|c r IH]; [split; reflexivity|]. intros H.
  cbn [PyStr.forallb] in H. apply andb_true_iff in H as [Hc Hr].
  destruct (IH Hr) as [IH1 IH2]. destruct (alnum_char_lower c Hc) as [Hk Hs].
  cbn [PyStr.map PyStr.forallb]. rewrite Hk, IH1, IH2.
  unfold not_space. rewrite Hs. split; reflexivity.
Qed.

Lemma append_empty_r (s : string) : s ++ "" = s.
Proof. induction s as [|c r IH]; simpl; [|rewrite IH]; reflexivity. Qed.

Lemma append_snoc (a : string) (c : ascii) (r : string) :
  (a ++ String c EmptyString) ++ r = a ++ String c r.
Proof. induction a as [|d a IH]; simpl; [|rewrite IH]; reflexivity. Qed.

Lemma split_from_word (cur w : string) :
  PyStr.forallb not_space w = true ->
  PyStr.split_from (Some cur) w = [cur ++ w].
Proof.
  revert cur. induction w as [|c r IH]; intros cur H.
  - cbn [PyStr.split_from]. rewrite append_empty_r. reflexivity.
  - cbn [PyStr.forallb] in H. apply andb_true_iff in H as [Hc Hr].
    unfold not_space in Hc. apply negb_true_iff in Hc.
    cbn [PyStr.split_from]. rewrite Hc, (IH _ Hr).
    rewrite append_snoc. reflexivity.
Qed.

Lemma split_word (w : string) :
  PyStr.forallb not_space w = true -> w <> "" -> PyStr.split w = [w].
Proof.
  destruct w as [|c r]; [contradiction|]. intros H _.
  cbn [PyStr.forallb] in H. apply andb_true_iff in H as [Hc Hr].
  unfold not_space in Hc. apply negb_true_iff in Hc.
  unfold PyStr.split. cbn [PyStr.split_from]. rewrite Hc.
  rewrite (split_from_word _ _ Hr). reflexivity.
Qed.

(** X29. A query of letters, digits and whitespace only is never split
    into words: [process_query] returns at most one term, the words of the
    query written together in lower case, and returns it when it passes the
    length and stopword tests of the normalizer. *)
Theorem process_query_joins_plain_words (raw_query : string) :
  plain_query raw_query ->
  QueryProcessor.process_query self raw_query
  = if PyStr.is_empty (joined raw_query) then []
    else List.filter
           (TextPreprocessor.keep_token (QueryProcessor.preprocessor self))
           [joined raw_query].
Proof.
  intros Hplain. unfold QueryProcessor.process_query, joined.
  pose proof (filter_not_space_strip raw_query) as Hstrip.
  destruct (PyStr.is_empty raw_query || PyStr.is_empty (PyStr.strip raw_query))
    eqn:Hempty.
  - assert (E : PyStr.filter not_space raw_query = "").
    { apply orb_true_iff in Hempty as [H|H].
      - destruct raw_query; [reflexivity | discriminate].
      - rewrite <- Hstrip. destruct (PyStr.strip raw_query);
          [reflexivity | discriminate]. }
    rewrite E. reflexivity.
  - cbv zeta. unfold QueryProcessor._clean_query.
    rewrite (sub_backslash_s_plain _ (plain_strip _ Hplain)).
    rewrite (filter_kept_plain _ (plain_strip _ Hplain)), Hstrip.
    unfold TextPreprocessor.preprocess_query, TextPreprocessor.preprocess.
    destruct (replace_special_alnum _ (filter_plain_alnum _ Hplain))
      as [Hsame Hword].
    destruct (PyStr.filter not_space raw_query) as [|c r] eqn:E;
      [reflexivity|].
    cbv zeta. rewrite Hsame.
    cbn [PyStr.is_empty PyStr.lower PyStr.map].
    rewrite split_word; [reflexivity | exact Hword | discriminate].
Qed.
End PlainQueries.

(* ------------------------------------------------------------------ *)
(** ** The configuration *)

Section Configuration.
Import QuestifyConfig.

Lemma split_on_no_dot (key : string) :
  no_dot key -> PyStr.split_on "." key = [key].
Proof.
  unfold no_dot. induction key as [|c r IH]; simpl; [reflexivity|].
  intros H. apply andb_true_iff in H as [Hc Hr].
  apply negb_true_iff in Hc. rewrite Hc, (IH Hr). reflexivity.
Qed.

Lemma split_on_dotted (section key : string) :
  no_dot section -> no_dot key ->
  PyStr.split_on "." (dotted section key) = [section; key].
Proof.
  unfold dotted, no_dot. intros Hs Hk.
  change ("." ++ key) with (String "." key).
  induction section as [|c r IH]; simpl.
  - rewrite (split_on_no_dot key Hk). reflexivity.
  - simpl in Hs. apply andb_true_iff in Hs as [Hc Hr].
    apply negb_true_iff in Hc. rewrite Hc, (IH Hr). reflexivity.
Qed.

Lemma read_write_same (h : heap) (a : nat) (d d0 : PyDict.t value) :
  read h a = Some d0 -> read (write h a d) a = Some d.
Proof.
  unfold read. revert a. induction h as [|x r IH]; intros [|a]; simpl;
    try discriminate; [reflexivity | apply IH].
Qed.

Lemma read_write_other (h : heap) (a b : nat) (d : PyDict.t value) :
  a <> b -> read (write h a d) b = read h b.
Proof.
  unfold read. revert a b. induction h as [|x r IH]; intros [|a] [|b] Hne;
    simpl; try reflexivity; [contradiction | apply IH; congruence].
Qed.

Lemma read_alloc_old (h : heap) (a : nat) (d d0 : PyDict.t value) :
  read h a = Some d0 -> read (h ++ [d])%list a = Some d0.
Proof.
  unfold read. intros H. rewrite nth_error_app1; [exact H|].
  apply nth_error_Some. congruence.
Qed.

Lemma read_alloc_new (h : heap) (d : PyDict.t value) :
  read (h ++ [d])%list (List.length h) = Some d.
Proof.
  unfold read. rewrite nth_error_app2, Nat.sub_diag by apply Nat.le_refl.
  reflexivity.
Qed.

Lemma read_in_range (h : heap) (a : nat) (d : PyDict.t value) :
  read h a = Some d -> a <> List.length h.
Proof.
  unfold read. intros H Heq.
  assert (Hlt : (a < List.length h)%nat) by (apply nth_error_Some; congruence).
  lia.
Qed.

Lemma dict_mem_get (V : Type) (k : string) (d : PyDict.t V) :
  PyDict.mem k d = match PyDict.get k d with Some _ => true | None => false end.
Proof. reflexivity. Qed.

(** X25. [set] followed by [get] on a path [section.key]: when the
    configuration has no entry for the section, or a dict of its own, [set]
    raises nothing and [get] then returns the value set, whatever the
    default; the other keys of an existing section keep their values. *)
Theorem set_then_get (self : t) (section key : string) (v default : value) :
  no_dot section -> no_dot key -> section_ready self section ->
  let '(self', outcome) := set self (dotted section key) v in
  outcome = Done
  /\ get self' (dotted section key) default = v
  /\ forall other,
       no_dot other -> other <> key ->
       lookup (objects self) (VDict (config self)) [section] <> None ->
       get self' (dotted section other) default
       = get self (dotted section other) default.
Proof.
  intros Hs Hk (root & Hroot & Hsection).
  unfold set, get. rewrite (split_on_dotted section key Hs Hk).
  cbn [removelast last navigate]. rewrite Hroot.
  destruct Hsection as [Hnone|(a & d & Hget & Hne & Hread)].
  - rewrite dict_mem_get, Hnone. cbn [negb alloc].
    rewrite dict_get_updated. cbn [navigate].
    pose proof (read_in_range _ _ _ Hroot) as Hfresh.
    assert (Hroot' : read (objects self ++ [[]])%list (config self) = Some root)
      by (apply read_alloc_old, Hroot).
    rewrite (read_write_other _ _ _ _ Hfresh), read_alloc_new.
    cbn [objects config DEFAULT_CONFIG]. split; [reflexivity|]. split.
    + cbn [lookup].
      rewrite (read_write_other _ _ _ _ (not_eq_sym Hfresh)).
      rewrite (read_write_same _ _ _ _ Hroot'), dict_get_updated.
      erewrite read_write_same
        by (rewrite (read_write_other _ _ _ _ Hfresh); apply read_alloc_new).
      rewrite dict_get_updated. reflexivity.
    + intros other _ _ Hfound. exfalso. apply Hfound.
      cbn [lookup]. rewrite Hroot, Hnone. reflexivity.
  - rewrite dict_mem_get, Hget. cbn [negb navigate]. rewrite Hget, Hread.
    cbn [navigate objects config DEFAULT_CONFIG].
    split; [reflexivity|].
    assert (Hroot' : read (write (objects self) a (PyDict.set key v d))
                          (config self) = Some root)
      by (rewrite (read_write_other _ _ _ _ Hne); exact Hroot).
    split.
    + cbn [lookup objects config]. rewrite Hroot', Hget.
      rewrite (read_write_same _ _ _ _ Hread), dict_get_updated. reflexivity.
    + intros other Ho Hother _.
      rewrite (split_on_dotted section other Hs Ho).
      cbn [lookup objects config]. rewrite Hroot', Hroot, Hget.
      rewrite (read_write_same _ _ _ _ Hread), Hread.
      rewrite (dict_get_elsewhere _ _ _ _ _ (not_eq_sym Hother)). reflexivity.
Qed.

(** X26. [reset_to_defaults] does not undo a [set] under a section of
    [DEFAULT_CONFIG]: the copy it makes is shallow, so that [set] writes
    into the dict of the defaults, and after the next [reset_to_defaults]
    [get] still returns the value set. A value set under a key of the top
    level is undone. *)
Theorem reset_to_defaults_keeps_nested_values
        (self : t) (section key : string) (v default : value) :
  no_dot section -> no_dot key -> default_section self section ->
  let fresh := reset_to_defaults self in
  (let '(self', outcome) := set fresh (dotted section key) v in
   outcome = Done
   /\ get (reset_to_defaults self') (dotted section key) default = v)
  /\ (let '(self', outcome) := set fresh key v in
      outcome = Done
      /\ get (reset_to_defaults self') key default = get fresh key default).
Proof.
  intros Hs Hk (top & a & d & Htop & Hget & Hne & Hread). cbv zeta.
  pose proof (read_in_range _ _ _ Htop) as Htop_old.
  pose proof (read_in_range _ _ _ Hread) as Ha_old.
  assert (Hfresh : reset_to_defaults self
                   = mk (objects self ++ [top])%list (DEFAULT_CONFIG self)
                        (List.length (objects self))).
  { unfold reset_to_defaults, copy_defaults. rewrite Htop. reflexivity. }
  rewrite Hfresh. unfold set, get.
  rewrite (split_on_dotted section key Hs Hk), (split_on_no_dot key Hk).
  cbn [removelast last navigate objects config DEFAULT_CONFIG].
  rewrite read_alloc_new. split.
  - rewrite dict_mem_get, Hget. cbn [negb]. rewrite Hget.
    cbn [navigate]. rewrite (read_alloc_old _ _ _ _ Hread).
    split; [reflexivity|].
    unfold reset_to_defaults, copy_defaults.
    cbn [objects config DEFAULT_CONFIG].
    assert (Htop' : read (write (objects self ++ [top])%list a
                                (PyDict.set key v d))
                         (DEFAULT_CONFIG self) = Some top).
    { rewrite (read_write_other _ _ _ _ Hne). apply read_alloc_old, Htop. }
    rewrite Htop'. cbn [alloc objects config lookup].
    rewrite read_alloc_new, Hget.
    erewrite read_alloc_old
      by (apply (read_write_same _ _ _ d), read_alloc_old, Hread).
    rewrite dict_get_updated. reflexivity.
  - split; [reflexivity|].
    unfold reset_to_defaults, copy_defaults.
    cbn [objects config DEFAULT_CONFIG].
    assert (Htop' : read (write (objects self ++ [top])%list
                                (List.length (objects self))
                                (PyDict.set key v top))
                         (DEFAULT_CONFIG self) = Some top).
    { rewrite (read_write_other _ _ _ _ (not_eq_sym Htop_old)).
      apply read_alloc_old, Htop. }
    rewrite Htop'. cbn [alloc objects config lookup].
    rewrite !read_alloc_new. reflexivity.
Qed.

Lemma dict_update_get (V : Type) (updates target : PyDict.t V) (k : string) :
  NoDup (PyDict.keys updates) ->
  PyDict.get k
    (fold_left (fun acc kv => PyDict.set (fst kv) (snd kv) acc) updates target)
  = match PyDict.get k updates with
    | Some v => Some v
    | None => PyDict.get k target
    end.
Proof.
  revert target. induction updates as [|[k1 v1] r IH]; intros target Hnd;
    cbn [fold_left]; [reflexivity|].
  inversion Hnd as [|? ? Hnotin Hnd']; subst.
  rewrite IH by exact Hnd'. cbn [PyDict.get fst snd].
  destruct (String.eqb k1 k) eqn:E.
  - apply String.eqb_eq in E. subst k1.
    destruct (PyDict.get k r) as [v|] eqn:Hget.
    + exfalso. apply Hnotin. apply dict_get_in_keys. eauto.
    + apply dict_get_updated.
  - apply String.eqb_neq in E.
    destruct (PyDict.get k r); [reflexivity|].
    apply dict_get_elsewhere, E.
Qed.

(** X27. [update_section] followed by [get]: when the configuration has no
    entry for the section, or a dict of its own, [update_section] raises
    nothing, and [get] on [section.key] then returns the value the updates
    have for the key, and for a key the updates do not have what the section
    had before. *)
Theorem update_section_then_get
        (self : t) (section key : string) (updates : PyDict.t value)
        (default : value) :
  no_dot section -> no_dot key -> section_ready self section ->
  NoDup (PyDict.keys updates) ->
  let '(self', outcome) := update_section self section updates in
  outcome = Done
  /\ get self' (dotted section key) default
     = match PyDict.get key updates with
       | Some v => v
       | None => get self (dotted section key) default
       end.
Proof.
  intros Hs Hk (root & Hroot & Hsection) Hnd.
  unfold update_section, get. rewrite (split_on_dotted section key Hs Hk).
  rewrite Hroot.
  destruct Hsection as [Hnone|(a & d & Hget & Hne & Hread)].
  - rewrite dict_mem_get, Hnone. cbn [negb alloc].
    rewrite dict_get_updated.
    pose proof (read_in_range _ _ _ Hroot) as Hfresh.
    assert (Hroot' : read (objects self ++ [[]])%list (config self) = Some root)
      by (apply read_alloc_old, Hroot).
    rewrite (read_write_other _ _ _ _ Hfresh), read_alloc_new.
    cbn [objects config DEFAULT_CONFIG]. split; [reflexivity|].
    cbn [lookup].
    rewrite (read_write_other _ _ _ _ (not_eq_sym Hfresh)).
    rewrite (read_write_same _ _ _ _ Hroot'), dict_get_updated.
    erewrite read_write_same
      by (rewrite (read_write_other _ _ _ _ Hfresh); apply read_alloc_new).
    rewrite (dict_update_get _ _ _ _ Hnd), Hroot, Hnone. cbn [PyDict.get].
    destruct (PyDict.get key updates); reflexivity.
  - rewrite dict_mem_get, Hget. cbn [negb]. rewrite Hget, Hread.
    cbn [objects config DEFAULT_CONFIG]. split; [reflexivity|].
    cbn [lookup].
    rewrite (read_write_other _ _ _ _ Hne), Hroot, Hget.
    rewrite (read_write_same _ _ _ _ Hread), Hread.
    rewrite (dict_update_get _ _ _ _ Hnd).
    destruct (PyDict.get key updates); reflexivity.
Qed.
End Configuration.

(* ------------------------------------------------------------------ *)
(** ** The properties above on Scenario A and on the default
    configuration *)

Section Examples.
Open Scope R_scope.

Lemma scenario_A_reachable : reachable scenario_A_index.
Proof. apply reachable_add, reachable_init. Qed.

Lemma scenario_A_builds :
  exists self',
    TFIDFIndexer.build_index scenario_A_index = Ok self' /\ built self'.
Proof.
  destruct (build_index_defined _ (reachable_consistent _ scenario_A_reachable))
    as (self' & Hrun & _).
  exists self'. split; [exact Hrun|]. exists scenario_A_index.
  split; [exact scenario_A_reachable | exact Hrun].
Qed.

Lemma empty_store_proper : proper_store DocumentStore.empty.
Proof. split; [constructor | intros d []]. Qed.

Lemma scenario_A_engine_reachable : engine_reachable scenario_A_engine.
Proof.
  apply engine_add.
  exact (engine_init true 3 10 (1 / 100) DocumentStore.empty true empty_engine
                     empty_store_proper (init_empty_engine true)).
Qed.

Lemma scenario_A_engine_builds :
  exists self',
    QuestifySearchEngine.build_index scenario_A_engine = Ok self'
    /\ built (QuestifySearchEngine.indexer self')
    /\ in_sync self'.
Proof.
  destruct scenario_A_builds as (idx & Hrun & Hbuilt).
  assert (Hengine : QuestifySearchEngine.build_index scenario_A_engine
                    = Ok (QuestifySearchEngine.with_indexer scenario_A_engine idx)).
  { unfold QuestifySearchEngine.build_index.
    change (QuestifySearchEngine.indexer scenario_A_engine)
      with scenario_A_index.
    rewrite Hrun. reflexivity. }
  eexists. split; [exact Hengine|]. split; [exact Hbuilt|].
  exact (proj1 (engine_reachable_ok _
                  (engine_build _ _ scenario_A_engine_reachable Hengine))).
Qed.

(** "cooking" is the seventh term the index of Scenario A meets. *)
Lemma vocabulary_ids_on_scenario_A :
  PyDict.get "cooking" (TFIDFIndexer.vocabulary scenario_A_index) = Some 6%nat
  <-> nth_error (PyDict.keys (TFIDFIndexer.vocabulary scenario_A_index)) 6
      = Some "cooking".
Proof.
  exact (vocabulary_ids_are_positions scenario_A_index "cooking" 6
                                      scenario_A_reachable).
Defined.

(** d3 of Scenario A is a candidate for the query term "cooking". *)
Lemma candidate_on_scenario_A :
  In "d3" (TFIDFIndexer.get_candidate_documents scenario_A_index ["cooking"]).
Proof.
  apply (document_with_query_term_is_candidate
           scenario_A_index ["cooking"] ["cooking"; "recipes"] "d3" "cooking").
  - exact scenario_A_reachable.
  - reflexivity.
  - left. reflexivity.
  - left. reflexivity.
Defined.

(** The query vector of ["learning"] on the built index of Scenario A. *)
Lemma query_vector_on_scenario_A :
  exists self',
    TFIDFIndexer.build_index scenario_A_index = Ok self'
    /\ exists query_vector,
         TFIDFIndexer.get_query_vector self' ["learning"] = Ok query_vector
         /\ (forall term,
               In term ["learning"] -> known self' term = true ->
               PyDict.get term query_vector
               = Some (INR (count_occ string_dec ["learning"] term)
                       / INR (List.length ["learning"])
                       * ln (INR (TFIDFIndexer.total_documents self')
                             / INR (List.length (posting self' term)))))
         /\ (forall term,
               ~ In term ["learning"] \/ known self' term = false ->
               PyDict.get term query_vector = None).
Proof.
  destruct scenario_A_builds as (self' & Hrun & Hbuilt).
  exists self'. split; [exact Hrun|].
  exact (get_query_vector_on_built_index self' ["learning"] Hbuilt).
Defined.

(** Building the index of Scenario A a second time changes nothing. *)
Lemma build_index_twice_on_scenario_A :
  exists self',
    TFIDFIndexer.build_index scenario_A_index = Ok self'
    /\ TFIDFIndexer.build_index self' = Ok self'.
Proof.
  destruct scenario_A_builds as (self' & Hrun & Hbuilt).
  exists self'. split; [exact Hrun|].
  exact (build_index_twice self' Hbuilt).
Defined.

Lemma one_term_nodup : NoDup (PyDict.keys one_term).
Proof. repeat constructor. simpl. tauto. Qed.

Lemma two_terms_nodup : NoDup (PyDict.keys two_terms).
Proof.
  repeat constructor; simpl; [|tauto]. intros [H|[]]. discriminate.
Qed.

(** A one-term vector against a two-term vector, either way round. *)
Lemma similarity_of_two_vectors_symmetric :
  CosineSimilarityCalculator.calculate_similarity
    one_term two_terms (sqrt (sumsq (PyDict.values two_terms)))
  = CosineSimilarityCalculator.calculate_similarity
      two_terms one_term (sqrt (sumsq (PyDict.values one_term))).
Proof.
  apply (calculate_similarity_symmetric one_term two_terms).
  - exact one_term_nodup.
  - exact two_terms_nodup.
  - apply l2_norm_real.
  - apply l2_norm_real.
Defined.

(** A two-term vector against itself. *)
Lemma similarity_of_a_vector_with_itself :
  CosineSimilarityCalculator.calculate_similarity
    two_terms two_terms (sqrt (sumsq (PyDict.values two_terms))) = Ok 1.
Proof.
  apply (calculate_similarity_with_itself two_terms).
  - exact two_terms_nodup.
  - apply l2_norm_real.
  - apply Rgt_not_eq, sqrt_lt_R0. simpl. lra.
Defined.

Lemma one_document_store_wf : store_wf one_document_store.
Proof.
  exact (proj2 (store_add_document_proper _ "d1" "cooking recipes" true
                  empty_store_proper)).
Qed.

(** Removing the document of a one-document store. *)
Lemma remove_the_only_document :
  DocumentStore.remove_document one_document_store "d1" true
  = (true, DocumentStore.empty)
  /\ DocumentStore.get_document_content DocumentStore.empty "d1" = None.
Proof.
  generalize (remove_document_effect one_document_store "d1" true
                                     one_document_store_wf).
  change (DocumentStore.remove_document one_document_store "d1" true)
    with (true, DocumentStore.empty).
  intros (_ & _ & H). split; [reflexivity|].
  exact (proj1 (proj2 (H eq_refl))).
Defined.

(** Adding a document to the empty store and removing it again. *)
Lemma add_then_remove_on_empty_store :
  DocumentStore.remove_document
    (snd (DocumentStore.add_document DocumentStore.empty "d1" "cooking recipes"
                                     false))
    "d1" true
  = (true, DocumentStore.empty).
Proof.
  apply (add_then_remove_document DocumentStore.empty "d1" "cooking recipes"
                                  false true); simpl; tauto.
Defined.

(** The engine that was given the documents of Scenario A. *)
Lemma index_follows_store_on_scenario_A :
  in_sync scenario_A_engine
  /\ proper_store (QuestifySearchEngine.document_store scenario_A_engine).
Proof.
  exact (index_follows_store scenario_A_engine scenario_A_engine_reachable).
Defined.

(** The query "learning" on the built engine of Scenario A. *)
Lemma search_on_built_scenario_A :
  exists self,
    QuestifySearchEngine.build_index scenario_A_engine = Ok self
    /\ QuestifySearchEngine.search_body self "learning"
       = Ok (QuestifySearchEngine.search self "learning")
    /\ QuestifySearchEngine.total_results
         (QuestifySearchEngine.search self "learning")
       = List.length
           (QuestifySearchEngine.results
              (QuestifySearchEngine.search self "learning")).
Proof.
  destruct scenario_A_engine_builds as (self & Hrun & Hbuilt & _).
  exists self. split; [exact Hrun|].
  destruct (search_on_built_index self "learning" Hbuilt)
    as (Hbody & _ & Htotal & _).
  split; [exact Hbody | exact Htotal].
Defined.

Lemma search_results_on_built_scenario_A :
  exists self,
    QuestifySearchEngine.build_index scenario_A_engine = Ok self
    /\ Forall
         (fun result =>
            exists text term,
              DocumentStore.get_document_content
                (QuestifySearchEngine.document_store self)
                (ResultRanker.doc_id result) = Some text
              /\ ResultRanker.content result = Some text
              /\ In term (QueryProcessor.process_query
                            (QuestifySearchEngine.query_processor self)
                            "learning")
              /\ In term (TextPreprocessor.preprocess
                            (QuestifySearchEngine.preprocessor self) text))
         (QuestifySearchEngine.results
            (QuestifySearchEngine.search self "learning")).
Proof.
  destruct scenario_A_engine_builds as (self & Hrun & Hbuilt & Hsync).
  exists self. split; [exact Hrun|].
  exact (search_results_match_query self "learning" Hsync Hbuilt).
Defined.

(** The query "learning" before [build_index], and a query whose term has
    a backslash. *)
Lemma search_on_unbuilt_scenario_A :
  QuestifySearchEngine.search scenario_A_engine "learning"
  = QuestifySearchEngine.no_results
      (QuestifySearchEngine.QueryError "Search error: 'learning'")
  /\ QuestifySearchEngine.search backslash_engine foo_backslash_bar
     = QuestifySearchEngine.no_results
         (QuestifySearchEngine.QueryError
            ("Search error: " ++ foo_backslash_bar_key_error)).
Proof.
  split.
  - exact (search_before_build_index scenario_A_engine "learning" "learning"
                                     eq_refl eq_refl).
  - exact (search_before_build_index backslash_engine foo_backslash_bar
                                     foo_backslash_bar eq_refl eq_refl).
Defined.

(** Removing d3 of Scenario A while the file cannot be deleted. *)
Lemma failed_removal_on_scenario_A :
  exists self',
    QuestifySearchEngine.remove_document scenario_A_engine "d3" false
    = Ok (false, self')
    /\ QuestifySearchEngine.indexer self'
       = QuestifySearchEngine.indexer scenario_A_engine
    /\ DocumentStore.get_document_content
         (QuestifySearchEngine.document_store self') "d3" = None.
Proof.
  apply (failed_removal_keeps_index scenario_A_engine "d3").
  - exact (proj2 (proj1 (proj2 (engine_reachable_ok _
                                  scenario_A_engine_reachable)))).
  - reflexivity.
Defined.

Lemma default_configuration_ready :
  section_ready QuestifyConfig.init "search".
Proof.
  exists [("text_preprocessing", QuestifyConfig.VDict 0);
          ("search", QuestifyConfig.VDict 1);
          ("storage", QuestifyConfig.VDict 2);
          ("performance", QuestifyConfig.VDict 3);
          ("ui", QuestifyConfig.VDict 4)].
  split; [reflexivity|]. right.
  exists 1%nat, [("max_results", QuestifyConfig.VInt 10);
                 ("min_similarity_score",
                  QuestifyConfig.VFloat 0x1.47ae147ae147bp-7%float)].
  split; [reflexivity|]. split; [discriminate | reflexivity].
Qed.

Lemma default_configuration_section :
  default_section QuestifyConfig.init "search".
Proof.
  exists [("text_preprocessing", QuestifyConfig.VDict 0);
          ("search", QuestifyConfig.VDict 1);
          ("storage", QuestifyConfig.VDict 2);
          ("performance", QuestifyConfig.VDict 3);
          ("ui", QuestifyConfig.VDict 4)].
  exists 1%nat, [("max_results", QuestifyConfig.VInt 10);
                 ("min_similarity_score",
                  QuestifyConfig.VFloat 0x1.47ae147ae147bp-7%float)].
  split; [reflexivity|]. split; [reflexivity|].
  split; [discriminate | reflexivity].
Qed.

(** Setting [search.max_results] in the default configuration. *)
Lemma set_then_get_max_results :
  QuestifyConfig.get
    (fst (QuestifyConfig.set QuestifyConfig.init "search.max_results"
                             (QuestifyConfig.VInt 3)))
    "search.max_results" QuestifyConfig.VNone
  = QuestifyConfig.VInt 3.
Proof.
  pose proof (set_then_get QuestifyConfig.init "search" "max_results"
                (QuestifyConfig.VInt 3) QuestifyConfig.VNone
                eq_refl eq_refl default_configuration_ready) as H.
  change (dotted "search" "max_results") with "search.max_results" in H.
  destruct (QuestifyConfig.set QuestifyConfig.init "search.max_results"
                               (QuestifyConfig.VInt 3)) as [self' outcome].
  exact (proj1 (proj2 H)).
Defined.

(** [search.max_results] after a reset, a [set] and another reset. *)
Lemma reset_to_defaults_keeps_max_results :
  QuestifyConfig.get
    (QuestifyConfig.reset_to_defaults
       (fst (QuestifyConfig.set
               (QuestifyConfig.reset_to_defaults QuestifyConfig.init)
               "search.max_results" (QuestifyConfig.VInt 3))))
    "search.max_results" QuestifyConfig.VNone
  = QuestifyConfig.VInt 3.
Proof.
  pose proof (reset_to_defaults_keeps_nested_values
                QuestifyConfig.init "search" "max_results"
                (QuestifyConfig.VInt 3) QuestifyConfig.VNone
                eq_refl eq_refl default_configuration_section) as [H _].
  change (dotted "search" "max_results") with "search.max_results" in H.
  destruct (QuestifyConfig.set
              (QuestifyConfig.reset_to_defaults QuestifyConfig.init)
              "search.max_results" (QuestifyConfig.VInt 3))
    as [self' outcome].
  exact (proj2 H).
Defined.

(** The custom configuration [{'search': {'max_results': 3}}]. *)
Lemma update_section_then_get_max_results :
  QuestifyConfig.get
    (fst (QuestifyConfig.update_section
            QuestifyConfig.init "search"
            [("max_results", QuestifyConfig.VInt 3)]))
    "search.max_results" QuestifyConfig.VNone
  = QuestifyConfig.VInt 3.
Proof.
  assert (Hnd : NoDup (PyDict.keys [("max_results", QuestifyConfig.VInt 3)])).
  { repeat constructor. simpl. tauto. }
  pose proof (update_section_then_get QuestifyConfig.init "search" "max_results"
                [("max_results", QuestifyConfig.VInt 3)] QuestifyConfig.VNone
                eq_refl eq_refl default_configuration_ready Hnd) as H.
  change (dotted "search" "max_results") with "search.max_results" in H.
  destruct (QuestifyConfig.update_section
              QuestifyConfig.init "search"
              [("max_results", QuestifyConfig.VInt 3)]) as [self' outcome].
  exact (proj2 H).
Defined.

(** The scores of the query "learning" on the built engine of Scenario A. *)
Lemma search_scores_on_built_scenario_A :
  exists self,
    QuestifySearchEngine.build_index scenario_A_engine = Ok self
    /\ Forall
         (fun result =>
            exists s,
              ResultRanker.similarity_score result = ResultRanker.round4 s
              /\ 0 < s <= 1
              /\ ResultRanker.min_similarity_score
                   (QuestifySearchEngine.ranker self) <= s
              /\ 0 <= ResultRanker.similarity_score result <= 1)
         (QuestifySearchEngine.results
            (QuestifySearchEngine.search self "learning")).
Proof.
  destruct scenario_A_engine_builds as (self & Hrun & Hbuilt & _).
  exists self. split; [exact Hrun|].
  exact (search_scores_are_bounded self "learning" Hbuilt).
Defined.

(** Two words with two spaces between them. *)
Lemma process_query_joins_deep_learning :
  QueryProcessor.process_query default_query_processor "Deep  Learning"
  = ["deeplearning"].
Proof.
  exact (process_query_joins_plain_words default_query_processor
                                         "Deep  Learning" eq_refl).
Defined.
End Examples.
